(** * AI request orchestration and rule-augmented analysis layer

    A shallow embedding of the AI layer of the weekly focus planner
    backend: the provider orchestrator ([aiAPI.js]), the HuggingFace
    adapter ([huggingfaceAPI.js]), the three rule engines
    ([feasibilityCheck.js], [taskDowngrade.js], the overthinking guard)
    and the response parsers (the weekly reflection section parser and the
    task extraction of [routes/ai.js]).

    Conventions of the embedding:
    - a JavaScript string is the list of its UTF-16 code units;
    - an awaited promise is modelled by the way it settles
      ([Fulfilled] or [Rejected]); a [try]/[catch] is a [match] on it;
    - what the code reads from its surroundings (environment variables,
      provider replies, the clock, [String.prototype.toLowerCase]) is a
      parameter of the function that reads it. *)

From Stdlib Require Import ZArith NArith QArith Qround List String Ascii Lia Bool.
From Stdlib Require Import DecimalString.
From stdpp Require Import gmap strings list.
Import ListNotations.

(* ================================================================== *)
(** ** JavaScript strings, errors and promises                          *)
(* ================================================================== *)

Module JS.

Local Open Scope N_scope.

(** A string value: its sequence of UTF-16 code units. *)
Definition jsstring : Type := list N.

(** *** Literals

    String literals of the source are written as Rocq strings (UTF-8
    bytes) and decoded into code units by [js]. *)

Definition continuation (b : N) : N := N.land b 63.

Definition units_of_code_point (cp : N) : list N :=
  if cp <? 65536 then [cp]
  else let v := cp - 65536 in
       [55296 + N.shiftr v 10; 56320 + N.land v 1023].

Fixpoint utf16_of_utf8 (bs : list N) : list N :=
  match bs with
  | [] => []
  | b :: r =>
      if b <? 128 then b :: utf16_of_utf8 r
      else if b <? 224 then
        match r with
        | b1 :: r1 =>
            units_of_code_point
              (N.lor (N.shiftl (N.land b 31) 6) (continuation b1))
              ++ utf16_of_utf8 r1
        | _ => []
        end
      else if b <? 240 then
        match r with
        | b1 :: b2 :: r2 =>
            units_of_code_point
              (N.lor (N.shiftl (N.land b 15) 12)
                 (N.lor (N.shiftl (continuation b1) 6) (continuation b2)))
              ++ utf16_of_utf8 r2
        | _ => []
        end
      else
        match r with
        | b1 :: b2 :: b3 :: r3 =>
            units_of_code_point
              (N.lor (N.shiftl (N.land b 7) 18)
                 (N.lor (N.shiftl (continuation b1) 12)
                    (N.lor (N.shiftl (continuation b2) 6) (continuation b3))))
              ++ utf16_of_utf8 r3
        | _ => []
        end
  end.

Definition js (s : string) : jsstring :=
  utf16_of_utf8 (map N_of_ascii (list_ascii_of_string s)).

(** The double quote and the apostrophe, and the line feed. *)
Definition dquote : N := 34.
Definition squote : N := 39.
Definition LF : N := 10.

(** *** Primitive string operations *)

(** Strict equality [===] of two strings. *)
Fixpoint eqb (s t : jsstring) : bool :=
  match s, t with
  | [], [] => true
  | c :: s', d :: t' => (c =? d) && eqb s' t'
  | _, _ => false
  end.

(** Truthiness of a string: every string but the empty one. *)
Definition truthy (s : jsstring) : bool :=
  match s with [] => false | _ :: _ => true end.

(** Truthiness of a value that may be [undefined]. *)
Definition truthy_opt (v : option jsstring) : bool :=
  match v with Some s => truthy s | None => false end.

(** ECMAScript WhiteSpace and LineTerminator code units: what [trim]
    strips and what the regular expression class [\s] matches. *)
Definition isWhiteSpace (c : N) : bool :=
  ((9 <=? c) && (c <=? 13)) || (c =? 32) || (c =? 160) || (c =? 5760)
  || ((8192 <=? c) && (c <=? 8202)) || (c =? 8232) || (c =? 8233)
  || (c =? 8239) || (c =? 8287) || (c =? 12288) || (c =? 65279).

Fixpoint skipWhile (p : N -> bool) (s : jsstring) : jsstring :=
  match s with
  | [] => []
  | c :: s' => if p c then skipWhile p s' else s
  end.

Definition trimStart (s : jsstring) : jsstring := skipWhile isWhiteSpace s.
Definition trimEnd (s : jsstring) : jsstring :=
  rev (skipWhile isWhiteSpace (rev s)).
Definition trim (s : jsstring) : jsstring := trimEnd (trimStart s).

(** [s.startsWith(p)]. *)
Fixpoint startsWith (p s : jsstring) : bool :=
  match p, s with
  | [], _ => true
  | c :: p', d :: s' => (c =? d) && startsWith p' s'
  | _ :: _, [] => false
  end.

(** [s.includes(p)]. *)
Fixpoint includes (p s : jsstring) : bool :=
  startsWith p s
  || match s with
     | [] => false
     | _ :: s' => includes p s'
     end.

(** [s.split('\n')]: never empty, [''] for the empty string. *)
Fixpoint split (sep : N) (s : jsstring) : list jsstring :=
  match s with
  | [] => [[]]
  | c :: s' =>
      if c =? sep then [] :: split sep s'
      else match split sep s' with
           | l :: ls => (c :: l) :: ls
           | [] => [[c]]
           end
  end.

(** Whether a string spans more than one line of a split on line feeds. *)
Definition hasLineFeed (line : jsstring) : bool := existsb (N.eqb LF) line.

(** [lines.join(sep)]. *)
Fixpoint join (sep : jsstring) (parts : list jsstring) : jsstring :=
  match parts with
  | [] => []
  | [p] => p
  | p :: ps => p ++ sep ++ join sep ps
  end.

(** [s.replace(/^[m1 m2 ...]\s*/, '')]: one leading marker and the white
    space after it are removed; a string that does not begin with a
    marker is returned as it is. *)
Definition stripLeading (markers : list N) (s : jsstring) : jsstring :=
  match s with
  | c :: s' =>
      if existsb (N.eqb c) markers then skipWhile isWhiteSpace s' else s
  | [] => []
  end.

(** The global replacement that deletes every apostrophe and every
    double quote of [s]. *)
Definition removeQuotes (s : jsstring) : jsstring :=
  List.filter (fun c => negb ((c =? squote) || (c =? dquote))) s.

(** [String(n)] for an integer [n], as a template literal prints it. *)
Definition ofZ (n : Z) : jsstring :=
  js (NilZero.string_of_int (Z.to_int n)).

(** ASCII-only lowering: what [toLowerCase] does on a string of ASCII
    code units. *)
Definition asciiLower (s : jsstring) : jsstring :=
  map (fun c => if (65 <=? c) && (c <=? 90) then c + 32 else c) s.

(** *** Errors and promises *)

(** A thrown value: the kind of the error object and its [message]. *)
Inductive ErrorKind := PlainError | ReferenceError | TypeError.

Record Error := mkError { kind : ErrorKind; message : jsstring }.

Definition error (msg : jsstring) : Error := mkError PlainError msg.

(** How an awaited promise settles. *)
Inductive Settled (A : Type) : Type :=
| Fulfilled (a : A)
| Rejected (e : Error).
Arguments Fulfilled {A} a.
Arguments Rejected {A} e.

End JS.

Import JS.

(** The process environment: the variables the AI layer reads, each
    absent ([None]) or set to a string. *)
Record Env := mkEnv {
  GEMINI_API_KEY : option jsstring;
  GROQ_API_KEY : option jsstring;
  HUGGINGFACE_API_KEY : option jsstring
}.

(* ================================================================== *)
(** ** The orchestrator: [backend/AI/aiAPI.js]                          *)
(* ================================================================== *)

Module AiAPI.

(** What [callAI] writes to the console: one [Attempting] line per
    provider it turns to and one [Failed] line, with the provider's error
    message, per caught failure. *)
Inductive LogLine :=
| Attempting (provider : jsstring)
| Failed (provider : jsstring) (message : jsstring).

(** The providers a call turned to, in the order of the log. *)
Fixpoint attempted (log : list LogLine) : list jsstring :=
  match log with
  | [] => []
  | Attempting p :: log' => p :: attempted log'
  | Failed _ _ :: log' => attempted log'
  end.

(** The error messages the call caught and logged. *)
Fixpoint caught (log : list LogLine) : list jsstring :=
  match log with
  | [] => []
  | Attempting _ :: log' => caught log'
  | Failed _ m :: log' => m :: caught log'
  end.

Definition PROVIDER_ORDER : list jsstring :=
  [js "gemini"; js "groq"; js "huggingface"].

Definition allUnavailable : Error :=
  error (js "All free AI providers are currently unavailable").

Section Orchestrator.

(** [PRIMARY_PROVIDER]: the lowered value of [AI_PROVIDER], read once when
    the module is loaded, [None] when the variable is not set. *)
Variable PRIMARY_PROVIDER : option jsstring.
Variable env : Env.

(** The three adapters, each given by the way its promise settles for a
    prompt and a token bound. *)
Variable callGemini : jsstring -> Z -> Settled jsstring.
Variable callGroq : jsstring -> Z -> Settled jsstring.
Variable callHuggingFace : jsstring -> Z -> Settled jsstring.

(** The provider chain of one call: the override first when it is set,
    then the default order without it. *)
Definition providers : list jsstring :=
  match PRIMARY_PROVIDER with
  | Some p =>
      if truthy p
      then p :: List.filter (fun q => negb (JS.eqb q p)) PROVIDER_ORDER
      else PROVIDER_ORDER
  | None => PROVIDER_ORDER
  end.

(** The [switch] of the loop body: [None] is the [default: continue]
    branch; a missing key throws before the adapter is invoked. *)
Definition attempt (provider prompt : jsstring) (maxTokens : Z)
  : option (Settled jsstring) :=
  if JS.eqb provider (js "gemini") then
    Some (if negb (truthy_opt (GEMINI_API_KEY env))
          then Rejected (error (js "Gemini API key missing"))
          else callGemini prompt maxTokens)
  else if JS.eqb provider (js "groq") then
    Some (if negb (truthy_opt (GROQ_API_KEY env))
          then Rejected (error (js "Groq API key missing"))
          else callGroq prompt maxTokens)
  else if JS.eqb provider (js "huggingface") then
    Some (if negb (truthy_opt (HUGGINGFACE_API_KEY env))
          then Rejected (error (js "HuggingFace API key missing"))
          else callHuggingFace prompt maxTokens)
  else None.

(** The [for ... of] loop over the chain, with the final [throw]. *)
Fixpoint tryProviders (chain : list jsstring) (prompt : jsstring)
    (maxTokens : Z) : list LogLine * Settled jsstring :=
  match chain with
  | [] => ([], Rejected allUnavailable)
  | provider :: rest =>
      match attempt provider prompt maxTokens with
      | Some (Fulfilled text) => ([Attempting provider], Fulfilled text)
      | Some (Rejected e) =>
          let '(log, r) := tryProviders rest prompt maxTokens in
          (Attempting provider :: Failed provider (message e) :: log, r)
      | None =>
          let '(log, r) := tryProviders rest prompt maxTokens in
          (Attempting provider :: log, r)
      end
  end.

(** A provider fails in a call when its turn yields no text: its key is
    missing, its adapter rejects, or the switch does not know its name. *)
Definition fails (provider prompt : jsstring) (maxTokens : Z) : Prop :=
  forall text, attempt provider prompt maxTokens <> Some (Fulfilled text).

(** [callAI(prompt, maxTokens)]: the console log and the settlement. *)
Definition callAI (prompt : jsstring) (maxTokens : Z)
  : list LogLine * Settled jsstring :=
  tryProviders providers prompt maxTokens.

(** [callAIStructured]: the prompt between a line feed and the fixed
    rules, handed to [callAI]. *)
Definition callAIStructured (prompt : jsstring) (maxTokens : Z)
  : list LogLine * Settled jsstring :=
  let structuredPrompt :=
    [LF] ++ prompt ++ js "

RULES:
- Respond in bullet points
- Keep it concise
- Avoid unnecessary explanations
" in
  callAI structuredPrompt maxTokens.

End Orchestrator.

(** [handleAIError] of the orchestrator module. *)
Definition handleAIError (e : Error) : jsstring :=
  if includes (js "rate") (message e)
     || includes (js "quota") (message e)
     || includes (js "limit") (message e)
  then js "AI services are busy right now. Please try again shortly."
  else if includes (js "API key") (message e)
  then js "AI service configuration error. Please contact the administrator."
  else js "All AI services are temporarily unavailable. Manual input is still available.".

End AiAPI.

(* ================================================================== *)
(** ** The HuggingFace adapter: [backend/AI/huggingfaceAPI.js]          *)
(* ================================================================== *)

Module HuggingFace.

(** The POST the adapter issues; the sampling parameters (temperature
    0.7, top_p 0.95, return_full_text false) are constants of the source
    and left out. *)
Record Request := mkRequest {
  url : jsstring;
  authorization : jsstring;
  inputs : jsstring;
  max_new_tokens : Z
}.

(** A JSON object of a reply, by the two properties the adapter reads:
    [error] and [generated_text], each absent or a string. *)
Record Obj := mkObj {
  error_field : option jsstring;
  generated_text : option jsstring
}.

(** A JSON body: an array (by its first element, if any) or an object. *)
Inductive Json :=
| JArray (first : option Obj)
| JObject (o : Obj).

(** What one [fetch] yields: a rejection of the fetch itself, or a
    response with its [ok] flag, its status text and the settlement of
    [response.json()]. *)
Inductive Reply :=
| FetchFails (e : Error)
| Response (ok : bool) (statusText : jsstring) (body : Settled Json).

(** The adapter's effects on the world: the requests sent so far and the
    milliseconds spent in [setTimeout]. *)
Record World := mkWorld {
  sent : list Request;
  slept : Z
}.

Definition start : World := mkWorld [] 0.

Definition model : jsstring := js "mistralai/Mistral-7B-Instruct-v0.2".

(** [errorData.error]: [undefined] on an array. *)
Definition errorOf (data : Json) : option jsstring :=
  match data with
  | JArray _ => None
  | JObject o => error_field o
  end.

(** [errorData.error?.includes('loading')]. *)
Definition isLoading (errorData : Json) : bool :=
  match errorOf errorData with
  | Some e => includes (js "loading") e
  | None => false
  end.

(** The text extraction of a successful response. *)
Definition extractText (data : Json) : Settled jsstring :=
  match data with
  | JArray (Some o) =>
      if truthy_opt (generated_text o)
      then Fulfilled (trim (default [] (generated_text o)))
      else Rejected (error (js "Unexpected response format from HuggingFace"))
  | JArray None =>
      Rejected (error (js "Unexpected response format from HuggingFace"))
  | JObject o =>
      if truthy_opt (generated_text o)
      then Fulfilled (trim (default [] (generated_text o)))
      else Rejected (error (js "Unexpected response format from HuggingFace"))
  end.

Section Adapter.

Variable env : Env.

(** The provider: the reply to the [n]-th request of the invocation
    (counted from 0). *)
Variable network : nat -> Reply.

Definition request (key prompt : jsstring) (maxTokens : Z) : Request :=
  mkRequest (js "https://api-inference.huggingface.co/models/" ++ model)
            (js "Bearer " ++ key) prompt maxTokens.

(** [callHuggingFace(prompt, maxTokens)]. The function calls itself after
    a loading reply, so the embedding recurses on a bound [fuel] of
    nested invocations; [None] means the bound was reached before the
    promise settled. The [catch] block logs and rethrows, so a rejection
    passes through it unchanged. *)
Fixpoint callHuggingFace (fuel : nat) (prompt : jsstring) (maxTokens : Z)
    (w : World) : option (Settled jsstring * World) :=
  match fuel with
  | O => None
  | S fuel' =>
      match HUGGINGFACE_API_KEY env with
      | Some (c :: key') =>
          let key := c :: key' in
          let w1 := mkWorld (sent w ++ [request key prompt maxTokens])
                            (slept w) in
          match network (length (sent w)) with
          | FetchFails e => Some (Rejected e, w1)
          | Response false statusText (Rejected e) => Some (Rejected e, w1)
          | Response false statusText (Fulfilled errorData) =>
              if isLoading errorData then
                let w2 := mkWorld (sent w1) (slept w1 + 20000) in
                callHuggingFace fuel' prompt maxTokens w2
              else
                let detail :=
                  if truthy_opt (errorOf errorData)
                  then default [] (errorOf errorData)
                  else statusText in
                Some (Rejected (error (js "HuggingFace API Error: " ++ detail)),
                      w1)
          | Response true _ (Rejected e) => Some (Rejected e, w1)
          | Response true _ (Fulfilled data) => Some (extractText data, w1)
          end
      | _ =>
          Some (Rejected (error
                  (js "HUGGINGFACE_API_KEY is not set in environment variables")),
                w)
      end
  end.

(** The automatic retries of an invocation: every request after the
    first one. *)
Definition retries (w : World) : nat := pred (length (sent w)).

End Adapter.

(** A reply that makes the adapter wait and call itself again: an
    unsuccessful response whose error text includes the word loading. *)
Definition isLoadingReply (r : Reply) : bool :=
  match r with
  | Response false _ (Fulfilled errorData) => isLoading errorData
  | _ => false
  end.

(** What an invocation surfaces on a reply that is not a loading reply. *)
Definition surfaces (r : Reply) : Settled jsstring :=
  match r with
  | FetchFails e => Rejected e
  | Response _ _ (Rejected e) => Rejected e
  | Response false statusText (Fulfilled errorData) =>
      Rejected (error (js "HuggingFace API Error: "
                         ++ (if truthy_opt (errorOf errorData)
                             then default [] (errorOf errorData)
                             else statusText)))
  | Response true _ (Fulfilled data) => extractText data
  end.

(** A loading reply and a successful reply, as the provider sends them. *)
Definition loadingReply : Reply :=
  Response false (js "Service Unavailable")
    (Fulfilled (JObject (mkObj
       (Some (js "Model mistralai/Mistral-7B-Instruct-v0.2 is currently loading"))
       None))).

Definition textReply (text : jsstring) : Reply :=
  Response true (js "OK") (Fulfilled (JArray (Some (mkObj None (Some text))))).

End HuggingFace.

(* ================================================================== *)
(** ** The feasibility engine: [backend/AI/feasibilityCheck.js]         *)
(* ================================================================== *)

Module Feasibility.

(** An entry of [weeklyPlan.dailyTasks], by the property the engine
    reads ([day]) and the task it refers to. *)
Record DailyTask := mkTask {
  taskId : jsstring;
  day : jsstring
}.

Record WeeklyPlan := mkPlan {
  dailyTasks : list DailyTask;
  mainFocusDay : jsstring;
  mood : jsstring
}.

(** A plain object used as a dictionary: its own string keys in insertion
    order, each with its value. *)
Definition Dict (V : Type) : Type := list (jsstring * V).

(** [o[k] = v]: overwrite in place, or append a new key. *)
Fixpoint dict_set {V} (k : jsstring) (v : V) (o : Dict V) : Dict V :=
  match o with
  | [] => [(k, v)]
  | (k', v') :: o' =>
      if JS.eqb k' k then (k, v) :: o' else (k', v') :: dict_set k v o'
  end.

Definition days : list jsstring :=
  [js "Monday"; js "Tuesday"; js "Wednesday"; js "Thursday";
   js "Friday"; js "Saturday"; js "Sunday"].

(** [groupTasksByDay]: one key per canonical day, filled by the
    [forEach]. *)
Definition groupTasksByDay (dailyTasks : list DailyTask)
  : Dict (list DailyTask) :=
  fold_left
    (fun grouped d =>
       dict_set d (List.filter (fun t => JS.eqb (day t) d) dailyTasks) grouped)
    days [].

(** An element of [dailyBreakdown]. *)
Record DailyLoad := mkLoad {
  load_day : jsstring;
  taskCount : Z;
  load : Z;
  label : jsstring
}.

(** [calculateDailyLoads]: the map over [Object.keys(tasksByDay)], each
    key with the value stored under it. *)
Definition calculateDailyLoads (tasksByDay : Dict (list DailyTask))
  : list DailyLoad :=
  map (fun '(d, tasks) =>
         let taskCount := Z.of_nat (length tasks) in
         let load := (taskCount * 2)%Z in
         let label :=
           if (load =? 0)%Z then js "Free"
           else if (load <=? 3)%Z then js "Light"
           else if (load >=? 7)%Z then js "Heavy"
           else js "Balanced" in
         mkLoad d taskCount load label)
      tasksByDay.

(** [Math.round]: the nearest integer, halves upwards. *)
Definition Math_round (x : Q) : Z := Qfloor (x + (1 # 2)).

Record Analysis := mkAnalysis {
  totalTasks : Z;
  totalLoad : Z;
  averageLoad : Q;
  heavyDays : list jsstring;
  emptyDays : list jsstring;
  dailyBreakdown : list DailyLoad;
  hasIssues : bool;
  feasible : bool;
  warnings : list jsstring
}.

(** The unrounded week average [avgLoad = totalLoad / 7]. The numbers of
    the source are modelled by exact rationals. The loads are integers;
    a quotient by 7 either equals a threshold (5 or 6) or differs from it
    by at least 1/7, and ten times the quotient stays at least 1/14 away
    from every half-integer, where [Math.round] changes its value; so the
    comparisons and the rounding of the source agree with the exact ones. *)
Definition avgLoadOf (total : Z) : Q := inject_Z total / 7.

(** [performRuleBasedChecks]. *)
Definition performRuleBasedChecks (weeklyPlan : WeeklyPlan) : Analysis :=
  let tasksByDay := groupTasksByDay (dailyTasks weeklyPlan) in
  let dailyLoads := calculateDailyLoads tasksByDay in
  let heavyDays :=
    map load_day (List.filter (fun d => (load d >=? 7)%Z) dailyLoads) in
  let emptyDays :=
    map load_day (List.filter (fun d => (load d =? 0)%Z) dailyLoads) in
  let totalLoad := fold_left (fun sum d => (sum + load d)%Z) dailyLoads 0%Z in
  let avgLoad := avgLoadOf totalLoad in
  let heavy := (0 <? length heavyDays)%nat in
  let high := negb (Qle_bool avgLoad 5) in
  let w1 :=
    if heavy
    then [js "⚠️ Heavy days detected: " ++ join (js ", ") heavyDays]
    else [] in
  let w2 := if high then [js "⚠️ Overall weekly load is high"] else [] in
  let w3 :=
    if JS.eqb (mood weeklyPlan) (js "tired")
       || JS.eqb (mood weeklyPlan) (js "stressed")
    then [js "⚠️ Your mood is " ++ mood weeklyPlan
            ++ js " - consider reducing task load"]
    else [] in
  mkAnalysis
    (Z.of_nat (length (dailyTasks weeklyPlan)))
    totalLoad
    (inject_Z (Math_round (avgLoad * 10)) / 10)
    heavyDays
    emptyDays
    dailyLoads
    (heavy || high)
    (Qle_bool avgLoad 6 && (length heavyDays <=? 2)%nat)
    (w1 ++ w2 ++ w3).

(** The number of heavy days of an analysis. *)
Definition heavyDayCount (a : Analysis) : nat := length (heavyDays a).

(** The result object of [checkFeasibility]; a property one of the three
    shapes lacks is [None]. *)
Record Result := mkResult {
  success : bool;
  res_feasible : option bool;
  ruleBasedChecks : Analysis;
  aiSuggestions : option jsstring;
  res_error : option jsstring;
  timestamp : option jsstring
}.

Section Engine.

(** [callAIStructured] of the orchestrator, by the settlement of its
    promise, and the clock reading of [new Date().toISOString()]. *)
Variable callAIStructured : jsstring -> Z -> Settled jsstring.
Variable now : jsstring.

(** [performAIAnalysis]: the prompt built from the plan, handed to the
    orchestrator with a bound of 1000 tokens. *)
Definition performAIAnalysis (weeklyPlan : WeeklyPlan) : Settled jsstring :=
  let tasksByDay := groupTasksByDay (dailyTasks weeklyPlan) in
  let dailyLoads := calculateDailyLoads tasksByDay in
  let breakdown :=
    join [LF]
      (map (fun d => load_day d ++ js ": " ++ ofZ (taskCount d)
                     ++ js " tasks (Load: " ++ ofZ (load d)
                     ++ js " points) - " ++ label d)
           dailyLoads) in
  let prompt :=
    js "You are a productivity AI assistant analyzing a student's weekly plan.

Weekly Plan Summary:
Main Focus Day: " ++ mainFocusDay weeklyPlan ++ js "
Current Mood: " ++ mood weeklyPlan ++ js "
Total Tasks: " ++ ofZ (Z.of_nat (length (dailyTasks weeklyPlan))) ++ js "

Daily Breakdown:
" ++ breakdown ++ js "

Task Difficulty Points: Easy = 1, Medium = 2, Hard = 3

Analyze this plan and provide:
1. Is it feasible?
2. Which days are overloaded?
3. 2-3 specific suggestions to improve balance

Respond in short bullet points only." in
  callAIStructured prompt 1000%Z.

(** [checkFeasibility]: the rule-based analysis, elaborated by the
    orchestrator when it reports issues; the [catch] turns a failure of
    the elaboration into an unsuccessful result. *)
Definition checkFeasibility (weeklyPlan : WeeklyPlan) : Settled Result :=
  let ruleBasedAnalysis := performRuleBasedChecks weeklyPlan in
  if hasIssues ruleBasedAnalysis then
    match performAIAnalysis weeklyPlan with
    | Fulfilled aiAnalysis =>
        Fulfilled (mkResult true (Some (feasible ruleBasedAnalysis))
                     ruleBasedAnalysis (Some aiAnalysis) None (Some now))
    | Rejected e =>
        Fulfilled (mkResult false None (performRuleBasedChecks weeklyPlan)
                     None (Some (AiAPI.handleAIError e)) None)
    end
  else
    Fulfilled (mkResult true (Some true) ruleBasedAnalysis
                 (Some (js "Your weekly plan looks well-balanced! 🎯"))
                 None (Some now)).

End Engine.

(** The reading of the property in the words of the specification: the
    average is the sum of the daily loads over 7, as it is. *)
Definition averageLoad_spec (a : Analysis) : Q :=
  inject_Z (fold_right Z.add 0%Z (map load (dailyBreakdown a))) / 7.

(** A task whose [day] is one of the seven canonical day names. *)
Definition canonicalDay (t : DailyTask) : bool :=
  existsb (JS.eqb (day t)) days.

(** The tasks of a plan assigned to day [d]. *)
Definition tasksOn (d : jsstring) (tasks : list DailyTask) : list DailyTask :=
  List.filter (fun t => JS.eqb (day t) d) tasks.

(** The plan with the tasks outside the seven canonical days removed. *)
Definition canonicalPart (p : WeeklyPlan) : WeeklyPlan :=
  mkPlan (List.filter canonicalDay (dailyTasks p)) (mainFocusDay p) (mood p).

End Feasibility.

(* ================================================================== *)
(** ** The downgrade engine: [backend/AI/taskDowngrade.js]              *)
(* ================================================================== *)

Module TaskDowngrade.

Record Suggestions := mkSuggestions {
  ruleBased : jsstring;
  aiGenerated : option jsstring
}.

(** The result object; the fallback shape has no [difficulty] and no
    [missedCount], the regular one has no [fallbackMode]. *)
Record Result := mkResult {
  success : bool;
  originalTask : jsstring;
  difficulty : option jsstring;
  missedCount : option Z;
  suggestions : Suggestions;
  fallbackMode : option bool;
  message : jsstring;
  timestamp : jsstring
}.

Section Engine.

Variable toLowerCase : jsstring -> jsstring.
Variable now : jsstring.

(** The binding of the identifier [callClaude] the module finds when
    [getAIDowngrade] runs. The module imports [callAI] and
    [handleAIError] only, so the identifier resolves to a global of that
    name, if there is one ([Some]), and the call throws a ReferenceError
    otherwise ([None]). *)
Variable callClaude : option (jsstring -> Z -> Settled jsstring).

(** [getRuleBasedDowngrade]. *)
Definition getRuleBasedDowngrade (taskName difficulty : jsstring) : jsstring :=
  let taskLower := toLowerCase taskName in
  let isHard := JS.eqb difficulty (js "Hard") in
  let isMedium := JS.eqb difficulty (js "Medium") in
  if includes (js "gym") taskLower || includes (js "workout") taskLower then
    if isHard then js "20-minute light cardio or stretching"
    else if isMedium then js "10-minute walk or yoga"
    else js "5-minute stretching or mobility exercises"
  else if includes (js "study") taskLower || includes (js "learn") taskLower
          || includes (js "read") taskLower then
    if isHard then js "Review notes for 15 minutes"
    else if isMedium then js "Skim important topics for 10 minutes"
    else js "Quick 5-minute concept recap"
  else if includes (js "code") taskLower || includes (js "program") taskLower
          || includes (js "debug") taskLower then
    if isHard then js "Read documentation or watch tutorial for 15 minutes"
    else if isMedium then js "Review code concepts for 10 minutes"
    else js "Practice one small coding problem (5-10 mins)"
  else if includes (js "write") taskLower || includes (js "essay") taskLower
          || includes (js "report") taskLower then
    if isHard then js "Create outline or bullet points only"
    else if isMedium then js "Write one paragraph or key points"
    else js "Brainstorm ideas for 10 minutes"
  else if includes (js "practice") taskLower
          || includes (js "revision") taskLower then
    if isHard then js "Complete 3 easy problems"
    else if isMedium then js "Review solved examples"
    else js "Quick concept revision (10 mins)"
  else
    if isHard then js "Reduce scope to 20-30 minutes of easier work"
    else if isMedium then js "Reduce to 15 minutes of simplified version"
    else js "Spend just 10 minutes on the easiest part".

Definition quoted (s : jsstring) : jsstring := [dquote] ++ s ++ [dquote].

(** [getAIDowngrade]: the prompt, the call with a bound of 200 tokens and
    the trimmed answer. *)
Definition getAIDowngrade (taskName difficulty : jsstring) (missedCount : Z)
  : Settled jsstring :=
  let prompt :=
    js "You are a productivity assistant helping a student who keeps missing tasks.

Original Task: " ++ quoted taskName ++ js "
Difficulty: " ++ difficulty ++ js "
Times Missed: " ++ ofZ missedCount ++ js "

The student needs a lighter, easier alternative to this task so they don't break their habit completely.

Provide ONE specific, actionable suggestion that:
- Takes 10-20 minutes maximum
- Is significantly easier than the original
- Maintains some progress toward the goal
- Feels achievable when motivation is low

Format: Just the suggestion, 1-2 sentences maximum.

Example good suggestions:
- Instead of " ++ quoted (js "Gym workout") ++ js " → "
      ++ quoted (js "10-minute walk or light stretching") ++ js "
- Instead of " ++ quoted (js "Study 2 hours") ++ js " → "
      ++ quoted (js "Review flashcards for 15 minutes") ++ js "
- Instead of " ++ quoted (js "Complete assignment") ++ js " → "
      ++ quoted (js "Work on outline for 20 minutes") ++ js "

Your suggestion:" in
  match callClaude with
  | None => Rejected (mkError ReferenceError (js "callClaude is not defined"))
  | Some call =>
      match call prompt 200%Z with
      | Fulfilled aiResponse => Fulfilled (trim aiResponse)
      | Rejected e => Rejected e
      end
  end.

(** [suggestTaskDowngrade]: the [try] block, and the [catch] block that
    answers with the rule-based suggestion alone. *)
Definition suggestTaskDowngrade (taskName difficulty : jsstring)
    (missedCount : Z) : Settled Result :=
  let ruleBasedSuggestion := getRuleBasedDowngrade taskName difficulty in
  match getAIDowngrade taskName difficulty missedCount with
  | Fulfilled aiSuggestion =>
      Fulfilled
        (mkResult true taskName (Some difficulty) (Some missedCount)
           (mkSuggestions ruleBasedSuggestion (Some aiSuggestion))
           None
           (js "You've missed " ++ quoted taskName ++ js " " ++ ofZ missedCount
              ++ js " times. Here's an easier alternative to keep momentum:")
           now)
  | Rejected _ =>
      let ruleBasedSuggestion := getRuleBasedDowngrade taskName difficulty in
      Fulfilled
        (mkResult true taskName None None
           (mkSuggestions ruleBasedSuggestion None)
           (Some true)
           (js "Consider this easier alternative for " ++ quoted taskName
              ++ js ":")
           now)
  end.

(** [shouldSuggestDowngrade]. *)
Definition shouldSuggestDowngrade (missedCount : Z) (difficulty : jsstring)
  : bool :=
  if JS.eqb difficulty (js "Hard") && (missedCount >=? 2)%Z then true
  else if JS.eqb difficulty (js "Medium") && (missedCount >=? 3)%Z then true
  else if JS.eqb difficulty (js "Easy") && (missedCount >=? 4)%Z then true
  else false.

End Engine.

End TaskDowngrade.

(* ================================================================== *)
(** ** The overthinking guard                                           *)
(* ================================================================== *)

Module OverthinkingGuard.

(** The result object; the non-triggered shape has only [success],
    [triggered] and a null [message], the fallback shape has no
    [editCount], [daysInactive] and [timestamp]. *)
Record Result := mkResult {
  success : bool;
  triggered : bool;
  severity : option jsstring;
  editCount : option Z;
  daysInactive : option Z;
  message : option jsstring;
  timestamp : option jsstring;
  fallbackMode : option bool
}.

(** [getRuleBasedWarning]. *)
Definition getRuleBasedWarning (editCount : Z) : jsstring :=
  if (editCount >=? 10)%Z then
    js "🛑 STOP PLANNING! You've edited this 10+ times. Start executing NOW."
  else if (editCount >=? 7)%Z then
    js "⚠️ Too much planning. Time to take action. Execution beats perfection."
  else if (editCount >=? 5)%Z then
    js "💭 You've planned enough. Start working on your first task right now."
  else js "📝 Your plan looks good. Time to execute!".

(** [getInactivityMessage]. *)
Definition getInactivityMessage (daysInactive : Z) : jsstring :=
  if (daysInactive >=? 7)%Z then
    js "⏰ It's been a week! Your plan is waiting. Start with the easiest task today."
  else if (daysInactive >=? 5)%Z then
    js "⏰ 5 days without action. Don't let the plan gather dust. Begin now!"
  else js "⏰ 3+ days inactive. Even 10 minutes of work keeps momentum alive.".

(** [shouldWarnUser]. *)
Definition shouldWarnUser (editCount daysInactive : Z) : bool :=
  (editCount >=? 5)%Z || (daysInactive >=? 3)%Z.

(** [getSeverityLevel]. *)
Definition getSeverityLevel (editCount daysInactive : Z) : jsstring :=
  if (editCount >=? 10)%Z then js "critical"
  else if (editCount >=? 7)%Z || (daysInactive >=? 7)%Z then js "severe"
  else if (editCount >=? 5)%Z || (daysInactive >=? 3)%Z then js "moderate"
  else js "none".

(** The position of a value on the four-level scale
    none < moderate < severe < critical; [None] for a string that is not
    on the scale. *)
Definition severityRank (s : jsstring) : option nat :=
  if JS.eqb s (js "none") then Some 0%nat
  else if JS.eqb s (js "moderate") then Some 1%nat
  else if JS.eqb s (js "severe") then Some 2%nat
  else if JS.eqb s (js "critical") then Some 3%nat
  else None.

Section Guard.

(** [callClaude] of the module [./claudeAPI], which is not part of the
    sources at hand: the settlement of its promise for a prompt and a
    token bound. *)
Variable callClaude : jsstring -> Z -> Settled jsstring.
Variable now : jsstring.

Definition quoted (s : jsstring) : jsstring := [dquote] ++ s ++ [dquote].

(** [generateAIWarning]. *)
Definition generateAIWarning (editCount : Z) (severity : jsstring)
  : Settled jsstring :=
  let prompt :=
    js "You are a productivity coach. A student has edited their weekly plan "
      ++ ofZ editCount ++ js " times.

This is a sign of overthinking and planning paralysis.

Generate a firm but friendly one-sentence message to:
1. Acknowledge they've planned enough
2. Push them to start executing
3. " ++ (if JS.eqb severity (js "severe")
         then js "Be very direct and motivating"
         else js "Be gentle but clear") ++ js "

Keep it under 20 words. Make it memorable and actionable.

Examples:
- " ++ quoted (js "Planning band karo, kaam shuru karo. Execution beats perfection.")
      ++ js "
- " ++ quoted (js "You've refined this " ++ ofZ editCount
                 ++ js " times. Time to DO, not just plan.") ++ js "
- " ++ quoted (js "Stop tweaking. Start working. Progress > Perfect plans.")
      ++ js "

Your message:" in
  match callClaude prompt 100%Z with
  | Fulfilled aiResponse => Fulfilled (removeQuotes (trim aiResponse))
  | Rejected e => Rejected e
  end.

(** The object the [catch] block returns. *)
Definition fallback (editCount : Z) : Result :=
  mkResult true (editCount >=? 5)%Z
    (Some (if (editCount >=? 10)%Z then js "severe" else js "moderate"))
    None None
    (Some (getRuleBasedWarning editCount))
    None (Some true).

(** [checkOverthinking(editCount, daysInactive)]. *)
Definition checkOverthinking (editCount daysInactive : Z) : Settled Result :=
  let isOverthinking := (editCount >=? 5)%Z in
  let isSevereOverthinking := (editCount >=? 10)%Z in
  let longInactive := (daysInactive >=? 3)%Z in
  if negb isOverthinking && negb longInactive then
    Fulfilled (mkResult true false None None None None None None)
  else
    let answer (severity message : jsstring) : Result :=
      mkResult true true (Some severity) (Some editCount) (Some daysInactive)
        (Some message) (Some now) None in
    if isSevereOverthinking then
      match generateAIWarning editCount (js "severe") with
      | Fulfilled message => Fulfilled (answer (js "severe") message)
      | Rejected _ => Fulfilled (fallback editCount)
      end
    else if isOverthinking then
      match generateAIWarning editCount (js "moderate") with
      | Fulfilled message => Fulfilled (answer (js "moderate") message)
      | Rejected _ => Fulfilled (fallback editCount)
      end
    else
      Fulfilled (answer (js "inactive") (getInactivityMessage daysInactive)).

End Guard.

End OverthinkingGuard.

(* ================================================================== *)
(** ** The weekly reflection parser ([parseReflectionSections])         *)
(* ================================================================== *)

Module WeeklyReflection.

(** The four keys of the [sections] object. *)
Definition sectionKeys : list string :=
  ["whatWentWell"; "whatWentWrong"; "possibleReasons"; "suggestions"]%string.

(** The object literal the parser starts from. *)
Definition emptySections : gmap string (list jsstring) :=
  <["whatWentWell"%string := []]>
    (<["whatWentWrong"%string := []]>
       (<["possibleReasons"%string := []]>
          (<["suggestions"%string := []]> ∅))).

(** The two variables the [forEach] callback updates. *)
Record State := mkState {
  sections : gmap string (list jsstring);
  currentSection : option string
}.

Definition initial : State := mkState emptySections None.

(** The three bullet markers: hyphen, bullet and asterisk. *)
Definition hyphen : N := 45.
Definition bullet : N := 8226.
Definition asterisk : N := 42.

(** The marker test of the content branch. *)
Definition isBulletLine (cleanLine : jsstring) : bool :=
  startsWith [hyphen] cleanLine || startsWith [bullet] cleanLine
  || startsWith [asterisk] cleanLine.

(** The text of a bullet line: marker and following white space removed,
    then trimmed. *)
Definition contentOf (cleanLine : jsstring) : jsstring :=
  trim (stripLeading [hyphen; bullet; asterisk] cleanLine).

(** A section of a reflection as the model is asked to write it: a
    header line and the bullet lines under it. *)
Record Block := mkBlock {
  key : string;
  header : jsstring;
  bullets : list jsstring
}.

Definition linesOfBlock (b : Block) : list jsstring := header b :: bullets b.

(** The text of a sequence of blocks: their lines, one per line. *)
Definition render (blocks : list Block) : jsstring :=
  join [LF] (flat_map linesOfBlock blocks).

(** The items of a block: the texts of its bullet lines, in order. *)
Definition items (b : Block) : list jsstring :=
  map (fun line => contentOf (trim line)) (bullets b).

(** The object read key by key: what [Object.entries] yields on the four
    keys, [None] for a key the object lacks. *)
Definition entries (m : gmap string (list jsstring))
  : list (string * option (list jsstring)) :=
  map (fun k => (k, m !! k)) sectionKeys.

(** The invariant of the parser state: the object has exactly the four
    keys, and the current section, once set, is one of them. *)
Definition invariant (st : State) : Prop :=
  dom (sections st) = list_to_set sectionKeys
  /\ forall k, currentSection st = Some k -> k ∈ sectionKeys.

Section Parser.

Variable toLowerCase : jsstring -> jsstring.

(** The header detection: the chain of [includes] tests on the lowered
    line, first match first. *)
Definition detectHeader (cleanLine : jsstring) : option string :=
  if includes (js "what went well") (toLowerCase cleanLine)
  then Some "whatWentWell"%string
  else if includes (js "what went wrong") (toLowerCase cleanLine)
  then Some "whatWentWrong"%string
  else if includes (js "possible reasons") (toLowerCase cleanLine)
  then Some "possibleReasons"%string
  else if includes (js "suggestions") (toLowerCase cleanLine)
  then Some "suggestions"%string
  else None.

(** The body of the [forEach] callback. [None] stands for the TypeError
    of a [push] on a key the object does not have. *)
Definition visit (st : State) (line : jsstring) : option State :=
  let cleanLine := trim line in
  match detectHeader cleanLine with
  | Some key => Some (mkState (sections st) (Some key))
  | None =>
      match currentSection st with
      | Some cur =>
          if isBulletLine cleanLine then
            let content := contentOf cleanLine in
            if truthy content then
              match sections st !! cur with
              | Some items =>
                  Some (mkState (<[cur := items ++ [content]]> (sections st))
                                (Some cur))
              | None => None
              end
            else Some st
          else Some st
      | None => Some st
      end
  end.

Fixpoint forEach (lines : list jsstring) (st : State) : option State :=
  match lines with
  | [] => Some st
  | line :: rest =>
      match visit st line with
      | Some st' => forEach rest st'
      | None => None
      end
  end.

(** The non-blank lines of the answer. *)
Definition linesOf (aiResponse : jsstring) : list jsstring :=
  List.filter (fun line => truthy (trim line)) (split LF aiResponse).

(** [parseReflectionSections]. *)
Definition parseReflectionSections (aiResponse : jsstring)
  : option (gmap string (list jsstring)) :=
  match forEach (linesOf aiResponse) initial with
  | Some st => Some (sections st)
  | None => None
  end.

(** A header line for the key [k]: one non-blank line on which the header
    detection answers [k]. *)
Definition isHeaderFor (k : string) (line : jsstring) : bool :=
  negb (hasLineFeed line) && truthy (trim line)
  && bool_decide (detectHeader (trim line) = Some k).

(** A bullet line: one line that is no header, starts with a marker once
    trimmed and has a text after the marker. *)
Definition isContentLine (line : jsstring) : bool :=
  negb (hasLineFeed line)
  && bool_decide (detectHeader (trim line) = None)
  && isBulletLine (trim line) && truthy (contentOf (trim line)).

Definition wellFormed (b : Block) : bool :=
  isHeaderFor (key b) (header b) && forallb isContentLine (bullets b).

End Parser.

End WeeklyReflection.

(* ================================================================== *)
(** ** Task generation: [backend/routes/ai.js], POST /generate-tasks    *)
(* ================================================================== *)

Module Routes.

Definition hyphen : N := 45.
Definition bullet : N := 8226.
Definition asterisk : N := 42.

(** The [tasks] binding of the handler: the split, the filter on the
    trimmed line, the replacement on the line itself, the trim and the
    filter on the length. *)
Definition parseTasks (aiResponse : jsstring) : list jsstring :=
  List.filter (fun task => (0 <? length task)%nat)
    (map (fun line => trim (stripLeading [bullet; hyphen] line))
       (List.filter
          (fun line => startsWith [bullet] (trim line)
                       || startsWith [hyphen] (trim line))
          (split LF aiResponse))).

(** The answers of the handler. *)
Inductive Response :=
| BadRequest (message : jsstring)
| Generated (goalName : jsstring) (tasks : list jsstring)
            (rawResponse : jsstring)
| ServerError (message : jsstring) (error : jsstring).

Section Handler.

(** [callClaude] of [../ai/claudeAPI], which is not part of the sources
    at hand. *)
Variable callClaude : jsstring -> Z -> Settled jsstring.

Definition quoted (s : jsstring) : jsstring := [dquote] ++ s ++ [dquote].

(** The handler of POST /generate-tasks, after authentication. *)
Definition generateTasks (goalName goalCategory : option jsstring)
  : Response :=
  match goalName with
  | Some (c :: name') =>
      let goalName := c :: name' in
      let prompt :=
        js "You are a student productivity expert. Break down this weekly goal into 5-7 specific, actionable tasks.

Goal: " ++ quoted goalName ++ js "
Category: " ++ (if truthy_opt goalCategory then default [] goalCategory
                else js "General") ++ js "

Requirements:
- Each task should be realistic (30 mins - 2 hours)
- Include variety: studying, practice, projects, review
- Make tasks concrete and measurable
- Consider student energy levels
- Format: One task per line, starting with •

Example format:
• Study chapter concepts for 1 hour
• Complete 10 practice problems
• Create summary notes (30 mins)
• Review with flashcards (45 mins)
• Take practice quiz

Now generate tasks for the goal above:" in
      match callClaude prompt 1500%Z with
      | Fulfilled aiResponse =>
          Generated goalName (parseTasks aiResponse) aiResponse
      | Rejected e =>
          ServerError (js "Failed to generate tasks with AI") (JS.message e)
      end
  | _ => BadRequest (js "Goal name is required")
  end.

End Handler.

(** Bullet extraction in the words of the specification: a line is kept
    when its trimmed form starts with one of the three markers; the
    marker is stripped and the remainder trimmed; empty results are
    discarded. *)
Definition bulletItem_spec (line : jsstring) : option jsstring :=
  match trim line with
  | c :: rest =>
      if (c =? bullet)%N || (c =? hyphen)%N || (c =? asterisk)%N
      then Some (trim rest) else None
  | [] => None
  end.

Definition extractBulletItems_spec (text : jsstring) : list jsstring :=
  List.filter truthy (omap bulletItem_spec (split LF text)).

End Routes.

(* ================================================================== *)
(** ** Sample inputs                                                    *)
(* ================================================================== *)

Module Samples.

(** An environment with the three keys set. *)
Definition env : Env :=
  mkEnv (Some (js "g-key")) (Some (js "q-key")) (Some (js "hf-key")).

(** A provider whose model is still loading for the first two requests
    and answers the third. *)
Definition warmingTwice (n : nat) : HuggingFace.Reply :=
  if (n <? 2)%nat then HuggingFace.loadingReply
  else HuggingFace.textReply (js " ok ").

(** A plan with a single task, on Monday. *)
Definition oneTask : Feasibility.WeeklyPlan :=
  Feasibility.mkPlan [Feasibility.mkTask (js "t1") (js "Monday")]
    (js "Monday") (js "normal").

(** A plan whose only task names a day outside the canonical seven. *)
Definition strayTask : Feasibility.WeeklyPlan :=
  Feasibility.mkPlan [Feasibility.mkTask (js "t1") (js "monday")]
    (js "Monday") (js "normal").

(** Every provider is down: the text generation call rejects with the
    aggregate error of the orchestrator. *)
Definition outage (prompt : jsstring) (maxTokens : Z) : Settled jsstring :=
  Rejected AiAPI.allUnavailable.

(** A text generation call that answers every prompt with one sentence. *)
Definition answering (prompt : jsstring) (maxTokens : Z) : Settled jsstring :=
  Fulfilled (js "  Walk for ten minutes.  ").

(** A clock reading. *)
Definition now : jsstring := js "2025-01-06T09:00:00.000Z".

(** The reflection format the prompt of the weekly reflection asks for:
    four headers, two bullet lines under each, a blank line between the
    sections. *)
Definition reflection : jsstring :=
  js "**What Went Well:**
- Highlight achievements
- Recognize patterns of success

**What Went Wrong:**
- Identify missed tasks
- Note consistency issues

**Possible Reasons:**
- Analyze why tasks were missed
- Consider mood and workload factors

**Suggestions for Next Week:**
- Give 2-3 specific, actionable improvements
- Be encouraging and realistic".

(** The same four sections as blocks, in another order and with the
    three markers. *)
Definition blocks : list WeeklyReflection.Block :=
  [WeeklyReflection.mkBlock "suggestions" (js "## Suggestions")
     [js "* Plan less"; js "  • Start earlier"];
   WeeklyReflection.mkBlock "whatWentWell" (js "What went well")
     [js "- Finished the essay"; js "- Slept enough"];
   WeeklyReflection.mkBlock "possibleReasons" (js "POSSIBLE REASONS:")
     [js "- Exams"; js "-Too many tasks on Monday "];
   WeeklyReflection.mkBlock "whatWentWrong" (js "What Went Wrong")
     [js "• Skipped the gym"; js "• Skipped revision"]]%string.

(** A plan with four tasks on Monday and one on Friday. *)
Definition heavyMonday : Feasibility.WeeklyPlan :=
  Feasibility.mkPlan
    [Feasibility.mkTask (js "t1") (js "Monday");
     Feasibility.mkTask (js "t2") (js "Monday");
     Feasibility.mkTask (js "t3") (js "Friday");
     Feasibility.mkTask (js "t4") (js "Monday");
     Feasibility.mkTask (js "t5") (js "Monday")]
    (js "Monday") (js "tired").

(** The orchestrator with every adapter rejecting. *)
Definition failing (prompt : jsstring) (maxTokens : Z) : Settled jsstring :=
  Rejected (error (js "rate limit reached")).

Definition downStructured (prompt : jsstring) (maxTokens : Z)
  : Settled jsstring :=
  (AiAPI.callAIStructured None env failing failing failing prompt maxTokens).2.

End Samples.

(* ================================================================== *)
(** ** The Gemini adapter: [backend/AI/geminiAPI.js]                    *)
(* ================================================================== *)

Module Gemini.

(** The POST of the adapter; the sampling parameters are constants of
    the source. *)
Record Request := mkRequest {
  url : jsstring;
  text : jsstring;
  maxOutputTokens : Z
}.

(** A JSON body, by the two paths the adapter reads, each undefined or a
    string: [error?.message] and
    [candidates?.[0]?.content?.parts?.[0]?.text]. *)
Record Body := mkBody {
  errorMessage : option jsstring;
  candidateText : option jsstring
}.

Inductive Reply :=
| FetchFails (e : Error)
| Response (ok : bool) (statusText : jsstring) (body : Settled Body).

Section Adapter.

Variable env : Env.

(** What the provider answers to the request of the invocation. *)
Variable reply : Reply.

(** [callGemini(prompt, maxTokens)]: the settlement and the requests
    sent. The [catch] block logs and rethrows. *)
Definition callGemini (prompt : jsstring) (maxTokens : Z)
  : Settled jsstring * list Request :=
  match GEMINI_API_KEY env with
  | Some (c :: key') =>
      let key := c :: key' in
      let sent :=
        [mkRequest
           (js "https://generativelanguage.googleapis.com/v1beta/models/gemini-1.5-flash:generateContent?key="
              ++ key)
           prompt maxTokens] in
      match reply with
      | FetchFails e => (Rejected e, sent)
      | Response false statusText (Rejected e) => (Rejected e, sent)
      | Response false statusText (Fulfilled errorData) =>
          let detail :=
            if truthy_opt (errorMessage errorData)
            then default [] (errorMessage errorData)
            else statusText in
          (Rejected (error (js "Gemini API Error: " ++ detail)), sent)
      | Response true _ (Rejected e) => (Rejected e, sent)
      | Response true _ (Fulfilled data) =>
          let text :=
            if truthy_opt (candidateText data)
            then default [] (candidateText data)
            else [] in
          if negb (truthy text)
          then (Rejected (error (js "No response text from Gemini")), sent)
          else (Fulfilled (trim text), sent)
      end
  | _ =>
      (Rejected (error
         (js "GEMINI_API_KEY is not set in environment variables")), [])
  end.

End Adapter.

End Gemini.

(* ================================================================== *)
(** ** The Groq adapter: [backend/AI/groqAPI.js]                        *)
(* ================================================================== *)

Module Groq.

Record Request := mkRequest {
  url : jsstring;
  authorization : jsstring;
  model : jsstring;
  content : jsstring;
  max_tokens : Z
}.

(** A JSON body, by the two paths the adapter reads, each undefined or a
    string: [error?.message] and [choices?.[0]?.message?.content]. *)
Record Body := mkBody {
  errorMessage : option jsstring;
  choiceContent : option jsstring
}.

Inductive Reply :=
| FetchFails (e : Error)
| Response (ok : bool) (statusText : jsstring) (body : Settled Body).

Section Adapter.

Variable env : Env.
Variable reply : Reply.

(** [callGroq(prompt, maxTokens)]. *)
Definition callGroq (prompt : jsstring) (maxTokens : Z)
  : Settled jsstring * list Request :=
  match GROQ_API_KEY env with
  | Some (c :: key') =>
      let key := c :: key' in
      let sent :=
        [mkRequest (js "https://api.groq.com/openai/v1/chat/completions")
           (js "Bearer " ++ key) (js "llama-3.3-70b-versatile")
           prompt maxTokens] in
      match reply with
      | FetchFails e => (Rejected e, sent)
      | Response false statusText (Rejected e) => (Rejected e, sent)
      | Response false statusText (Fulfilled errorData) =>
          let detail :=
            if truthy_opt (errorMessage errorData)
            then default [] (errorMessage errorData)
            else statusText in
          (Rejected (error (js "Groq API Error: " ++ detail)), sent)
      | Response true _ (Rejected e) => (Rejected e, sent)
      | Response true _ (Fulfilled data) =>
          let text :=
            if truthy_opt (choiceContent data)
            then default [] (choiceContent data)
            else [] in
          if negb (truthy text)
          then (Rejected (error (js "No response text from Groq")), sent)
          else (Fulfilled (trim text), sent)
      end
  | _ =>
      (Rejected (error
         (js "GROQ_API_KEY is not set in environment variables")), [])
  end.

End Adapter.

End Groq.

(* ================================================================== *)
(** ** The fast HuggingFace call ([callHuggingFaceFast])                *)
(* ================================================================== *)

Module HuggingFaceFast.

Section Adapter.

Variable env : Env.
Variable network : nat -> HuggingFace.Reply.

(** [data[0]?.generated_text || ''] on an array,
    [data.generated_text || ''] on an object. *)
Definition textOf (data : HuggingFace.Json) : jsstring :=
  match data with
  | HuggingFace.JArray (Some o) =>
      if truthy_opt (HuggingFace.generated_text o)
      then default [] (HuggingFace.generated_text o) else []
  | HuggingFace.JArray None => []
  | HuggingFace.JObject o =>
      if truthy_opt (HuggingFace.generated_text o)
      then default [] (HuggingFace.generated_text o) else []
  end.

(** [callHuggingFaceFast(prompt, maxTokens)]: one request to the smaller
    model, with [max_new_tokens] as its only parameter; the body is read
    whatever the status of the response. *)
Definition callHuggingFaceFast (prompt : jsstring) (maxTokens : Z)
    (w : HuggingFace.World) : Settled jsstring * HuggingFace.World :=
  match HUGGINGFACE_API_KEY env with
  | Some (c :: key') =>
      let key := c :: key' in
      let w1 :=
        HuggingFace.mkWorld
          (HuggingFace.sent w
             ++ [HuggingFace.mkRequest
                   (js "https://api-inference.huggingface.co/models/google/flan-t5-large")
                   (js "Bearer " ++ key) prompt maxTokens])
          (HuggingFace.slept w) in
      match network (length (HuggingFace.sent w)) with
      | HuggingFace.FetchFails e => (Rejected e, w1)
      | HuggingFace.Response _ _ (Rejected e) => (Rejected e, w1)
      | HuggingFace.Response _ _ (Fulfilled data) =>
          (Fulfilled (trim (textOf data)), w1)
      end
  | _ => (Rejected (error (js "HUGGINGFACE_API_KEY is not set")), w)
  end.

End Adapter.

End HuggingFaceFast.

(* ================================================================== *)
(** ** The connection test of the orchestrator ([testAIConnection])     *)
(* ================================================================== *)

Module Connection.

(** The object the test resolves with. *)
Record Result := mkResult {
  success : bool;
  response : option jsstring;
  error : option jsstring
}.

Section Test.

Variable PRIMARY_PROVIDER : option jsstring.
Variable env : Env.
Variable callGemini : jsstring -> Z -> Settled jsstring.
Variable callGroq : jsstring -> Z -> Settled jsstring.
Variable callHuggingFace : jsstring -> Z -> Settled jsstring.

Definition probe : jsstring := js "Reply with: AI system operational.".

(** [testAIConnection()]. *)
Definition testAIConnection : Result :=
  match (AiAPI.callAI PRIMARY_PROVIDER env callGemini callGroq
           callHuggingFace probe 50).2 with
  | Fulfilled response => mkResult true (Some response) None
  | Rejected e => mkResult false None (Some (message e))
  end.

End Test.

End Connection.

(* ================================================================== *)
(** ** The execution nudge of the overthinking guard                    *)
(* ================================================================== *)

Module Nudge.

Definition nudges : list jsstring :=
  [js "✅ Start with your easiest task right now";
   js "⚡ 10 minutes of action > hours of planning";
   js "🎯 Pick one task and begin. Don't think, just do.";
   js "💪 Momentum starts with one small step today";
   js "🚀 The best plan is the one you actually execute"].

(** [array[i]] for an integer [i]: undefined outside the array. *)
Definition at_index (l : list jsstring) (i : Z) : option jsstring :=
  if (i <? 0)%Z then None else nth_error l (Z.to_nat i).

(** [getExecutionNudge()], with the value of [Math.random()] as its
    argument; [None] is [undefined]. *)
Definition getExecutionNudge (random : Q) : option jsstring :=
  at_index nudges (Qfloor (random * inject_Z (Z.of_nat (length nudges)))).

End Nudge.

(* ================================================================== *)
(** ** The weekly reflection engine ([generateWeeklyReflection])        *)
(* ================================================================== *)

Module Reflection.

(** An entry of [weekData.taskBreakdown]. *)
Record TaskEntry := mkEntry {
  taskName : jsstring;
  day : jsstring;
  status : jsstring
}.

(** The week data of a request; [taskBreakdown] may be missing. *)
Record WeekData := mkWeek {
  totalTasks : Z;
  completedTasks : Z;
  missedTasks : Z;
  taskBreakdown : option (list TaskEntry);
  mood : jsstring;
  mainFocusDay : jsstring
}.

(** [weekSummary]; the fallback shape has three properties only. *)
Record WeekSummary := mkSummary {
  sum_totalTasks : Z;
  sum_completedTasks : Z;
  sum_missedTasks : option Z;
  completionRate : Z;
  sum_mood : option jsstring;
  sum_mainFocusDay : option jsstring
}.

Record Result := mkResult {
  success : bool;
  weekSummary : WeekSummary;
  reflection : gmap string (list jsstring);
  rawAIResponse : option jsstring;
  fallbackMode : option bool;
  timestamp : jsstring
}.

(** [list || 'None'] in the prompt. *)
Definition orNone (list : jsstring) : jsstring :=
  if truthy list then list else js "None".

Section Engine.

Variable toLowerCase : jsstring -> jsstring.
Variable now : jsstring.

(** [Math.round((completedTasks / totalTasks) * 100)] as the double
    arithmetic of the source computes it from the two counts. *)
Variable percent : Z -> Z -> Z.

(** The binding of the identifier [callClaudeStructured], which the
    module calls without importing it: a global of that name, if there is
    one, and a ReferenceError otherwise. *)
Variable callClaudeStructured : option (jsstring -> Z -> Settled jsstring).

(** [generateFallbackReflection]: the four lists, each built by the
    pushes of the source in their order. *)
Definition generateFallbackReflection (weekData : WeekData)
  : gmap string (list jsstring) :=
  let completionRate :=
    percent (completedTasks weekData) (totalTasks weekData) in
  let whatWentWell :=
    if (completionRate >=? 80)%Z then
      [js "Excellent completion rate - you stayed consistent!";
       js "Strong commitment to your goals this week"]
    else if (completionRate >=? 60)%Z then
      [js "Good progress on majority of tasks";
       js "Maintained momentum despite challenges"]
    else
      [js "Completed " ++ ofZ (completedTasks weekData)
         ++ js " tasks - that's still progress"] in
  let whatWentWrong :=
    if (missedTasks weekData >? 0)%Z then
      [ofZ (missedTasks weekData) ++ js " tasks were skipped or incomplete"]
      ++ (if (completionRate <? 50)%Z
          then [js "More than half of planned tasks were missed"] else [])
    else [] in
  let possibleReasons :=
    (if JS.eqb (mood weekData) (js "tired")
        || JS.eqb (mood weekData) (js "stressed")
     then [js "Your mood (" ++ mood weekData
             ++ js ") may have impacted energy levels"]
     else [])
    ++ (if (completionRate <? 50)%Z
        then [js "Weekly plan may have been too ambitious"] else []) in
  let suggestions :=
    [js "Start with smaller, achievable tasks to build momentum";
     js "Focus on consistency over perfection"]
    ++ (if (completionRate <? 70)%Z
        then [js "Reduce task difficulty or quantity for next week"]
        else []) in
  <["whatWentWell"%string := whatWentWell]>
    (<["whatWentWrong"%string := whatWentWrong]>
       (<["possibleReasons"%string := possibleReasons]>
          (<["suggestions"%string := suggestions]> ∅))).

(** The list of the tasks of one status, one line per task. *)
Definition tasksList (wanted : jsstring) (breakdown : list TaskEntry)
  : jsstring :=
  join [LF]
    (map (fun t => js "- " ++ taskName t ++ js " (" ++ day t ++ js ")")
       (List.filter (fun t => JS.eqb (status t) wanted) breakdown)).

(** [generateAIReflection]: a missing [taskBreakdown] throws when it is
    filtered, before the call is reached. *)
Definition generateAIReflection (weekData : WeekData) : Settled jsstring :=
  let completionRate :=
    percent (completedTasks weekData) (totalTasks weekData) in
  match taskBreakdown weekData with
  | None =>
      Rejected (mkError TypeError
        (js "Cannot read properties of undefined (reading 'filter')"))
  | Some breakdown =>
      let missedTasksList := tasksList (js "skipped") breakdown in
      let completedTasksList := tasksList (js "completed") breakdown in
      let prompt :=
        js "You are an AI productivity coach providing a weekly reflection for a student.

Weekly Summary:
━━━━━━━━━━━━━━━━━━━━━━━━━━━━━━━━━━━━━━
Total Tasks: "
      ++ ofZ (totalTasks weekData)
      ++ js "
Completed: "
      ++ ofZ (completedTasks weekData)
      ++ js " ("
      ++ ofZ completionRate
      ++ js "%)
Missed: "
      ++ ofZ (missedTasks weekData)
      ++ js "
Main Focus Day: "
      ++ mainFocusDay weekData
      ++ js "
Mood State: "
      ++ mood weekData
      ++ js "

Completed Tasks:
"
      ++ orNone completedTasksList
      ++ js "

Missed Tasks:
"
      ++ orNone missedTasksList
      ++ js "
━━━━━━━━━━━━━━━━━━━━━━━━━━━━━━━━━━━━━━

Generate a reflection with these sections:

**What Went Well:**
- Highlight achievements
- Recognize patterns of success

**What Went Wrong:**
- Identify missed tasks
- Note consistency issues

**Possible Reasons:**
- Analyze why tasks were missed
- Consider mood and workload factors

**Suggestions for Next Week:**
- Give 2-3 specific, actionable improvements
- Be encouraging and realistic

Keep each section to 2-3 bullet points. Be honest but supportive." in
      match callClaudeStructured with
      | None =>
          Rejected (mkError ReferenceError
                      (js "callClaudeStructured is not defined"))
      | Some call => call prompt 2000%Z
      end
  end.

(** The result of the [catch] block. *)
Definition fallback (weekData : WeekData) : Result :=
  mkResult true
    (mkSummary (totalTasks weekData) (completedTasks weekData) None
       (percent (completedTasks weekData) (totalTasks weekData)) None None)
    (generateFallbackReflection weekData) None (Some true) now.

(** [generateWeeklyReflection]. *)
Definition generateWeeklyReflection (weekData : WeekData) : Settled Result :=
  let completionRate :=
    percent (completedTasks weekData) (totalTasks weekData) in
  match generateAIReflection weekData with
  | Fulfilled aiReflection =>
      match WeeklyReflection.parseReflectionSections toLowerCase
              aiReflection with
      | Some sections =>
          Fulfilled
            (mkResult true
               (mkSummary (totalTasks weekData) (completedTasks weekData)
                  (Some (missedTasks weekData)) completionRate
                  (Some (mood weekData)) (Some (mainFocusDay weekData)))
               sections (Some aiReflection) None now)
      | None => Fulfilled (fallback weekData)
      end
  | Rejected _ => Fulfilled (fallback weekData)
  end.

End Engine.

End Reflection.

(* ================================================================== *)
(** ** The other handlers of [backend/routes/ai.js]                     *)
(* ================================================================== *)

(** The handlers as they run once the [protect] middleware has let the
    request through. A body is a record whose fields have the types the
    engines document: a field the handler tests for presence is an
    option, [None] for a field the body does not have. *)

Module Api.

(** What a handler answers: status 400 with a message, status 200 with
    the result of the engine, or status 500 with a message and the
    message of the caught error. *)
Inductive Answer (A : Type) : Type :=
| BadRequest (message : jsstring)
| Ok (payload : A)
| ServerError (message : jsstring) (error : jsstring).
Arguments BadRequest {A} message.
Arguments Ok {A} payload.
Arguments ServerError {A} message error.

(** The status code of an answer. *)
Definition status {A} (a : Answer A) : Z :=
  match a with
  | BadRequest _ => 400
  | Ok _ => 200
  | ServerError _ _ => 500
  end.

(** The body of POST /check-feasibility; [dailyTasks] may be missing. *)
Record FeasibilityBody := mkFeasibilityBody {
  fb_dailyTasks : option (list Feasibility.DailyTask);
  fb_mainFocusDay : jsstring;
  fb_mood : jsstring
}.

(** The body of POST /suggest-downgrade. *)
Record DowngradeBody := mkDowngradeBody {
  db_taskName : option jsstring;
  db_difficulty : option jsstring;
  db_missedCount : option Z
}.

(** The body of POST /check-overthinking. *)
Record OverthinkingBody := mkOverthinkingBody {
  ob_editCount : option Z;
  ob_daysInactive : option Z
}.

(** The body of POST /weekly-reflection; the two counts the handler
    tests may be missing. *)
Record ReflectionBody := mkReflectionBody {
  rb_totalTasks : option Z;
  rb_completedTasks : option Z;
  rb_missedTasks : Z;
  rb_taskBreakdown : option (list Reflection.TaskEntry);
  rb_mood : jsstring;
  rb_mainFocusDay : jsstring
}.

(** [n || d] for a number that may be missing: zero is falsy. *)
Definition orElse (n : option Z) (d : Z) : Z :=
  match n with
  | Some v => if (v =? 0)%Z then d else v
  | None => d
  end.

(** Truthiness of a number that may be missing. *)
Definition truthyNumber (n : option Z) : bool :=
  match n with
  | Some v => negb (v =? 0)%Z
  | None => false
  end.

Section Handlers.

Variable toLowerCase : jsstring -> jsstring.
Variable now : jsstring.
Variable percent : Z -> Z -> Z.

(** The text generation calls the engines reach: the structured call of
    the orchestrator, [callClaude] of the guard's own import, and the
    bindings of the two identifiers the downgrade and reflection modules
    call without importing them. *)
Variable callAIStructured : jsstring -> Z -> Settled jsstring.
Variable guardCallClaude : jsstring -> Z -> Settled jsstring.
Variable downgradeCallClaude : option (jsstring -> Z -> Settled jsstring).
Variable callClaudeStructured : option (jsstring -> Z -> Settled jsstring).

(** POST /check-feasibility. *)
Definition checkFeasibilityRoute (body : FeasibilityBody)
  : Answer Feasibility.Result :=
  match fb_dailyTasks body with
  | Some (t :: tasks) =>
      match Feasibility.checkFeasibility callAIStructured now
              (Feasibility.mkPlan (t :: tasks) (fb_mainFocusDay body)
                 (fb_mood body)) with
      | Fulfilled analysis => Ok analysis
      | Rejected e =>
          ServerError (js "Failed to check feasibility") (JS.message e)
      end
  | _ => BadRequest (js "Weekly plan with tasks is required")
  end.

(** POST /suggest-downgrade. *)
Definition suggestDowngradeRoute (body : DowngradeBody)
  : Answer TaskDowngrade.Result :=
  match db_taskName body, db_difficulty body with
  | Some (c :: name), Some (d :: level) =>
      match TaskDowngrade.suggestTaskDowngrade toLowerCase now
              downgradeCallClaude (c :: name) (d :: level)
              (orElse (db_missedCount body) 2) with
      | Fulfilled suggestion => Ok suggestion
      | Rejected e =>
          ServerError (js "Failed to generate downgrade suggestion")
            (JS.message e)
      end
  | _, _ => BadRequest (js "Task name and difficulty are required")
  end.

(** POST /check-overthinking. *)
Definition checkOverthinkingRoute (body : OverthinkingBody)
  : Answer OverthinkingGuard.Result :=
  match ob_editCount body with
  | None => BadRequest (js "Edit count is required")
  | Some editCount =>
      match OverthinkingGuard.checkOverthinking guardCallClaude now
              editCount (orElse (ob_daysInactive body) 0) with
      | Fulfilled guardResponse => Ok guardResponse
      | Rejected e =>
          ServerError (js "Failed to check overthinking") (JS.message e)
      end
  end.

(** POST /weekly-reflection. *)
Definition weeklyReflectionRoute (body : ReflectionBody)
  : Answer Reflection.Result :=
  if negb (truthyNumber (rb_totalTasks body))
     || negb (truthyNumber (rb_completedTasks body))
  then BadRequest (js "Week summary data is required")
  else
    match Reflection.generateWeeklyReflection toLowerCase now percent
            callClaudeStructured
            (Reflection.mkWeek (default 0%Z (rb_totalTasks body))
               (default 0%Z (rb_completedTasks body)) (rb_missedTasks body)
               (rb_taskBreakdown body) (rb_mood body)
               (rb_mainFocusDay body)) with
    | Fulfilled reflection => Ok reflection
    | Rejected e =>
        ServerError (js "Failed to generate weekly reflection")
          (JS.message e)
    end.

End Handlers.

End Api.

(* ================================================================== *)
(** * Properties                                                        *)
(* ================================================================== *)

(** Case analysis on every threshold test of the goal. *)
Ltac threshold_cases :=
  repeat match goal with
    | |- context [(?a >=? ?b)%Z] =>
        let E := fresh "E" in
        destruct (a >=? b)%Z eqn:E;
        [ apply Z.geb_le in E
        | rewrite Z.geb_leb in E; apply Z.leb_gt in E ]
    end.

(** ** Strings *)

Lemma eqb_spec (s t : jsstring) : JS.eqb s t = true <-> s = t.
Proof.
  revert t; induction s as [|c s IH]; intros [|d t]; simpl;
    try (split; [discriminate | discriminate]); try tauto.
  rewrite andb_true_iff, N.eqb_eq, IH. split.
  - intros [-> ->]; reflexivity.
  - intros [= -> ->]; auto.
Qed.

Lemma eqb_refl (s : jsstring) : JS.eqb s s = true.
Proof. apply eqb_spec; reflexivity. Qed.

Lemma eqb_neq (s t : jsstring) : JS.eqb s t = false <-> s <> t.
Proof.
  rewrite <- eqb_spec. destruct (JS.eqb s t); split; congruence.
Qed.

Example js_bullet : js "• a" = [8226; 32; 97]%N.
Proof. reflexivity. Qed.

Example js_stop_sign : js "🛑" = [55357; 57041]%N.
Proof. reflexivity. Qed.

Example trim_example : trim (js "  - x 	") = js "- x".
Proof. reflexivity. Qed.

Example split_example :
  split LF (js "a
b

") = [js "a"; js "b"; []; []].
Proof. reflexivity. Qed.

Example ofZ_example : ofZ 12 = js "12" /\ ofZ (-3) = js "-3" /\ ofZ 0 = js "0".
Proof. repeat split; reflexivity. Qed.

(** ** The orchestrator *)

Section OrchestratorFacts.

Variable PRIMARY_PROVIDER : option jsstring.
Variable env : Env.
Variable callGemini : jsstring -> Z -> Settled jsstring.
Variable callGroq : jsstring -> Z -> Settled jsstring.
Variable callHuggingFace : jsstring -> Z -> Settled jsstring.

Local Abbreviation providers := (AiAPI.providers PRIMARY_PROVIDER).
Local Abbreviation attempt :=
  (AiAPI.attempt env callGemini callGroq callHuggingFace).
Local Abbreviation fails :=
  (AiAPI.fails env callGemini callGroq callHuggingFace).
Local Abbreviation tryProviders :=
  (AiAPI.tryProviders env callGemini callGroq callHuggingFace).
Local Abbreviation callAI :=
  (AiAPI.callAI PRIMARY_PROVIDER env callGemini callGroq callHuggingFace).

Lemma PROVIDER_ORDER_NoDup : NoDup AiAPI.PROVIDER_ORDER.
Proof.
  unfold AiAPI.PROVIDER_ORDER.
  repeat (apply NoDup_cons; split);
    rewrite ?list_elem_of_In; simpl; try apply NoDup_nil_2;
    intuition discriminate.
Qed.

Lemma filter_elem_of (f : jsstring -> bool) (l : list jsstring) (x : jsstring) :
  x ∈ List.filter f l <-> x ∈ l /\ f x = true.
Proof. rewrite !list_elem_of_In. apply filter_In. Qed.

Lemma filter_NoDup (f : jsstring -> bool) (l : list jsstring) :
  NoDup l -> NoDup (List.filter f l).
Proof.
  induction 1 as [|x l Hx Hl IH]; simpl; [constructor|].
  destruct (f x); auto. constructor; auto.
  rewrite filter_elem_of. tauto.
Qed.

(** The chain of a call never names a provider twice. *)
Lemma providers_NoDup : NoDup providers.
Proof.
  unfold AiAPI.providers.
  destruct PRIMARY_PROVIDER as [p|]; [|apply PROVIDER_ORDER_NoDup].
  destruct (truthy p); [|apply PROVIDER_ORDER_NoDup].
  constructor.
  - rewrite filter_elem_of. intros [_ H]. rewrite eqb_refl in H. discriminate.
  - apply filter_NoDup, PROVIDER_ORDER_NoDup.
Qed.

(** Every known provider is on the chain, whatever the override. *)
Lemma providers_complete (p : jsstring) :
  p ∈ AiAPI.PROVIDER_ORDER -> p ∈ providers.
Proof.
  unfold AiAPI.providers. intros Hp.
  destruct PRIMARY_PROVIDER as [q|]; [|exact Hp].
  destruct (truthy q); [|exact Hp].
  destruct (JS.eqb p q) eqn:E.
  - apply eqb_spec in E. subst. left.
  - right. rewrite filter_elem_of. split; [exact Hp|]. rewrite E. reflexivity.
Qed.

(** A name outside the default order is skipped by the switch. *)
Lemma attempt_unknown (p prompt : jsstring) (maxTokens : Z) :
  p ∉ AiAPI.PROVIDER_ORDER -> attempt p prompt maxTokens = None.
Proof.
  intros Hp. unfold AiAPI.attempt.
  destruct (JS.eqb p (js "gemini")) eqn:E1.
  { apply eqb_spec in E1. subst. exfalso. apply Hp. repeat constructor. }
  destruct (JS.eqb p (js "groq")) eqn:E2.
  { apply eqb_spec in E2. subst. exfalso. apply Hp. repeat constructor. }
  destruct (JS.eqb p (js "huggingface")) eqn:E3.
  { apply eqb_spec in E3. subst. exfalso. apply Hp. repeat constructor. }
  reflexivity.
Qed.

(** The loop turns to the providers of its chain in order and stops at
    the first one that yields a text. *)
Lemma tryProviders_prefix (chain : list jsstring) (prompt : jsstring)
    (maxTokens : Z) :
  AiAPI.attempted (tryProviders chain prompt maxTokens).1 `prefix_of` chain.
Proof.
  induction chain as [|p rest IH]; simpl; [reflexivity|].
  destruct (attempt p prompt maxTokens) as [[text|e]|];
    [ simpl; apply prefix_cons, prefix_nil | | ];
    destruct (tryProviders rest prompt maxTokens) as [log r]; simpl in *;
    apply prefix_cons, IH.
Qed.

(** It fulfils with a text exactly when the last provider it turned to
    yields that text and all the ones before it failed. *)
Lemma tryProviders_fulfilled (chain : list jsstring) (prompt : jsstring)
    (maxTokens : Z)
    (text : jsstring) :
  (tryProviders chain prompt maxTokens).2 = Fulfilled text <->
  exists pre p,
    AiAPI.attempted (tryProviders chain prompt maxTokens).1 = pre ++ [p]
    /\ attempt p prompt maxTokens = Some (Fulfilled text)
    /\ Forall (fun q => fails q prompt maxTokens) pre.
Proof.
  induction chain as [|p rest IH]; simpl.
  - split; [discriminate|]. intros (pre & q & H & _). destruct pre; discriminate.
  - destruct (attempt p prompt maxTokens) as [[t|e]|] eqn:Ea; simpl.
    + split.
      * intros [= ->]. exists [], p. simpl. auto.
      * intros (pre & q & H & Hq & _).
        destruct pre as [|x pre]; simpl in H.
        -- injection H as <-. congruence.
        -- injection H as _ H. destruct pre; discriminate.
    + destruct (tryProviders rest prompt maxTokens) as [log r]; simpl in *.
      rewrite IH. split.
      * intros (pre & q & H & Hq & Hf). exists (p :: pre), q.
        rewrite H. repeat split; auto. constructor; auto.
        intros t. rewrite Ea. discriminate.
      * intros (pre & q & H & Hq & Hf).
        destruct pre as [|x pre]; simpl in H.
        -- injection H as <- _. congruence.
        -- injection H as <- H. exists pre, q. inversion Hf; subst. auto.
    + destruct (tryProviders rest prompt maxTokens) as [log r]; simpl in *.
      rewrite IH. split.
      * intros (pre & q & H & Hq & Hf). exists (p :: pre), q.
        rewrite H. repeat split; auto. constructor; auto.
        intros t. rewrite Ea. discriminate.
      * intros (pre & q & H & Hq & Hf).
        destruct pre as [|x pre]; simpl in H.
        -- injection H as <- _. congruence.
        -- injection H as <- H. exists pre, q. inversion Hf; subst. auto.
Qed.

(** It rejects exactly when every provider of the chain failed, and then
    it has turned to every one of them. *)
Lemma tryProviders_rejected (chain : list jsstring) (prompt : jsstring)
    (maxTokens : Z) :
  ((exists e, (tryProviders chain prompt maxTokens).2 = Rejected e) <->
   Forall (fun q => fails q prompt maxTokens) chain)
  /\ (forall e, (tryProviders chain prompt maxTokens).2 = Rejected e ->
        e = AiAPI.allUnavailable
        /\ AiAPI.attempted (tryProviders chain prompt maxTokens).1 = chain).
Proof.
  induction chain as [|p rest [IH1 IH2]]; simpl.
  - split; [split; [constructor | eauto] | intros e [= <-]; auto].
  - destruct (attempt p prompt maxTokens) as [[t|e]|] eqn:Ea; simpl.
    + split; [split|discriminate].
      * intros [e He]. discriminate.
      * intros Hf. inversion Hf as [|? ? H1 _]; subst.
        exfalso. apply (H1 t). exact Ea.
    + destruct (tryProviders rest prompt maxTokens) as [log r]; simpl in *.
      split.
      * rewrite IH1. split.
        -- intros Hf. constructor; auto. intros t. rewrite Ea. discriminate.
        -- intros Hf. inversion Hf; auto.
      * intros e' He. destruct (IH2 e' He) as [-> ->]. auto.
    + destruct (tryProviders rest prompt maxTokens) as [log r]; simpl in *.
      split.
      * rewrite IH1. split.
        -- intros Hf. constructor; auto. intros t. rewrite Ea. discriminate.
        -- intros Hf. inversion Hf; auto.
      * intros e' He. destruct (IH2 e' He) as [-> ->]. auto.
Qed.

(** The messages of the provider errors go to the console log only: one
    line per failed provider the call turned to. *)
Lemma tryProviders_caught (chain : list jsstring) (prompt : jsstring)
    (maxTokens : Z) :
  length (AiAPI.caught (tryProviders chain prompt maxTokens).1)
  <= length (AiAPI.attempted (tryProviders chain prompt maxTokens).1).
Proof.
  induction chain as [|p rest IH]; simpl; [lia|].
  destruct (attempt p prompt maxTokens) as [[t|e]|]; simpl; [lia| |];
    destruct (tryProviders rest prompt maxTokens) as [log r]; simpl in *; lia.
Qed.


End OrchestratorFacts.

Example callAI_falls_through :
  let env := mkEnv (Some (js "g-key")) None (Some (js "hf-key")) in
  AiAPI.callAI None env
    (fun _ _ => Rejected (error (js "Gemini API Error: quota exceeded")))
    (fun _ _ => Fulfilled (js "never asked"))
    (fun _ _ => Fulfilled (js "third"))
    (js "Reply with: AI system operational.") 50
  = ([AiAPI.Attempting (js "gemini");
      AiAPI.Failed (js "gemini") (js "Gemini API Error: quota exceeded");
      AiAPI.Attempting (js "groq");
      AiAPI.Failed (js "groq") (js "Groq API key missing");
      AiAPI.Attempting (js "huggingface")],
     Fulfilled (js "third")).
Proof. reflexivity. Qed.

Example callAI_override_first :
  let env := mkEnv (Some (js "g-key")) (Some (js "q-key")) (Some (js "hf-key")) in
  AiAPI.providers (Some (js "groq")) = [js "groq"; js "gemini"; js "huggingface"]
  /\ AiAPI.providers (Some (js "claude"))
     = [js "claude"; js "gemini"; js "groq"; js "huggingface"]
  /\ AiAPI.callAI (Some (js "claude")) env
       (fun _ _ => Rejected (error (js "a")))
       (fun _ _ => Rejected (error (js "b")))
       (fun _ _ => Rejected (error (js "c")))
       (js "p") 1500
     = ([AiAPI.Attempting (js "claude");
         AiAPI.Attempting (js "gemini"); AiAPI.Failed (js "gemini") (js "a");
         AiAPI.Attempting (js "groq"); AiAPI.Failed (js "groq") (js "b");
         AiAPI.Attempting (js "huggingface");
         AiAPI.Failed (js "huggingface") (js "c")],
        Rejected AiAPI.allUnavailable).
Proof. repeat split; reflexivity. Qed.

(** ** The HuggingFace adapter *)

Section HuggingFaceFacts.

Variable env : Env.
Variable network : nat -> HuggingFace.Reply.
Variable key : jsstring.
Hypothesis key_set : HUGGINGFACE_API_KEY env = Some key.
Hypothesis key_truthy : truthy key = true.

Local Abbreviation callHuggingFace := (HuggingFace.callHuggingFace env network).

Lemma callHuggingFace_surfaces (fuel : nat) (prompt : jsstring)
    (maxTokens : Z) (w : HuggingFace.World) :
  HuggingFace.isLoadingReply (network (length (HuggingFace.sent w))) = false ->
  callHuggingFace (S fuel) prompt maxTokens w
  = Some (HuggingFace.surfaces (network (length (HuggingFace.sent w))),
          HuggingFace.mkWorld
            (HuggingFace.sent w
               ++ [HuggingFace.request key prompt maxTokens])
            (HuggingFace.slept w)).
Proof.
  intros Hnl. simpl. rewrite key_set.
  destruct key as [|c k]; [discriminate|].
  destruct (network (length (HuggingFace.sent w))) as [e|[|] st [d|e]];
    simpl in *; try reflexivity.
  rewrite Hnl. reflexivity.
Qed.

Lemma callHuggingFace_retry (fuel : nat) (prompt : jsstring)
    (maxTokens : Z) (w : HuggingFace.World) :
  HuggingFace.isLoadingReply (network (length (HuggingFace.sent w))) = true ->
  callHuggingFace (S fuel) prompt maxTokens w
  = callHuggingFace fuel prompt maxTokens
      (HuggingFace.mkWorld
         (HuggingFace.sent w ++ [HuggingFace.request key prompt maxTokens])
         (HuggingFace.slept w + 20000)).
Proof.
  intros Hl. simpl. rewrite key_set.
  destruct key as [|c k]; [discriminate|].
  destruct (network (length (HuggingFace.sent w))) as [e|[|] st [d|e]];
    simpl in *; try discriminate.
  rewrite Hl. reflexivity.
Qed.

(** From any world: [n] loading replies in a row, then another reply. *)
Lemma callHuggingFace_loading_run (n : nat) :
  forall (fuel : nat) (prompt : jsstring) (maxTokens : Z)
         (w : HuggingFace.World),
    (forall i, (i < n)%nat ->
       HuggingFace.isLoadingReply
         (network (length (HuggingFace.sent w) + i)) = true) ->
    HuggingFace.isLoadingReply
      (network (length (HuggingFace.sent w) + n)) = false ->
    (n < fuel)%nat ->
    callHuggingFace fuel prompt maxTokens w
    = Some (HuggingFace.surfaces (network (length (HuggingFace.sent w) + n)),
            HuggingFace.mkWorld
              (HuggingFace.sent w
                 ++ replicate (S n) (HuggingFace.request key prompt maxTokens))
              (HuggingFace.slept w + 20000 * Z.of_nat n)).
Proof.
  induction n as [|n IH]; intros fuel prompt maxTokens w Hload Hlast Hfuel.
  - destruct fuel as [|fuel]; [lia|].
    rewrite Nat.add_0_r in Hlast.
    rewrite callHuggingFace_surfaces by exact Hlast.
    rewrite Nat.add_0_r, Z.add_0_r. reflexivity.
  - destruct fuel as [|fuel]; [lia|].
    rewrite callHuggingFace_retry
      by (rewrite <- (Nat.add_0_r (length _)); apply Hload; lia).
    rewrite IH; simpl; rewrite ?length_app; simpl.
    + replace (length (HuggingFace.sent w) + 1 + n)%nat
        with (length (HuggingFace.sent w) + S n)%nat by lia.
      rewrite <- app_assoc. simpl. do 3 f_equal. lia.
    + intros i Hi.
      replace (length (HuggingFace.sent w) + 1 + i)%nat
        with (length (HuggingFace.sent w) + S i)%nat by lia.
      apply Hload. lia.
    + replace (length (HuggingFace.sent w) + 1 + n)%nat
        with (length (HuggingFace.sent w) + S n)%nat by lia.
      exact Hlast.
    + lia.
Qed.

End HuggingFaceFacts.

(** C2, as amended. With the key set, an invocation that receives [n]
    loading replies in a row followed by a reply of another kind sends
    the identical request [n + 1] times, waits 20 seconds after each
    loading reply (20000 n milliseconds in all) and then settles as the
    last reply dictates: it retries once per loading reply, whatever [n]
    is. If every reply is a loading reply, the invocation never settles. *)
Theorem callHuggingFace_retries_while_loading
    (env : Env) (network : nat -> HuggingFace.Reply) (key prompt : jsstring)
    (maxTokens : Z) :
  HUGGINGFACE_API_KEY env = Some key ->
  truthy key = true ->
  (forall n fuel : nat,
      (forall i, (i < n)%nat ->
                 HuggingFace.isLoadingReply (network i) = true) ->
      HuggingFace.isLoadingReply (network n) = false ->
      (n < fuel)%nat ->
      HuggingFace.callHuggingFace env network fuel prompt maxTokens
        HuggingFace.start
      = Some (HuggingFace.surfaces (network n),
              HuggingFace.mkWorld
                (replicate (S n) (HuggingFace.request key prompt maxTokens))
                (20000 * Z.of_nat n)))
  /\ ((forall i, HuggingFace.isLoadingReply (network i) = true) ->
      forall fuel : nat,
        HuggingFace.callHuggingFace env network fuel prompt maxTokens
          HuggingFace.start = None).
Proof.
  intros Hkey Htruthy. split.
  - intros n fuel Hload Hlast Hfuel.
    apply (callHuggingFace_loading_run env network key Hkey Htruthy n
             fuel prompt maxTokens HuggingFace.start); auto.
  - intros Hall fuel. generalize HuggingFace.start.
    induction fuel as [|fuel IH]; intros w; [reflexivity|].
    rewrite (callHuggingFace_retry env network key Hkey Htruthy)
      by apply Hall.
    apply IH.
Qed.

Lemma callHuggingFace_retries_while_loading_witness :
  HUGGINGFACE_API_KEY Samples.env = Some (js "hf-key")
  /\ truthy (js "hf-key") = true
  /\ HuggingFace.callHuggingFace Samples.env Samples.warmingTwice 3
       (js "Say hi") 1500 HuggingFace.start
     = Some (HuggingFace.surfaces (Samples.warmingTwice 2),
             HuggingFace.mkWorld
               (replicate 3
                  (HuggingFace.request (js "hf-key") (js "Say hi") 1500))
               (20000 * Z.of_nat 2)).
Proof.
  split; [reflexivity|]. split; [reflexivity|].
  refine (proj1 (callHuggingFace_retries_while_loading Samples.env
                   Samples.warmingTwice (js "hf-key") (js "Say hi") 1500
                   eq_refl eq_refl) 2%nat 3%nat _ eq_refl _).
  - intros i Hi. destruct i as [|[|i]]; [reflexivity|reflexivity|lia].
  - lia.
Defined.

(** C2, the claim as stated, fails: when the model is still loading at
    the first retry, the adapter waits and retries again. Here it sends
    three requests, waits 40 seconds and fulfils; no bound of one retry
    holds. *)
Lemma callHuggingFace_second_retry :
  HuggingFace.callHuggingFace Samples.env Samples.warmingTwice 3
    (js "Say hi") 1500 HuggingFace.start
  = Some (Fulfilled (js "ok"),
          HuggingFace.mkWorld
            (replicate 3
               (HuggingFace.request (js "hf-key") (js "Say hi") 1500))
            40000)
  /\ ~ (forall env network fuel prompt maxTokens outcome w,
          HuggingFace.callHuggingFace env network fuel prompt maxTokens
            HuggingFace.start = Some (outcome, w) ->
          (HuggingFace.retries w <= 1)%nat).
Proof.
  assert (E : HuggingFace.callHuggingFace Samples.env Samples.warmingTwice 3
                (js "Say hi") 1500 HuggingFace.start
              = Some (Fulfilled (js "ok"),
                      HuggingFace.mkWorld
                        (replicate 3
                           (HuggingFace.request (js "hf-key") (js "Say hi")
                              1500))
                        40000)) by (vm_compute; reflexivity).
  split; [exact E|].
  intros H. specialize (H _ _ _ _ _ _ _ E). vm_compute in H. lia.
Qed.

(** ** The feasibility engine *)

Section FeasibilityFacts.

Import Feasibility.

Lemma groupTasksByDay_days (tasks : list DailyTask) :
  groupTasksByDay tasks = map (fun d => (d, tasksOn d tasks)) days.
Proof. reflexivity. Qed.

(** The breakdown has one entry per canonical day, in order, each with
    twice the number of tasks assigned to exactly that day. *)
Lemma dailyBreakdown_days (p : WeeklyPlan) :
  map (fun dl => (load_day dl, load dl))
      (dailyBreakdown (performRuleBasedChecks p))
  = map (fun d => (d, 2 * Z.of_nat (length (tasksOn d (dailyTasks p)))))%Z
        days.
Proof.
  unfold performRuleBasedChecks; cbv zeta; cbn [dailyBreakdown].
  rewrite groupTasksByDay_days. unfold calculateDailyLoads.
  rewrite !map_map. apply map_ext. intros d. cbn [load_day load].
  f_equal. lia.
Qed.

Lemma fold_left_load (l : list DailyLoad) (a : Z) :
  fold_left (fun sum d => (sum + load d)%Z) l a
  = (a + fold_right Z.add 0 (map load l))%Z.
Proof.
  revert a; induction l as [|d l IH]; intros a; simpl; [lia|].
  rewrite IH. lia.
Qed.

Lemma totalLoad_sum (p : WeeklyPlan) :
  totalLoad (performRuleBasedChecks p)
  = fold_right Z.add 0%Z (map load (dailyBreakdown (performRuleBasedChecks p))).
Proof.
  unfold performRuleBasedChecks; cbv zeta; cbn [totalLoad dailyBreakdown].
  rewrite fold_left_load. lia.
Qed.

(** A day name matches at most one entry of a duplicate-free list. *)
Lemma matches_NoDup (x : jsstring) (ds : list jsstring) :
  NoDup ds ->
  fold_right Nat.add 0%nat
    (map (fun d => if JS.eqb x d then 1%nat else 0%nat) ds)
  = if existsb (JS.eqb x) ds then 1%nat else 0%nat.
Proof.
  induction 1 as [|d ds Hd Hds IH]; simpl; [reflexivity|].
  rewrite IH. destruct (JS.eqb x d) eqn:E; simpl; [|reflexivity].
  apply eqb_spec in E. subst d.
  destruct (existsb (JS.eqb x) ds) eqn:Ex; [|reflexivity].
  exfalso. apply Hd. apply existsb_exists in Ex as (y & Hy & Exy).
  apply eqb_spec in Exy. subst y. apply list_elem_of_In, Hy.
Qed.

(** Summed over duplicate-free day names, the per-day task counts count
    the tasks whose day is one of the names. *)
Lemma tasksOn_total (ds : list jsstring) (tasks : list DailyTask) :
  NoDup ds ->
  fold_right Nat.add 0%nat (map (fun d => length (tasksOn d tasks)) ds)
  = length (List.filter (fun t => existsb (JS.eqb (day t)) ds) tasks).
Proof.
  intros Hnd. induction tasks as [|t tasks IH].
  - simpl. induction ds; simpl; auto. apply IHds. inversion Hnd; auto.
  - assert (E : forall l,
      fold_right Nat.add 0%nat (map (fun d => length (tasksOn d (t :: tasks))) l)
      = (fold_right Nat.add 0%nat
           (map (fun d => if JS.eqb (day t) d then 1%nat else 0%nat) l)
         + fold_right Nat.add 0%nat
             (map (fun d => length (tasksOn d tasks)) l))%nat).
    { induction l as [|d l IHl]; [reflexivity|].
      cbn [map fold_right]. rewrite IHl. unfold tasksOn.
      cbn [List.filter]. destruct (JS.eqb (day t) d); cbn [length]; lia. }
    rewrite E, IH, matches_NoDup by exact Hnd. simpl.
    destruct (existsb (JS.eqb (day t)) ds); simpl; lia.
Qed.

Lemma days_NoDup : NoDup days.
Proof.
  unfold days.
  repeat (apply NoDup_cons; split);
    rewrite ?list_elem_of_In; simpl; try apply NoDup_nil_2;
    intuition discriminate.
Qed.

Lemma doubled_counts (tasks : list DailyTask) (ds : list jsstring) :
  fold_right Z.add 0%Z
    (map (fun d => (2 * Z.of_nat (length (tasksOn d tasks)))%Z) ds)
  = (2 * Z.of_nat
           (fold_right Nat.add 0%nat
              (map (fun d => length (tasksOn d tasks)) ds)))%Z.
Proof.
  induction ds as [|d ds IH]; [reflexivity|].
  cbn [map fold_right]. rewrite IH. lia.
Qed.

(** The total load is twice the number of tasks on canonical days. *)
Lemma totalLoad_canonical (p : WeeklyPlan) :
  totalLoad (performRuleBasedChecks p)
  = (2 * Z.of_nat (length (List.filter canonicalDay (dailyTasks p))))%Z.
Proof.
  rewrite totalLoad_sum.
  replace (map load (dailyBreakdown (performRuleBasedChecks p)))
    with (map snd (map (fun dl => (load_day dl, load dl))
                     (dailyBreakdown (performRuleBasedChecks p))))
    by (rewrite map_map; reflexivity).
  rewrite dailyBreakdown_days, map_map. cbn [snd].
  rewrite doubled_counts, (tasksOn_total days (dailyTasks p) days_NoDup).
  reflexivity.
Qed.

(** Tasks outside the canonical days are in no group. *)
Lemma groupTasksByDay_canonical (tasks : list DailyTask) :
  groupTasksByDay (List.filter canonicalDay tasks) = groupTasksByDay tasks.
Proof.
  rewrite !groupTasksByDay_days. apply map_ext_in. intros d Hd. f_equal.
  unfold tasksOn. induction tasks as [|t tasks IH]; [reflexivity|].
  cbn [List.filter]. destruct (canonicalDay t) eqn:Ec; cbn [List.filter].
  - rewrite IH. reflexivity.
  - rewrite IH. destruct (JS.eqb (day t) d) eqn:E; [|reflexivity].
    exfalso. apply eqb_spec in E.
    assert (canonicalDay t = true); [|congruence].
    unfold canonicalDay. apply existsb_exists. exists d.
    split; [exact Hd|]. apply eqb_spec. exact E.
Qed.

Lemma filter_shorter {A} (f : A -> bool) (l : list A) :
  (length (List.filter f l) <= length l)%nat
  /\ ((length (List.filter f l) < length l)%nat <->
      exists x, In x l /\ f x = false).
Proof.
  induction l as [|x l [IH1 IH2]]; simpl.
  - split; [lia|]. split; [lia|]. intros (x & [] & _).
  - destruct (f x) eqn:E; simpl.
    + split; [lia|]. rewrite <- Nat.succ_lt_mono, IH2. split.
      * intros (y & Hy & Ey). eauto.
      * intros (y & [<-|Hy] & Ey); [congruence|eauto].
    + split; [lia|]. split; [eauto|lia].
Qed.

(** The week average against the two thresholds, and its rounding. *)
Lemma avgLoad_le_6 (total : Z) :
  Qle_bool (avgLoadOf total) 6 = true <-> (total <= 42)%Z.
Proof.
  rewrite Qle_bool_iff. unfold avgLoadOf, Qle. simpl. lia.
Qed.

Lemma avgLoad_le_5 (total : Z) :
  Qle_bool (avgLoadOf total) 5 = true <-> (total <= 35)%Z.
Proof.
  rewrite Qle_bool_iff. unfold avgLoadOf, Qle. simpl. lia.
Qed.

Lemma Math_round_avgLoad (total : Z) :
  Math_round (avgLoadOf total * 10)%Q = ((20 * total + 7) / 14)%Z.
Proof.
  unfold Math_round, avgLoadOf, Qfloor. simpl. f_equal. lia.
Qed.

Lemma averageLoad_tenths (p : WeeklyPlan) :
  averageLoad (performRuleBasedChecks p)
  = (inject_Z ((20 * totalLoad (performRuleBasedChecks p) + 7) / 14)%Z / 10)%Q.
Proof.
  unfold performRuleBasedChecks; cbv zeta; cbn [averageLoad totalLoad].
  rewrite Math_round_avgLoad. reflexivity.
Qed.

Lemma averageLoad_spec_total (p : WeeklyPlan) :
  averageLoad_spec (performRuleBasedChecks p)
  = avgLoadOf (totalLoad (performRuleBasedChecks p)).
Proof. unfold averageLoad_spec. rewrite <- totalLoad_sum. reflexivity. Qed.

Lemma feasible_eq (p : WeeklyPlan) :
  feasible (performRuleBasedChecks p)
  = Qle_bool (avgLoadOf (totalLoad (performRuleBasedChecks p))) 6
    && (heavyDayCount (performRuleBasedChecks p) <=? 2)%nat.
Proof.
  unfold heavyDayCount, performRuleBasedChecks; cbv zeta.
  cbn [feasible heavyDays totalLoad]. reflexivity.
Qed.

Lemma hasIssues_eq (p : WeeklyPlan) :
  hasIssues (performRuleBasedChecks p)
  = (0 <? heavyDayCount (performRuleBasedChecks p))%nat
    || negb (Qle_bool (avgLoadOf (totalLoad (performRuleBasedChecks p))) 5).
Proof.
  unfold heavyDayCount, performRuleBasedChecks; cbv zeta.
  cbn [hasIssues heavyDays totalLoad]. reflexivity.
Qed.

(** A plan without issues is feasible. *)
Lemma no_issues_feasible (p : WeeklyPlan) :
  hasIssues (performRuleBasedChecks p) = false ->
  feasible (performRuleBasedChecks p) = true.
Proof.
  rewrite hasIssues_eq, feasible_eq.
  intros H. apply orb_false_iff in H as [H1 H2].
  apply Nat.ltb_ge in H1. apply negb_false_iff, avgLoad_le_5 in H2.
  apply andb_true_iff. split.
  - apply avgLoad_le_6. lia.
  - apply Nat.leb_le. lia.
Qed.

(** Rounding the week average to tenths: the result is within a
    twentieth of the average and on the same side of 6. *)
Lemma rounded_average (total : Z) :
  let tenths := ((20 * total + 7) / 14)%Z in
  (avgLoadOf total - (1 # 20) < inject_Z tenths / 10)%Q
  /\ (inject_Z tenths / 10 <= avgLoadOf total + (1 # 20))%Q
  /\ ((inject_Z tenths / 10 <= 6)%Q <-> (total <= 42)%Z)
  /\ ((avgLoadOf total <= 6)%Q <-> (total <= 42)%Z).
Proof.
  intros tenths.
  assert (Hm : (14 * tenths <= 20 * total + 7 < 14 * tenths + 14)%Z).
  { pose proof (Z.div_mod (20 * total + 7) 14 ltac:(lia)).
    pose proof (Z.mod_pos_bound (20 * total + 7) 14 ltac:(lia)).
    subst tenths. lia. }
  clearbody tenths. unfold avgLoadOf, Qlt, Qle. simpl. lia.
Qed.

Lemma heavyDays_eq (p : WeeklyPlan) :
  heavyDays (performRuleBasedChecks p)
  = map load_day
      (List.filter (fun d => (load d >=? 7)%Z)
         (dailyBreakdown (performRuleBasedChecks p))).
Proof. reflexivity. Qed.

(** [checkFeasibility] always resolves and reports the rule-based
    analysis; its own verdict, when present, is that of the analysis. *)
Lemma checkFeasibility_reports
    (callAIStructured : jsstring -> Z -> Settled jsstring) (now : jsstring)
    (p : WeeklyPlan) :
  exists r,
    checkFeasibility callAIStructured now p = Fulfilled r
    /\ ruleBasedChecks r = performRuleBasedChecks p
    /\ (forall b, res_feasible r = Some b ->
                  b = feasible (performRuleBasedChecks p)).
Proof.
  unfold checkFeasibility; cbv zeta.
  destruct (hasIssues (performRuleBasedChecks p)) eqn:Hi.
  - destruct (performAIAnalysis callAIStructured p) as [text|e];
      eexists; (split; [reflexivity|]); cbn [ruleBasedChecks res_feasible];
      (split; [reflexivity|]); intros b Hb; congruence.
  - eexists. split; [reflexivity|]. cbn [ruleBasedChecks res_feasible].
    split; [reflexivity|]. intros b [= <-]. symmetry.
    apply no_issues_feasible. exact Hi.
Qed.

(** C3, as amended. For every plan, the analysis of the feasibility
    check satisfies:
    - [totalLoad] is the sum of the daily loads;
    - the reported [averageLoad] is that sum divided by 7 and rounded to
      one decimal place, halves upwards: it is a whole number of tenths
      and lies within a twentieth of the exact quotient;
    - [feasible] holds exactly when the reported [averageLoad] is at most
      6 and at most two days are heavy, and this is also exactly when the
      exact quotient is at most 6 and at most two days are heavy;
    - the heavy days are the days of load 7 or more;
    - [checkFeasibility] always resolves, reports this analysis, and its
      own [feasible] property, when present, agrees with it. *)
Theorem feasibility_average_and_verdict (p : WeeklyPlan) :
  let a := performRuleBasedChecks p in
  totalLoad a = fold_right Z.add 0%Z (map load (dailyBreakdown a))
  /\ (exists tenths : Z, averageLoad a = (inject_Z tenths / 10)%Q)
  /\ (averageLoad_spec a - (1 # 20) < averageLoad a)%Q
  /\ (averageLoad a <= averageLoad_spec a + (1 # 20))%Q
  /\ (feasible a = true <->
      (averageLoad a <= 6)%Q /\ (heavyDayCount a <= 2)%nat)
  /\ (feasible a = true <->
      (averageLoad_spec a <= 6)%Q /\ (heavyDayCount a <= 2)%nat)
  /\ heavyDays a
     = map load_day (List.filter (fun d => (load d >=? 7)%Z) (dailyBreakdown a))
  /\ (forall callAIStructured now,
        exists r,
          checkFeasibility callAIStructured now p = Fulfilled r
          /\ ruleBasedChecks r = a
          /\ (forall b, res_feasible r = Some b -> b = feasible a)).
Proof.
  intros a. subst a.
  pose proof (averageLoad_tenths p) as Havg.
  pose proof (averageLoad_spec_total p) as Hspec.
  pose proof (feasible_eq p) as Hfeas.
  pose proof (totalLoad_sum p) as Hsum.
  pose proof (heavyDays_eq p) as Hheavy.
  pose proof (fun c n => checkFeasibility_reports c n p) as Hcheck.
  generalize dependent (performRuleBasedChecks p).
  intros a Havg Hspec Hfeas Hsum Hheavy Hcheck.
  destruct (rounded_average (totalLoad a)) as (Hlo & Hhi & H6 & H6').
  split; [exact Hsum|].
  split; [eexists; exact Havg|].
  rewrite Havg, Hspec.
  split; [exact Hlo|]. split; [exact Hhi|].
  split.
  { rewrite Hfeas, andb_true_iff, avgLoad_le_6, Nat.leb_le, H6. tauto. }
  split.
  { rewrite Hfeas, andb_true_iff, avgLoad_le_6, Nat.leb_le, H6'. tauto. }
  split; [exact Hheavy|]. exact Hcheck.
Qed.

(** C3, the claim as stated, fails: for a plan with a single task (on
    Monday) the daily loads sum to 2, the sum over 7 is 2/7, and the
    reported [averageLoad] is 0.3. *)
Lemma averageLoad_is_rounded :
  let a := performRuleBasedChecks Samples.oneTask in
  fold_right Z.add 0%Z (map load (dailyBreakdown a)) = 2%Z
  /\ averageLoad_spec a == 2 # 7
  /\ averageLoad a == 3 # 10
  /\ ~ averageLoad a == averageLoad_spec a.
Proof.
  vm_compute. repeat split; try reflexivity. discriminate.
Qed.

(** C10. For every plan, the tasks whose day is none of the seven
    canonical names take no part in the load figures: the daily
    breakdown, the total load, the average load, the heavy days and the
    empty days are those of the plan without these tasks, and every
    per-day load is twice the number of tasks assigned to exactly that
    day; [totalTasks] counts every task. So the total load is twice the
    number of tasks on canonical days, it is strictly less than twice
    [totalTasks] exactly when some task is on no canonical day, and there
    is a plan for which it is. *)
Theorem stray_days_not_loaded :
  (forall p : WeeklyPlan,
     let a := performRuleBasedChecks p in
     let a' := performRuleBasedChecks (canonicalPart p) in
     dailyBreakdown a = dailyBreakdown a'
     /\ totalLoad a = totalLoad a'
     /\ averageLoad a = averageLoad a'
     /\ heavyDays a = heavyDays a'
     /\ emptyDays a = emptyDays a'
     /\ map (fun dl => (load_day dl, load dl)) (dailyBreakdown a)
        = map (fun d => (d, 2 * Z.of_nat (length (tasksOn d (dailyTasks p)))))%Z
              days
     /\ totalTasks a = Z.of_nat (length (dailyTasks p))
     /\ totalLoad a
        = (2 * Z.of_nat (length (List.filter canonicalDay (dailyTasks p))))%Z
     /\ (totalLoad a <= 2 * totalTasks a)%Z
     /\ ((totalLoad a < 2 * totalTasks a)%Z <->
         exists t, In t (dailyTasks p) /\ canonicalDay t = false))
  /\ (exists p : WeeklyPlan,
        (totalLoad (performRuleBasedChecks p)
         < 2 * totalTasks (performRuleBasedChecks p))%Z).
Proof.
  split.
  - intros p a a'.
    assert (Hg : groupTasksByDay (dailyTasks (canonicalPart p))
                 = groupTasksByDay (dailyTasks p))
      by apply groupTasksByDay_canonical.
    assert (Hb : dailyBreakdown a = dailyBreakdown a').
    { subst a a'. unfold performRuleBasedChecks; cbv zeta.
      cbn [dailyBreakdown]. rewrite Hg. reflexivity. }
    assert (Ht : totalLoad a = totalLoad a').
    { subst a a'. rewrite !totalLoad_sum. rewrite Hb. reflexivity. }
    pose proof (filter_shorter canonicalDay (dailyTasks p)) as [Hle Hlt].
    split; [exact Hb|]. split; [exact Ht|].
    split.
    { subst a a'. rewrite !averageLoad_tenths. rewrite Ht. reflexivity. }
    split.
    { change (heavyDays a) with
        (map load_day
           (List.filter (fun d => (load d >=? 7)%Z) (dailyBreakdown a))).
      rewrite Hb. reflexivity. }
    split.
    { change (emptyDays a) with
        (map load_day
           (List.filter (fun d => (load d =? 0)%Z) (dailyBreakdown a))).
      rewrite Hb. reflexivity. }
    split; [apply dailyBreakdown_days|].
    split; [reflexivity|].
    split; [apply totalLoad_canonical|].
    subst a. rewrite totalLoad_canonical.
    change (totalTasks (performRuleBasedChecks p))
      with (Z.of_nat (length (dailyTasks p))).
    split; [lia|]. rewrite <- Hlt. lia.
  - exists Samples.strayTask. vm_compute. reflexivity.
Qed.

Example stray_task_counts :
  let a := performRuleBasedChecks Samples.strayTask in
  totalTasks a = 1%Z /\ totalLoad a = 0%Z /\ averageLoad a == 0
  /\ heavyDays a = [] /\ emptyDays a = days /\ feasible a = true.
Proof. vm_compute. repeat split; reflexivity. Qed.

Example heavyMonday_analysis :
  let a := performRuleBasedChecks Samples.heavyMonday in
  totalTasks a = 5%Z /\ totalLoad a = 10%Z /\ averageLoad a == 14 # 10
  /\ heavyDays a = [js "Monday"]
  /\ emptyDays a = [js "Tuesday"; js "Wednesday"; js "Thursday";
                    js "Saturday"; js "Sunday"]
  /\ hasIssues a = true /\ feasible a = true
  /\ warnings a = [js "⚠️ Heavy days detected: Monday";
                   js "⚠️ Your mood is tired - consider reducing task load"].
Proof. vm_compute. repeat split; reflexivity. Qed.

(** With every provider down the elaboration fails and the check answers
    with the rule-based analysis and a readable error. *)
Example heavyMonday_outage :
  checkFeasibility Samples.downStructured Samples.now Samples.heavyMonday
  = Fulfilled
      (mkResult false None (performRuleBasedChecks Samples.heavyMonday) None
         (Some (js "All AI services are temporarily unavailable. Manual input is still available."))
         None).
Proof. vm_compute. reflexivity. Qed.

End FeasibilityFacts.

(** ** The overthinking guard *)

Section GuardFacts.

Import OverthinkingGuard.

Variable callClaude : jsstring -> Z -> Settled jsstring.
Variable now : jsstring.

Local Abbreviation checkOverthinking :=
  (OverthinkingGuard.checkOverthinking callClaude now).
Local Abbreviation generateAIWarning :=
  (OverthinkingGuard.generateAIWarning callClaude).

(** The severity the guard passes to the elaboration for an edit count. *)
Local Abbreviation nudge editCount :=
  (if (editCount >=? 10)%Z then js "severe" else js "moderate").

(** The guard never rejects. *)
Lemma checkOverthinking_resolves (editCount daysInactive : Z) :
  exists r, checkOverthinking editCount daysInactive = Fulfilled r.
Proof.
  unfold OverthinkingGuard.checkOverthinking; cbv zeta.
  destruct (negb (editCount >=? 5)%Z && negb (daysInactive >=? 3)%Z);
    [eauto|].
  destruct (editCount >=? 10)%Z.
  - destruct (generateAIWarning editCount (js "severe")); eauto.
  - destruct (editCount >=? 5)%Z; [|eauto].
    destruct (generateAIWarning editCount (js "moderate")); eauto.
Qed.

(** The three shapes of the result. *)
Lemma checkOverthinking_shapes (editCount daysInactive : Z) :
  checkOverthinking editCount daysInactive
  = if (editCount >=? 5)%Z then
      match generateAIWarning editCount (nudge editCount) with
      | Fulfilled message =>
          Fulfilled (mkResult true true (Some (nudge editCount))
                       (Some editCount) (Some daysInactive) (Some message)
                       (Some now) None)
      | Rejected _ => Fulfilled (fallback editCount)
      end
    else if (daysInactive >=? 3)%Z then
      Fulfilled (mkResult true true (Some (js "inactive"))
                   (Some editCount) (Some daysInactive)
                   (Some (getInactivityMessage daysInactive))
                   (Some now) None)
    else Fulfilled (mkResult true false None None None None None None).
Proof.
  unfold OverthinkingGuard.checkOverthinking; cbv zeta.
  destruct (editCount >=? 10)%Z eqn:E10.
  - apply Z.geb_le in E10.
    assert (E5 : (editCount >=? 5)%Z = true) by (apply Z.geb_le; lia).
    rewrite E5. simpl. reflexivity.
  - destruct (editCount >=? 5)%Z; simpl; [reflexivity|].
    destruct (daysInactive >=? 3)%Z; reflexivity.
Qed.

(** C4. For every edit count and inactivity, when the guard makes its
    elaboration call (the edit count is at least 5) and the call fails,
    the guard still resolves: with [success] and [fallbackMode] true and
    the canned warning of the edit count as its message, which is the
    STOP PLANNING text from 10 edits on, the second text from 7 and the
    third from 5. *)
Theorem checkOverthinking_falls_back (editCount daysInactive : Z)
    (err : Error) :
  (5 <= editCount)%Z ->
  generateAIWarning editCount (nudge editCount) = Rejected err ->
  exists r,
    checkOverthinking editCount daysInactive = Fulfilled r
    /\ success r = true
    /\ fallbackMode r = Some true
    /\ message r = Some (getRuleBasedWarning editCount)
    /\ ((10 <= editCount)%Z ->
        message r = Some (js "🛑 STOP PLANNING! You've edited this 10+ times. Start executing NOW."))
    /\ ((7 <= editCount < 10)%Z ->
        message r = Some (js "⚠️ Too much planning. Time to take action. Execution beats perfection."))
    /\ ((5 <= editCount < 7)%Z ->
        message r = Some (js "💭 You've planned enough. Start working on your first task right now.")).
Proof.
  intros H5 Hfail. rewrite checkOverthinking_shapes.
  assert (E5 : (editCount >=? 5)%Z = true) by (apply Z.geb_le; lia).
  rewrite E5, Hfail. eexists. split; [reflexivity|].
  unfold fallback, getRuleBasedWarning; cbn [success fallbackMode message].
  repeat split; try reflexivity; intros Hrange;
    threshold_cases; try lia; reflexivity.
Qed.

(** C9. Every result of the guard resolves, and its [severity] is:
    absent when the guard is not triggered; severe, moderate or inactive
    when it is triggered outside the fallback; severe or moderate in the
    fallback. With 10 edits or more it is severe, and it is never
    critical; when only the inactivity threshold is reached it is
    inactive, a value that is not on the four-level scale. *)
Theorem checkOverthinking_severity_values (editCount daysInactive : Z) :
  exists r,
    checkOverthinking editCount daysInactive = Fulfilled r
    /\ (triggered r = false -> severity r = None)
    /\ (triggered r = true -> fallbackMode r = None ->
        severity r = Some (js "severe") \/ severity r = Some (js "moderate")
        \/ severity r = Some (js "inactive"))
    /\ (fallbackMode r = Some true ->
        severity r = Some (js "severe") \/ severity r = Some (js "moderate"))
    /\ ((10 <= editCount)%Z -> severity r = Some (js "severe"))
    /\ severity r <> Some (js "critical")
    /\ ((editCount < 5)%Z -> (3 <= daysInactive)%Z ->
        severity r = Some (js "inactive"))
    /\ severityRank (js "inactive") = None.
Proof.
  rewrite checkOverthinking_shapes.
  destruct (editCount >=? 5)%Z eqn:E5.
  - apply Z.geb_le in E5.
    destruct (generateAIWarning editCount (nudge editCount)) as [m|e];
      eexists; (split; [reflexivity|]);
      unfold fallback; cbn [triggered severity fallbackMode];
      threshold_cases;
      repeat split; intros; try discriminate; try lia; auto.
  - rewrite Z.geb_leb in E5; apply Z.leb_gt in E5.
    destruct (daysInactive >=? 3)%Z eqn:E3.
    + apply Z.geb_le in E3. eexists. split; [reflexivity|].
      cbn [triggered severity fallbackMode].
      repeat split; intros; try discriminate; try lia; auto.
    + rewrite Z.geb_leb in E3; apply Z.leb_gt in E3.
      eexists. split; [reflexivity|].
      cbn [triggered severity fallbackMode].
      repeat split; intros; try discriminate; try lia; auto.
Qed.

(** C6. The four-level severity of [getSeverityLevel] is on the scale
    none < moderate < severe < critical and does not decrease when the
    edit count and the inactivity grow; and the guard resolves with
    [triggered] equal to (editCount >= 5 or daysInactive >= 3), the value
    of [shouldWarnUser]. *)
Theorem severity_monotone_and_trigger (editCount daysInactive : Z)
    (editCount' daysInactive' : Z) :
  (editCount <= editCount')%Z ->
  (daysInactive <= daysInactive')%Z ->
  (exists rank rank' : nat,
     severityRank (getSeverityLevel editCount daysInactive) = Some rank
     /\ severityRank (getSeverityLevel editCount' daysInactive') = Some rank'
     /\ (rank <= rank')%nat)
  /\ (exists r,
        checkOverthinking editCount daysInactive = Fulfilled r
        /\ triggered r = ((editCount >=? 5)%Z || (daysInactive >=? 3)%Z)
        /\ triggered r = shouldWarnUser editCount daysInactive).
Proof.
  intros He Hd. split.
  - unfold getSeverityLevel.
    threshold_cases; cbn [orb];
      try (exfalso; lia);
      eexists _, _; (split; [reflexivity|]); (split; [reflexivity|]); lia.
  - rewrite checkOverthinking_shapes. unfold shouldWarnUser.
    destruct (editCount >=? 5)%Z eqn:E5.
    + destruct (generateAIWarning editCount (nudge editCount)) as [m|e];
        eexists; (split; [reflexivity|]); cbn [triggered fallback orb];
        rewrite ?E5; auto.
    + destruct (daysInactive >=? 3)%Z; eexists;
        (split; [reflexivity|]); auto.
Qed.

End GuardFacts.

Lemma checkOverthinking_falls_back_witness :
  (5 <= 10)%Z
  /\ OverthinkingGuard.generateAIWarning Samples.outage 10 (js "severe")
     = Rejected AiAPI.allUnavailable
  /\ exists r,
       OverthinkingGuard.checkOverthinking Samples.outage Samples.now 10 0
       = Fulfilled r
       /\ OverthinkingGuard.fallbackMode r = Some true
       /\ OverthinkingGuard.message r
          = Some (js "🛑 STOP PLANNING! You've edited this 10+ times. Start executing NOW.").
Proof.
  split; [lia|]. split; [reflexivity|].
  destruct (checkOverthinking_falls_back Samples.outage Samples.now 10 0
              AiAPI.allUnavailable ltac:(lia) eq_refl)
    as (r & Hr & _ & Hf & _ & Hm & _).
  exists r. split; [exact Hr|]. split; [exact Hf|]. apply Hm. lia.
Defined.

Lemma severity_monotone_and_trigger_witness :
  (4 <= 10)%Z /\ (0 <= 7)%Z
  /\ (exists rank rank' : nat,
        OverthinkingGuard.severityRank
          (OverthinkingGuard.getSeverityLevel 4 0) = Some rank
        /\ OverthinkingGuard.severityRank
             (OverthinkingGuard.getSeverityLevel 10 7) = Some rank'
        /\ (rank <= rank')%nat)
  /\ (exists r,
        OverthinkingGuard.checkOverthinking Samples.outage Samples.now 4 0
        = Fulfilled r
        /\ OverthinkingGuard.triggered r = ((4 >=? 5)%Z || (0 >=? 3)%Z)
        /\ OverthinkingGuard.triggered r
           = OverthinkingGuard.shouldWarnUser 4 0).
Proof.
  split; [lia|]. split; [lia|].
  exact (severity_monotone_and_trigger Samples.outage Samples.now 4 0 10 7
           ltac:(lia) ltac:(lia)).
Defined.

Example overthinking_scenarios :
  OverthinkingGuard.checkOverthinking Samples.answering Samples.now 12 0
  = Fulfilled
      (OverthinkingGuard.mkResult true true (Some (js "severe")) (Some 12%Z)
         (Some 0%Z) (Some (js "Walk for ten minutes.")) (Some Samples.now)
         None)
  /\ OverthinkingGuard.checkOverthinking Samples.outage Samples.now 2 8
     = Fulfilled
         (OverthinkingGuard.mkResult true true (Some (js "inactive"))
            (Some 2%Z) (Some 8%Z)
            (Some (js "⏰ It's been a week! Your plan is waiting. Start with the easiest task today."))
            (Some Samples.now) None)
  /\ OverthinkingGuard.getSeverityLevel 12 0 = js "critical"
  /\ OverthinkingGuard.getSeverityLevel 2 8 = js "severe".
Proof. repeat split; reflexivity. Qed.

(** ** The downgrade engine *)

Section DowngradeFacts.

Import TaskDowngrade.

Variable toLowerCase : jsstring -> jsstring.
Variable now : jsstring.
Variable callClaude : option (jsstring -> Z -> Settled jsstring).

Local Abbreviation getRuleBasedDowngrade :=
  (TaskDowngrade.getRuleBasedDowngrade toLowerCase).
Local Abbreviation getAIDowngrade :=
  (TaskDowngrade.getAIDowngrade callClaude).
Local Abbreviation suggestTaskDowngrade :=
  (TaskDowngrade.suggestTaskDowngrade toLowerCase now callClaude).

(** The rule-based suggestion is never the empty string. *)
Lemma getRuleBasedDowngrade_truthy (taskName difficulty : jsstring) :
  truthy (getRuleBasedDowngrade taskName difficulty) = true.
Proof.
  unfold TaskDowngrade.getRuleBasedDowngrade; cbv zeta.
  repeat match goal with
         | |- context [if ?b then _ else _] => destruct b
         end; reflexivity.
Qed.

(** C5. For every task name, difficulty and miss count (and whatever the
    text generation call does, or whether the identifier the module calls
    is bound at all), [suggestTaskDowngrade] resolves with [success] true
    and with the rule-based suggestion, a non-empty text, under
    [suggestions.ruleBased]. When the elaboration fails, [aiGenerated] is
    null and [fallbackMode] is true; when it succeeds, its text is under
    [aiGenerated], no [fallbackMode] is set and the rule-based suggestion
    is still there. *)
Theorem suggestTaskDowngrade_always_rule_based
    (taskName difficulty : jsstring) (missedCount : Z) :
  exists r,
    suggestTaskDowngrade taskName difficulty missedCount = Fulfilled r
    /\ success r = true
    /\ originalTask r = taskName
    /\ ruleBased (suggestions r) = getRuleBasedDowngrade taskName difficulty
    /\ truthy (ruleBased (suggestions r)) = true
    /\ (forall err,
          getAIDowngrade taskName difficulty missedCount = Rejected err ->
          aiGenerated (suggestions r) = None /\ fallbackMode r = Some true)
    /\ (forall text,
          getAIDowngrade taskName difficulty missedCount = Fulfilled text ->
          aiGenerated (suggestions r) = Some text /\ fallbackMode r = None)
    /\ (callClaude = None ->
        aiGenerated (suggestions r) = None /\ fallbackMode r = Some true).
Proof.
  unfold TaskDowngrade.suggestTaskDowngrade; cbv zeta.
  destruct (getAIDowngrade taskName difficulty missedCount) as [text|e]
    eqn:Hai; eexists; (split; [reflexivity|]);
    cbn [success originalTask suggestions ruleBased aiGenerated fallbackMode];
    (split; [reflexivity|]); (split; [reflexivity|]);
    (split; [reflexivity|]);
    (split; [apply getRuleBasedDowngrade_truthy|]).
  - split; [discriminate|]. split; [intros ? [= <-]; auto|].
    intros ->. discriminate.
  - split; [auto|]. split; [discriminate|]. auto.
Qed.

End DowngradeFacts.

Example downgrade_scenarios :
  TaskDowngrade.suggestTaskDowngrade asciiLower Samples.now
    (Some Samples.outage) (js "Study chapter 4") (js "Hard") 2
  = Fulfilled
      (TaskDowngrade.mkResult true (js "Study chapter 4") None None
         (TaskDowngrade.mkSuggestions (js "Review notes for 15 minutes") None)
         (Some true)
         (js "Consider this easier alternative for "
            ++ [dquote] ++ js "Study chapter 4" ++ [dquote] ++ js ":")
         Samples.now)
  /\ TaskDowngrade.suggestTaskDowngrade asciiLower Samples.now
       (Some Samples.answering) (js "Gym workout") (js "Medium") 3
     = Fulfilled
         (TaskDowngrade.mkResult true (js "Gym workout") (Some (js "Medium"))
            (Some 3%Z)
            (TaskDowngrade.mkSuggestions (js "10-minute walk or yoga")
               (Some (js "Walk for ten minutes.")))
            None
            (js "You've missed " ++ [dquote] ++ js "Gym workout" ++ [dquote]
               ++ js " 3 times. Here's an easier alternative to keep momentum:")
            Samples.now)
  /\ TaskDowngrade.suggestTaskDowngrade asciiLower Samples.now None
       (js "Gym workout") (js "Medium") 3
     = Fulfilled
         (TaskDowngrade.mkResult true (js "Gym workout") None None
            (TaskDowngrade.mkSuggestions (js "10-minute walk or yoga") None)
            (Some true)
            (js "Consider this easier alternative for "
               ++ [dquote] ++ js "Gym workout" ++ [dquote] ++ js ":")
            Samples.now).
Proof. split; [|split]; vm_compute; reflexivity. Qed.

(** ** Splitting and joining lines *)

Lemma split_nonempty (sep : N) (s : jsstring) : split sep s <> [].
Proof.
  destruct s as [|c s]; simpl; [discriminate|].
  destruct (c =? sep)%N; [discriminate|].
  destruct (split sep s); discriminate.
Qed.

Lemma split_app (sep : N) (a b : jsstring) :
  split sep (a ++ sep :: b) = split sep a ++ split sep b.
Proof.
  induction a as [|c a IH]; simpl.
  - rewrite N.eqb_refl. reflexivity.
  - destruct (c =? sep)%N; [rewrite IH; reflexivity|].
    rewrite IH. pose proof (split_nonempty sep a) as Hne.
    destruct (split sep a); [congruence|reflexivity].
Qed.

Lemma split_one_line (line : jsstring) :
  hasLineFeed line = false -> split LF line = [line].
Proof.
  unfold hasLineFeed.
  induction line as [|c line IH]; intros H; [reflexivity|].
  cbn [existsb] in H. apply orb_false_iff in H as [Hc Hl].
  rewrite N.eqb_sym in Hc. cbn [split]. rewrite Hc, (IH Hl). reflexivity.
Qed.

Lemma split_join (lines : list jsstring) :
  lines <> [] ->
  Forall (fun l => hasLineFeed l = false) lines ->
  split LF (join [LF] lines) = lines.
Proof.
  intros Hne Hall. induction Hall as [|l ls Hl Hls IH]; [congruence|].
  destruct ls as [|l' ls].
  - apply split_one_line, Hl.
  - change (join [LF] (l :: l' :: ls))
      with (l ++ LF :: join [LF] (l' :: ls)).
    rewrite split_app, (split_one_line l Hl), IH by discriminate.
    reflexivity.
Qed.

Lemma linesOf_app (pre rest : jsstring) :
  WeeklyReflection.linesOf (pre ++ [LF] ++ rest)
  = WeeklyReflection.linesOf pre ++ WeeklyReflection.linesOf rest.
Proof.
  unfold WeeklyReflection.linesOf. simpl app at 2.
  rewrite split_app. apply List.filter_app.
Qed.

(** ** The reflection parser *)

Section ReflectionFacts.

Import WeeklyReflection.

Variable toLowerCase : jsstring -> jsstring.

Local Abbreviation detectHeader := (WeeklyReflection.detectHeader toLowerCase).
Local Abbreviation visit := (WeeklyReflection.visit toLowerCase).
Local Abbreviation forEach := (WeeklyReflection.forEach toLowerCase).
Local Abbreviation parseReflectionSections :=
  (WeeklyReflection.parseReflectionSections toLowerCase).
Local Abbreviation isHeaderFor := (WeeklyReflection.isHeaderFor toLowerCase).
Local Abbreviation isContentLine := (WeeklyReflection.isContentLine toLowerCase).
Local Abbreviation wellFormed := (WeeklyReflection.wellFormed toLowerCase).

Lemma detectHeader_key (line : jsstring) (k : string) :
  detectHeader line = Some k -> k ∈ sectionKeys.
Proof.
  unfold WeeklyReflection.detectHeader, sectionKeys.
  repeat match goal with
         | |- context [if ?b then _ else _] => destruct b
         end; intros [= <-]; set_solver.
Qed.

Lemma initial_invariant : invariant initial.
Proof.
  split; [|discriminate]. unfold initial, emptySections, sectionKeys; simpl.
  rewrite !dom_insert_L, dom_empty_L. set_solver.
Qed.

Lemma initial_lookup (k : string) :
  k ∈ sectionKeys -> emptySections !! k = Some [].
Proof.
  unfold sectionKeys, emptySections. rewrite !elem_of_cons, elem_of_nil.
  intros [->|[->|[->|[->|[]]]]]; reflexivity.
Qed.

Lemma invariant_lookup (st : State) (k : string) :
  invariant st -> k ∈ sectionKeys -> is_Some (sections st !! k).
Proof.
  intros [Hdom _] Hk. apply elem_of_dom. rewrite Hdom.
  apply elem_of_list_to_set, Hk.
Qed.

(** The callback never throws, and it keeps the invariant. *)
Lemma visit_invariant (st : State) (line : jsstring) :
  invariant st -> exists st', visit st line = Some st' /\ invariant st'.
Proof.
  intros Hinv. pose proof Hinv as [Hdom Hcur]. unfold WeeklyReflection.visit.
  destruct (detectHeader (trim line)) as [k|] eqn:Hh.
  - eexists. split; [reflexivity|]. split; [exact Hdom|].
    simpl. intros k' [= <-]. eapply detectHeader_key, Hh.
  - destruct (currentSection st) as [cur|] eqn:Hc; [|eauto].
    destruct (isBulletLine (trim line)); [|eauto].
    destruct (truthy (contentOf (trim line))); [|eauto].
    destruct (invariant_lookup st cur Hinv (Hcur cur eq_refl)) as [its Hits].
    rewrite Hits. eexists. split; [reflexivity|].
    split; cbn [sections currentSection].
    + rewrite dom_insert_L, Hdom.
      apply subseteq_union_1_L, singleton_subseteq_l.
      rewrite elem_of_list_to_set. auto.
    + intros k' [= <-]. auto.
Qed.

Lemma forEach_invariant (lines : list jsstring) (st : State) :
  invariant st -> exists st', forEach lines st = Some st' /\ invariant st'.
Proof.
  revert st. induction lines as [|line lines IH]; intros st Hinv; simpl.
  - eauto.
  - destruct (visit_invariant st line Hinv) as (st1 & -> & Hinv1). auto.
Qed.

(** A key whose header no line shows keeps its list. *)
Lemma visit_other (st st' : State) (line : jsstring) (k : string) :
  detectHeader (trim line) <> Some k ->
  currentSection st <> Some k ->
  visit st line = Some st' ->
  sections st' !! k = sections st !! k /\ currentSection st' <> Some k.
Proof.
  intros Hh Hc. unfold WeeklyReflection.visit.
  destruct (detectHeader (trim line)) as [k'|].
  - intros [= <-]. simpl. split; [reflexivity|congruence].
  - destruct (currentSection st) as [cur|] eqn:Ecur;
      [|intros [= <-]; rewrite Ecur; auto].
    destruct (isBulletLine (trim line));
      [|intros [= <-]; rewrite Ecur; auto].
    destruct (truthy (contentOf (trim line)));
      [|intros [= <-]; rewrite Ecur; auto].
    destruct (sections st !! cur) as [its|]; [|discriminate].
    intros [= <-]. simpl. split; [|exact Hc].
    apply lookup_insert_ne. congruence.
Qed.

Lemma forEach_other (lines : list jsstring) (k : string) :
  forall st st',
    Forall (fun line => detectHeader (trim line) <> Some k) lines ->
    currentSection st <> Some k ->
    forEach lines st = Some st' ->
    sections st' !! k = sections st !! k.
Proof.
  induction lines as [|line lines IH]; intros st st' Hall Hc; simpl.
  - intros [= <-]. reflexivity.
  - inversion Hall as [|? ? Hl Hls]; subst.
    destruct (visit st line) as [st1|] eqn:Hv; [|discriminate].
    destruct (visit_other st st1 line k Hl Hc Hv) as [Hs Hc1].
    intros Hf. rewrite (IH st1 st' Hls Hc1 Hf). exact Hs.
Qed.

(** Before the first header nothing is recorded. *)
Lemma forEach_before_header (lines : list jsstring) (st : State) :
  currentSection st = None ->
  Forall (fun line => detectHeader (trim line) = None) lines ->
  forEach lines st = Some st.
Proof.
  intros Hc Hall. induction Hall as [|line lines Hl Hls IH]; simpl;
    [reflexivity|].
  unfold WeeklyReflection.visit. rewrite Hl, Hc. exact IH.
Qed.

Lemma forEach_app (a b : list jsstring) (st : State) :
  forEach (a ++ b) st
  = match forEach a st with
    | Some st' => forEach b st'
    | None => None
    end.
Proof.
  revert st. induction a as [|line a IH]; intros st; simpl; [reflexivity|].
  destruct (visit st line); [apply IH|reflexivity].
Qed.

(** Bullet lines under a current section are appended to it, in order. *)
Lemma forEach_bullets (lines : list jsstring) (k : string) :
  forall (st : State) (its : list jsstring),
    currentSection st = Some k ->
    sections st !! k = Some its ->
    forallb isContentLine lines = true ->
    forEach lines st
    = Some (mkState
              (<[k := its ++ map (fun line => contentOf (trim line)) lines]>
                 (sections st))
              (Some k)).
Proof.
  induction lines as [|line lines IH]; intros st its Hc Hits Hall.
  - cbn [WeeklyReflection.forEach map]. rewrite app_nil_r, insert_id by exact Hits.
    destruct st; simpl in *; congruence.
  - cbn [forallb] in Hall. apply andb_true_iff in Hall as [Hline Hall].
    unfold WeeklyReflection.isContentLine in Hline.
    apply andb_true_iff in Hline as [Hline Htext].
    apply andb_true_iff in Hline as [Hline Hmark].
    apply andb_true_iff in Hline as [_ Hnone].
    apply bool_decide_eq_true in Hnone.
    cbn [WeeklyReflection.forEach]. unfold WeeklyReflection.visit.
    rewrite Hnone, Hc, Hmark, Htext, Hits.
    rewrite (IH _ (its ++ [contentOf (trim line)]));
      cbn [sections currentSection];
      [|reflexivity|apply lookup_insert_eq|exact Hall].
    rewrite insert_insert_eq, <- app_assoc. reflexivity.
Qed.

(** A block appends its items to the section of its header. *)
Lemma forEach_block (b : Block) (st : State) (its : list jsstring) :
  wellFormed b = true ->
  sections st !! key b = Some its ->
  forEach (linesOfBlock b) st
  = Some (mkState (<[key b := its ++ items b]> (sections st)) (Some (key b))).
Proof.
  intros Hwf Hits. unfold WeeklyReflection.wellFormed in Hwf.
  apply andb_true_iff in Hwf as [Hh Hbs].
  unfold WeeklyReflection.isHeaderFor in Hh.
  apply andb_true_iff in Hh as [_ Hh]. apply bool_decide_eq_true in Hh.
  unfold linesOfBlock. cbn [WeeklyReflection.forEach].
  unfold WeeklyReflection.visit at 1. rewrite Hh.
  rewrite (forEach_bullets (bullets b) (key b) _ its); auto.
Qed.

Lemma wellFormed_key (b : Block) :
  wellFormed b = true -> key b ∈ sectionKeys.
Proof.
  unfold WeeklyReflection.wellFormed, WeeklyReflection.isHeaderFor.
  rewrite !andb_true_iff, bool_decide_eq_true.
  intros [[_ Hh] _]. eapply detectHeader_key, Hh.
Qed.

(** Blocks with distinct keys fill their sections and leave the other
    sections as they were. *)
Lemma forEach_blocks (blocks : list Block) :
  forall st : State,
    Forall (fun b => wellFormed b = true) blocks ->
    NoDup (map key blocks) ->
    (forall b, b ∈ blocks -> sections st !! key b = Some []) ->
    exists st',
      forEach (flat_map linesOfBlock blocks) st = Some st'
      /\ (forall b, b ∈ blocks -> sections st' !! key b = Some (items b))
      /\ (forall k, k ∉ map key blocks ->
                    sections st' !! k = sections st !! k).
Proof.
  induction blocks as [|b blocks IH]; intros st Hwf Hnd Hempty.
  - exists st. split; [reflexivity|]. split; [|reflexivity].
    intros b Hb. apply elem_of_nil in Hb. contradiction.
  - inversion Hwf as [|? ? Hb Hbs]; subst.
    cbn [map] in Hnd. apply NoDup_cons in Hnd as [Hfresh Hnd].
    cbn [flat_map]. rewrite forEach_app.
    rewrite (forEach_block b st []) by (auto; apply Hempty; left).
    cbn [app].
    destruct (IH (mkState (<[key b := items b]> (sections st)) (Some (key b)))
                Hbs Hnd) as (st' & Hrun & Hfilled & Hrest).
    { intros b' Hb'. cbn [sections].
      rewrite lookup_insert_ne; [apply Hempty; right; exact Hb'|].
      intros Heq. apply Hfresh. rewrite Heq.
      apply list_elem_of_fmap_2. exact Hb'. }
    exists st'. split; [exact Hrun|]. split.
    + intros b' Hb'. apply elem_of_cons in Hb' as [->|Hb']; [|auto].
      rewrite (Hrest (key b) Hfresh). cbn [sections].
      apply lookup_insert_eq.
    + intros k Hk. cbn [map] in Hk. apply not_elem_of_cons in Hk as [Hk1 Hk2].
      rewrite (Hrest k Hk2). cbn [sections]. apply lookup_insert_ne. auto.
Qed.

(** The lines the parser sees of a rendered sequence of blocks. *)
Lemma linesOf_render (blocks : list Block) :
  Forall (fun b => wellFormed b = true) blocks ->
  linesOf (render blocks) = flat_map linesOfBlock blocks.
Proof.
  intros Hwf. unfold linesOf, render.
  assert (Hlines : Forall (fun l => hasLineFeed l = false
                                    /\ truthy (trim l) = true)
                          (flat_map linesOfBlock blocks)).
  { induction Hwf as [|b blocks Hb Hbs IH]; [constructor|].
    cbn [flat_map]. apply Forall_app. split; [|exact IH].
    unfold WeeklyReflection.wellFormed in Hb.
    apply andb_true_iff in Hb as [Hh Hc]. unfold linesOfBlock. constructor.
    - unfold WeeklyReflection.isHeaderFor in Hh.
      rewrite !andb_true_iff, negb_true_iff in Hh. tauto.
    - rewrite forallb_forall in Hc. apply Forall_forall. intros l Hl.
      apply list_elem_of_In, Hc in Hl.
      unfold WeeklyReflection.isContentLine in Hl.
      rewrite !andb_true_iff, negb_true_iff in Hl.
      destruct Hl as [[[Hlf _] Hmark] _]. split; [exact Hlf|].
      destruct (trim l); [discriminate|reflexivity]. }
  destruct (flat_map linesOfBlock blocks) as [|l ls] eqn:E; [reflexivity|].
  rewrite split_join;
    [|discriminate
     |eapply Forall_impl; [exact Hlines|intros x [Hx _]; exact Hx]].
  clear E. induction Hlines as [|x xs [_ Hx] Hxs IH]; [reflexivity|].
  cbn [List.filter]. rewrite Hx, IH. reflexivity.
Qed.


End ReflectionFacts.

Example reflection_parsed :
  WeeklyReflection.entries
    <$> WeeklyReflection.parseReflectionSections asciiLower Samples.reflection
  = Some
      [("whatWentWell",
        Some [js "Highlight achievements";
              js "Recognize patterns of success"]);
       ("whatWentWrong",
        Some [js "Identify missed tasks"; js "Note consistency issues"]);
       ("possibleReasons",
        Some [js "Analyze why tasks were missed";
              js "Consider mood and workload factors"]);
       ("suggestions",
        Some [js "Give 2-3 specific, actionable improvements";
              js "Be encouraging and realistic"])]%string.
Proof. vm_compute. reflexivity. Qed.

(** A bullet line that mentions a header phrase is read as a header: the
    line is not recorded and the lines after it go to that section. *)
Example reflection_header_in_bullet :
  WeeklyReflection.entries
    <$> WeeklyReflection.parseReflectionSections asciiLower
          (js "Notes of the week
- not under any header
What went well
- Followed the suggestions of last week
- Slept enough")
  = Some
      [("whatWentWell", Some []);
       ("whatWentWrong", Some []);
       ("possibleReasons", Some []);
       ("suggestions", Some [js "Slept enough"])]%string.
Proof. vm_compute. reflexivity. Qed.


(** ** Bullet extraction *)

Lemma skipWhile_idem (p : N -> bool) (s : jsstring) :
  skipWhile p (skipWhile p s) = skipWhile p s.
Proof.
  induction s as [|c s IH]; [reflexivity|].
  cbn [skipWhile]. destruct (p c) eqn:E; [exact IH|].
  cbn [skipWhile]. rewrite E. reflexivity.
Qed.

Lemma skipWhile_snoc (p : N -> bool) (s : jsstring) (c : N) :
  p c = false -> skipWhile p (s ++ [c]) = skipWhile p s ++ [c].
Proof.
  intros Hc. induction s as [|d s IH]; cbn [skipWhile app].
  - rewrite Hc. reflexivity.
  - destruct (p d); [exact IH|reflexivity].
Qed.

(** Trimming keeps a leading code unit that is not white space. *)
Lemma trim_cons (c : N) (s : jsstring) :
  isWhiteSpace c = false -> trim (c :: s) = c :: trimEnd s.
Proof.
  intros Hc. unfold trim, trimStart, trimEnd. cbn [skipWhile]. rewrite Hc.
  cbn [rev]. rewrite skipWhile_snoc by exact Hc.
  rewrite rev_app_distr. reflexivity.
Qed.

Lemma trim_trimStart (s : jsstring) :
  trim (skipWhile isWhiteSpace s) = trim s.
Proof. unfold trim, trimStart. rewrite skipWhile_idem. reflexivity. Qed.

Section ExtractionFacts.

Import Routes.

(** The text of one line with respect to the task extraction. *)
Lemma parseTasks_app (a b : jsstring) :
  parseTasks (a ++ [LF] ++ b) = parseTasks a ++ parseTasks b.
Proof.
  unfold parseTasks. cbn [app]. rewrite split_app.
  rewrite !List.filter_app, map_app, List.filter_app. reflexivity.
Qed.

Lemma parseTasks_unmarked (line : jsstring) :
  hasLineFeed line = false ->
  startsWith [bullet] (trim line) || startsWith [hyphen] (trim line) = false ->
  parseTasks line = [].
Proof.
  intros Hlf Hm. unfold parseTasks. rewrite (split_one_line line Hlf).
  cbn [List.filter]. rewrite Hm. reflexivity.
Qed.

Lemma parseTasks_marked (marker : N) (rest : jsstring) :
  marker = bullet \/ marker = hyphen ->
  hasLineFeed rest = false ->
  parseTasks (marker :: rest)
  = if truthy (trim rest) then [trim rest] else [].
Proof.
  intros Hm Hlf. unfold parseTasks.
  assert (Hlf' : hasLineFeed (marker :: rest) = false).
  { unfold hasLineFeed in *. cbn [existsb]. rewrite Hlf.
    destruct Hm as [-> | ->]; reflexivity. }
  assert (Hws : isWhiteSpace marker = false)
    by (destruct Hm as [-> | ->]; reflexivity).
  rewrite (split_one_line _ Hlf'). cbn [List.filter].
  rewrite (trim_cons marker rest Hws).
  assert (Hkeep : startsWith [bullet] (marker :: trimEnd rest)
                  || startsWith [hyphen] (marker :: trimEnd rest) = true)
    by (destruct Hm as [-> | ->]; reflexivity).
  rewrite Hkeep. cbn [map List.filter].
  assert (Hstrip : stripLeading [bullet; hyphen] (marker :: rest)
                   = skipWhile isWhiteSpace rest)
    by (destruct Hm as [-> | ->]; reflexivity).
  rewrite Hstrip, trim_trimStart.
  destruct (trim rest); reflexivity.
Qed.

End ExtractionFacts.

(** C8, as amended. The task extraction of POST /generate-tasks works
    line by line, in order and without removing duplicates: the items of
    a text are those of its lines, concatenated. A line whose trimmed
    form starts with neither the bullet nor the hyphen yields nothing (so
    a line marked with an asterisk is not kept). A line that begins with
    the bullet or the hyphen yields the trimmed remainder after the
    marker, unless that is empty. In the section parser the three markers
    hyphen, bullet and asterisk are recognised on the trimmed line; there
    the text after the marker, trimmed, is appended to the current
    section unless it is empty, and a line without marker is ignored. *)
Theorem bullet_extraction_line_by_line :
  (forall a b : jsstring,
     Routes.parseTasks (a ++ [LF] ++ b)
     = Routes.parseTasks a ++ Routes.parseTasks b)
  /\ (forall line : jsstring,
        hasLineFeed line = false ->
        startsWith [Routes.bullet] (trim line)
        || startsWith [Routes.hyphen] (trim line) = false ->
        Routes.parseTasks line = [])
  /\ (forall (marker : N) (rest : jsstring),
        marker = Routes.bullet \/ marker = Routes.hyphen ->
        hasLineFeed rest = false ->
        Routes.parseTasks (marker :: rest)
        = if truthy (trim rest) then [trim rest] else [])
  /\ (forall (marker : N) (rest : jsstring),
        marker = WeeklyReflection.hyphen \/ marker = WeeklyReflection.bullet
        \/ marker = WeeklyReflection.asterisk ->
        WeeklyReflection.isBulletLine (marker :: rest) = true
        /\ WeeklyReflection.contentOf (marker :: rest) = trim rest)
  /\ (forall (toLowerCase : jsstring -> jsstring)
             (st : WeeklyReflection.State) (line : jsstring) (cur : string)
             (its : list jsstring),
        WeeklyReflection.detectHeader toLowerCase (trim line) = None ->
        WeeklyReflection.currentSection st = Some cur ->
        WeeklyReflection.sections st !! cur = Some its ->
        WeeklyReflection.visit toLowerCase st line
        = Some
            (if WeeklyReflection.isBulletLine (trim line)
                && truthy (WeeklyReflection.contentOf (trim line))
             then WeeklyReflection.mkState
                    (<[cur := its ++ [WeeklyReflection.contentOf (trim line)]]>
                       (WeeklyReflection.sections st))
                    (Some cur)
             else st)).
Proof.
  split; [exact parseTasks_app|].
  split; [exact parseTasks_unmarked|].
  split; [exact parseTasks_marked|].
  split.
  - intros marker rest Hm. unfold WeeklyReflection.contentOf.
    destruct Hm as [-> | [-> | ->]];
      (split; [reflexivity|]); cbn [stripLeading existsb];
      apply trim_trimStart.
  - intros toLowerCase st line cur its Hh Hc Hits.
    unfold WeeklyReflection.visit. rewrite Hh, Hc.
    destruct (WeeklyReflection.isBulletLine (trim line)); [|reflexivity].
    destruct (truthy (WeeklyReflection.contentOf (trim line)));
      [|reflexivity].
    rewrite Hits. reflexivity.
Qed.

Lemma bullet_extraction_line_by_line_witness :
  (Routes.bullet = Routes.bullet \/ Routes.bullet = Routes.hyphen)
  /\ hasLineFeed (js " Study for 1 hour ") = false
  /\ Routes.parseTasks (Routes.bullet :: js " Study for 1 hour ")
     = if truthy (trim (js " Study for 1 hour "))
       then [trim (js " Study for 1 hour ")] else [].
Proof.
  split; [left; reflexivity|]. split; [reflexivity|].
  exact (proj1 (proj2 (proj2 bullet_extraction_line_by_line))
           Routes.bullet (js " Study for 1 hour ")
           (or_introl eq_refl) eq_refl).
Defined.

(** C8, the claim as stated, fails: a line marked with an asterisk is a
    bullet line in the words of the claim, and the task extraction drops
    it. *)
Lemma asterisk_line_not_extracted :
  Routes.parseTasks (js "* Take practice quiz") = []
  /\ Routes.extractBulletItems_spec (js "* Take practice quiz")
     = [js "Take practice quiz"]
  /\ Routes.parseTasks (js "* Take practice quiz")
     <> Routes.extractBulletItems_spec (js "* Take practice quiz").
Proof. vm_compute. repeat split; discriminate. Qed.

Example parseTasks_keeps_order_and_duplicates :
  Routes.parseTasks (js "Here are your tasks:
• Review notes
- Take practice quiz
•
• Review notes")
  = [js "Review notes"; js "Take practice quiz"; js "Review notes"].
Proof. vm_compute. reflexivity. Qed.

(** On a line whose marker comes after white space the replacement, which
    is anchored at the start of the untrimmed line, strips nothing. *)
Example parseTasks_indented_marker :
  Routes.parseTasks (js "  - Review notes") = [js "- Review notes"]
  /\ Routes.extractBulletItems_spec (js "  - Review notes")
     = [js "Review notes"].
Proof. vm_compute. split; reflexivity. Qed.

(* ================================================================== *)
(** * Further properties of the code                                    *)
(* ================================================================== *)

(** ** The orchestrator and its helpers *)

Lemma tryProviders_ext (env : Env)
    (g q h g' q' h' : jsstring -> Z -> Settled jsstring)
    (prompt : jsstring) (maxTokens : Z) (chain : list jsstring) :
  (forall p, AiAPI.attempt env g q h p prompt maxTokens
             = AiAPI.attempt env g' q' h' p prompt maxTokens) ->
  AiAPI.tryProviders env g q h chain prompt maxTokens
  = AiAPI.tryProviders env g' q' h' chain prompt maxTokens.
Proof.
  intros Hsame. induction chain as [|p rest IH]; [reflexivity|].
  cbn [AiAPI.tryProviders]. rewrite Hsame, IH. reflexivity.
Qed.

(** X1. [callAI] does not invoke an adapter whose key is missing: two
    sets of adapters that agree, on the prompt of the call, wherever the
    key of the provider is set give the same log and the same outcome. *)
Theorem callAI_skips_keyless_adapters
    (PRIMARY_PROVIDER : option jsstring) (env : Env)
    (g q h g' q' h' : jsstring -> Z -> Settled jsstring)
    (prompt : jsstring) (maxTokens : Z) :
  (truthy_opt (GEMINI_API_KEY env) = true ->
   g prompt maxTokens = g' prompt maxTokens) ->
  (truthy_opt (GROQ_API_KEY env) = true ->
   q prompt maxTokens = q' prompt maxTokens) ->
  (truthy_opt (HUGGINGFACE_API_KEY env) = true ->
   h prompt maxTokens = h' prompt maxTokens) ->
  AiAPI.callAI PRIMARY_PROVIDER env g q h prompt maxTokens
  = AiAPI.callAI PRIMARY_PROVIDER env g' q' h' prompt maxTokens.
Proof.
  intros Hg Hq Hh. unfold AiAPI.callAI. apply tryProviders_ext.
  intros p. unfold AiAPI.attempt.
  destruct (truthy_opt (GEMINI_API_KEY env));
    destruct (truthy_opt (GROQ_API_KEY env));
    destruct (truthy_opt (HUGGINGFACE_API_KEY env)); cbn [negb];
    rewrite ?Hg, ?Hq, ?Hh by reflexivity; reflexivity.
Qed.

Lemma callAI_skips_keyless_adapters_witness :
  AiAPI.callAI None (mkEnv None (Some (js "q-key")) None)
    Samples.answering Samples.failing Samples.answering (js "hello") 100
  = AiAPI.callAI None (mkEnv None (Some (js "q-key")) None)
      Samples.outage Samples.failing Samples.failing (js "hello") 100.
Proof.
  apply callAI_skips_keyless_adapters.
  - intros H. discriminate H.
  - intros _. reflexivity.
  - intros H. discriminate H.
Defined.

(** X2. An override that names no known provider is ignored: the call
    settles as it does without override, and its log only has one more
    line, for the unknown name, in front. An empty override is no
    override at all. *)
Theorem callAI_ignores_unknown_override (env : Env)
    (g q h : jsstring -> Z -> Settled jsstring)
    (override prompt : jsstring) (maxTokens : Z) :
  override ∉ AiAPI.PROVIDER_ORDER ->
  (AiAPI.callAI (Some override) env g q h prompt maxTokens).2
  = (AiAPI.callAI None env g q h prompt maxTokens).2
  /\ AiAPI.caught (AiAPI.callAI (Some override) env g q h prompt maxTokens).1
     = AiAPI.caught (AiAPI.callAI None env g q h prompt maxTokens).1
  /\ (truthy override = true ->
      (AiAPI.callAI (Some override) env g q h prompt maxTokens).1
      = AiAPI.Attempting override
          :: (AiAPI.callAI None env g q h prompt maxTokens).1)
  /\ (truthy override = false ->
      AiAPI.callAI (Some override) env g q h prompt maxTokens
      = AiAPI.callAI None env g q h prompt maxTokens).
Proof.
  intros Hout. unfold AiAPI.callAI, AiAPI.providers.
  destruct (truthy override) eqn:Ht.
  - assert (Hf : List.filter (fun p => negb (JS.eqb p override))
                   AiAPI.PROVIDER_ORDER = AiAPI.PROVIDER_ORDER).
    { apply forallb_filter_id, forallb_forall. intros p Hp.
      apply negb_true_iff, eqb_neq. intros ->.
      apply Hout, list_elem_of_In, Hp. }
    rewrite Hf. cbn [AiAPI.tryProviders].
    rewrite (attempt_unknown env g q h override prompt maxTokens Hout).
    destruct (AiAPI.tryProviders env g q h AiAPI.PROVIDER_ORDER prompt
                maxTokens) as [log r].
    cbn [fst snd AiAPI.caught]. repeat split; congruence.
  - repeat split; congruence.
Qed.

Lemma callAI_ignores_unknown_override_witness :
  (js "claude" ∉ AiAPI.PROVIDER_ORDER)
  /\ (AiAPI.callAI (Some (js "claude")) Samples.env Samples.failing
        Samples.answering Samples.failing (js "hello") 100).2
     = (AiAPI.callAI None Samples.env Samples.failing Samples.answering
          Samples.failing (js "hello") 100).2.
Proof.
  assert (H : js "claude" ∉ AiAPI.PROVIDER_ORDER).
  { rewrite list_elem_of_In. simpl. intuition discriminate. }
  split; [exact H|].
  exact (proj1 (callAI_ignores_unknown_override Samples.env Samples.failing
                  Samples.answering Samples.failing (js "claude")
                  (js "hello") 100 H)).
Defined.

(** X3. Whatever made the providers fail, [handleAIError] turns a
    rejection of [callAI] into the text that all services are
    unavailable: its answers for rate limits and for configuration
    errors are never given for a failure of the orchestrator. *)
Theorem handleAIError_after_callAI
    (PRIMARY_PROVIDER : option jsstring) (env : Env)
    (g q h : jsstring -> Z -> Settled jsstring)
    (prompt : jsstring) (maxTokens : Z) (e : Error) :
  (AiAPI.callAI PRIMARY_PROVIDER env g q h prompt maxTokens).2 = Rejected e ->
  AiAPI.handleAIError e
  = js "All AI services are temporarily unavailable. Manual input is still available.".
Proof.
  intros He. unfold AiAPI.callAI in He.
  apply (proj2 (tryProviders_rejected env g q h _ prompt maxTokens)) in He.
  destruct He as [-> _]. vm_compute. reflexivity.
Qed.

Lemma handleAIError_after_callAI_witness :
  (AiAPI.callAI None Samples.env Samples.failing Samples.failing
     Samples.failing (js "hello") 100).2 = Rejected AiAPI.allUnavailable
  /\ AiAPI.handleAIError AiAPI.allUnavailable
     = js "All AI services are temporarily unavailable. Manual input is still available.".
Proof.
  split; [reflexivity|].
  exact (handleAIError_after_callAI None Samples.env Samples.failing
           Samples.failing Samples.failing (js "hello") 100
           AiAPI.allUnavailable eq_refl).
Defined.

(** The answers [handleAIError] has for single provider errors. *)
Example handleAIError_single_errors :
  AiAPI.handleAIError (error (js "rate limit reached"))
  = js "AI services are busy right now. Please try again shortly."
  /\ AiAPI.handleAIError (error (js "Gemini API key missing"))
     = js "AI service configuration error. Please contact the administrator."
  /\ AiAPI.handleAIError (error (js "API key rate exceeded"))
     = js "AI services are busy right now. Please try again shortly.".
Proof. vm_compute. repeat split; reflexivity. Qed.


(** ** Trimming *)

Lemma skipWhile_head (p : N -> bool) (s r : jsstring) (c : N) :
  skipWhile p s = c :: r -> p c = false.
Proof.
  induction s as [|d s IH]; cbn [skipWhile]; [discriminate|].
  destruct (p d) eqn:E; [exact IH|]. intros [= <- _]. exact E.
Qed.

Lemma trimEnd_cons (c : N) (s : jsstring) :
  isWhiteSpace c = false -> trimEnd (c :: s) = c :: trimEnd s.
Proof.
  intros Hc. unfold trimEnd. cbn [rev].
  rewrite skipWhile_snoc by exact Hc. rewrite rev_app_distr. reflexivity.
Qed.

Lemma trimEnd_idem (s : jsstring) : trimEnd (trimEnd s) = trimEnd s.
Proof.
  unfold trimEnd. rewrite rev_involutive, skipWhile_idem. reflexivity.
Qed.

(** Trimming a trimmed string changes nothing. *)
Lemma trim_idem (s : jsstring) : trim (trim s) = trim s.
Proof.
  assert (H : trim s = trimEnd (skipWhile isWhiteSpace s)) by reflexivity.
  destruct (skipWhile isWhiteSpace s) as [|c u] eqn:E.
  - rewrite H. reflexivity.
  - pose proof (skipWhile_head _ _ _ _ E) as Hc.
    rewrite H, trimEnd_cons by exact Hc.
    rewrite trim_cons by exact Hc. rewrite trimEnd_idem. reflexivity.
Qed.

(** A trimmed string neither starts nor ends with white space. *)
Lemma trim_ends (s : jsstring) :
  match trim s with
  | [] => True
  | c :: _ => isWhiteSpace c = false
  end
  /\ match rev (trim s) with
     | [] => True
     | c :: _ => isWhiteSpace c = false
     end.
Proof.
  split.
  - unfold trim, trimStart.
    destruct (skipWhile isWhiteSpace s) as [|c u] eqn:E; [exact I|].
    rewrite trimEnd_cons by exact (skipWhile_head _ _ _ _ E).
    exact (skipWhile_head _ _ _ _ E).
  - unfold trim, trimEnd. rewrite rev_involutive.
    destruct (skipWhile isWhiteSpace (rev (trimStart s))) as [|c u] eqn:E;
      [exact I|]. exact (skipWhile_head _ _ _ _ E).
Qed.

(** ** The HuggingFace adapter, continued *)

(** X5. With the key missing or empty, [callHuggingFace] and
    [callHuggingFaceFast] reject with their configuration errors at once:
    no request is sent and no time is spent waiting. *)
Theorem huggingface_key_checked_first
    (env : Env) (network : nat -> HuggingFace.Reply) (fuel : nat)
    (prompt : jsstring) (maxTokens : Z) (w : HuggingFace.World) :
  truthy_opt (HUGGINGFACE_API_KEY env) = false ->
  HuggingFace.callHuggingFace env network (S fuel) prompt maxTokens w
  = Some (Rejected (error
            (js "HUGGINGFACE_API_KEY is not set in environment variables")),
          w)
  /\ HuggingFaceFast.callHuggingFaceFast env network prompt maxTokens w
     = (Rejected (error (js "HUGGINGFACE_API_KEY is not set")), w).
Proof.
  intros Hkey. cbn [HuggingFace.callHuggingFace].
  unfold HuggingFaceFast.callHuggingFaceFast.
  destruct (HUGGINGFACE_API_KEY env) as [[|c k]|]; try discriminate;
    split; reflexivity.
Qed.

Lemma huggingface_key_checked_first_witness :
  truthy_opt (HUGGINGFACE_API_KEY (mkEnv None None (Some []))) = false
  /\ HuggingFace.callHuggingFace (mkEnv None None (Some []))
       Samples.warmingTwice 1 (js "Say hi") 1500 HuggingFace.start
     = Some (Rejected (error
               (js "HUGGINGFACE_API_KEY is not set in environment variables")),
             HuggingFace.start).
Proof.
  split; [reflexivity|].
  exact (proj1 (huggingface_key_checked_first (mkEnv None None (Some []))
                  Samples.warmingTwice 0 (js "Say hi") 1500
                  HuggingFace.start eq_refl)).
Defined.

(** Every settled invocation, from any world. *)
Lemma callHuggingFace_settled (env : Env) (network : nat -> HuggingFace.Reply)
    (key prompt : jsstring) (maxTokens : Z) :
  HUGGINGFACE_API_KEY env = Some key ->
  truthy key = true ->
  forall (fuel : nat) (w w' : HuggingFace.World) (outcome : Settled jsstring),
    HuggingFace.callHuggingFace env network fuel prompt maxTokens w
    = Some (outcome, w') ->
    exists n : nat,
      HuggingFace.sent w'
      = HuggingFace.sent w
          ++ replicate (S n) (HuggingFace.request key prompt maxTokens)
      /\ HuggingFace.slept w' = (HuggingFace.slept w + 20000 * Z.of_nat n)%Z
      /\ (forall i, (i < n)%nat ->
            HuggingFace.isLoadingReply
              (network (length (HuggingFace.sent w) + i)) = true)
      /\ HuggingFace.isLoadingReply
           (network (length (HuggingFace.sent w) + n)) = false
      /\ outcome
         = HuggingFace.surfaces (network (length (HuggingFace.sent w) + n)).
Proof.
  intros Hkey Htruthy fuel.
  induction fuel as [|fuel IH]; intros w w' outcome Hrun; [discriminate|].
  destruct (HuggingFace.isLoadingReply
              (network (length (HuggingFace.sent w)))) eqn:Hl.
  - rewrite (callHuggingFace_retry env network key Hkey Htruthy) in Hrun
      by exact Hl.
    apply IH in Hrun as (n & Hsent & Hslept & Hload & Hlast & Hout).
    cbn [HuggingFace.sent HuggingFace.slept] in *.
    rewrite length_app in Hload, Hlast, Hout. cbn [length] in *.
    replace (length (HuggingFace.sent w) + 1 + n)%nat
      with (length (HuggingFace.sent w) + S n)%nat in * by lia.
    exists (S n). split; [|split; [|split; [|split]]].
    + rewrite Hsent, <- app_assoc. reflexivity.
    + lia.
    + intros i Hi. destruct i as [|i].
      * rewrite Nat.add_0_r. exact Hl.
      * replace (length (HuggingFace.sent w) + S i)%nat
          with (length (HuggingFace.sent w) + 1 + i)%nat by lia.
        apply Hload. lia.
    + exact Hlast.
    + exact Hout.
  - rewrite (callHuggingFace_surfaces env network key Hkey Htruthy) in Hrun
      by exact Hl.
    injection Hrun as <- <-. exists 0%nat.
    cbn [HuggingFace.sent HuggingFace.slept].
    rewrite Nat.add_0_r, Z.add_0_r. repeat split; auto. intros i Hi. lia.
Qed.

(** X6. Whenever an invocation of [callHuggingFace] settles (with the key
    set), every request it sent is the same request, it waited exactly
    20 seconds per retry, every reply but the last was a loading reply,
    and it settles as the last reply, which is no loading reply,
    dictates. *)
Theorem callHuggingFace_settles_on_last_reply
    (env : Env) (network : nat -> HuggingFace.Reply) (key prompt : jsstring)
    (maxTokens : Z) (fuel : nat) (w : HuggingFace.World)
    (outcome : Settled jsstring) :
  HUGGINGFACE_API_KEY env = Some key ->
  truthy key = true ->
  HuggingFace.callHuggingFace env network fuel prompt maxTokens
    HuggingFace.start = Some (outcome, w) ->
  HuggingFace.sent w
  = replicate (S (HuggingFace.retries w))
      (HuggingFace.request key prompt maxTokens)
  /\ HuggingFace.slept w = (20000 * Z.of_nat (HuggingFace.retries w))%Z
  /\ (forall i, (i < HuggingFace.retries w)%nat ->
        HuggingFace.isLoadingReply (network i) = true)
  /\ HuggingFace.isLoadingReply (network (HuggingFace.retries w)) = false
  /\ outcome = HuggingFace.surfaces (network (HuggingFace.retries w)).
Proof.
  intros Hkey Htruthy Hrun.
  destruct (callHuggingFace_settled env network key prompt maxTokens Hkey
              Htruthy fuel HuggingFace.start w outcome Hrun)
    as (n & Hsent & Hslept & Hload & Hlast & Hout).
  cbn [HuggingFace.start HuggingFace.sent HuggingFace.slept app length]
    in Hsent, Hslept, Hload, Hlast, Hout.
  assert (Hn : HuggingFace.retries w = n).
  { unfold HuggingFace.retries. rewrite Hsent, length_replicate.
    reflexivity. }
  rewrite Hn. repeat split; auto.
Qed.

Lemma callHuggingFace_settles_on_last_reply_witness :
  HUGGINGFACE_API_KEY Samples.env = Some (js "hf-key")
  /\ truthy (js "hf-key") = true
  /\ exists outcome w,
       HuggingFace.callHuggingFace Samples.env Samples.warmingTwice 5
         (js "Say hi") 1500 HuggingFace.start = Some (outcome, w)
       /\ HuggingFace.slept w = (20000 * Z.of_nat (HuggingFace.retries w))%Z.
Proof.
  split; [reflexivity|]. split; [reflexivity|].
  destruct (HuggingFace.callHuggingFace Samples.env Samples.warmingTwice 5
              (js "Say hi") 1500 HuggingFace.start) as [[outcome w]|] eqn:E.
  - exists outcome, w. split; [reflexivity|].
    exact (proj1 (proj2 (callHuggingFace_settles_on_last_reply Samples.env
                           Samples.warmingTwice (js "hf-key") (js "Say hi")
                           1500 5 w outcome eq_refl eq_refl E))).
  - exfalso. vm_compute in E. discriminate E.
Defined.



Lemma extractText_trimmed (data : HuggingFace.Json) (t : jsstring) :
  HuggingFace.extractText data = Fulfilled t -> trim t = t.
Proof.
  unfold HuggingFace.extractText.
  destruct data as [[o|]|o];
    try destruct (truthy_opt (HuggingFace.generated_text o));
    intros [= <-]; apply trim_idem.
Qed.

Lemma surfaces_trimmed (r : HuggingFace.Reply) (t : jsstring) :
  HuggingFace.surfaces r = Fulfilled t -> trim t = t.
Proof.
  destruct r as [e|[|] st [data|e]]; cbn [HuggingFace.surfaces];
    try discriminate. apply extractText_trimmed.
Qed.

(** X8. A text an adapter fulfils with is always trimmed: it neither
    starts nor ends with white space, for the Gemini, the Groq and both
    HuggingFace calls. *)
Theorem adapters_fulfil_with_trimmed_text (env : Env) (prompt : jsstring)
    (maxTokens : Z) (t : jsstring) :
  (forall reply,
     (Gemini.callGemini env reply prompt maxTokens).1 = Fulfilled t ->
     trim t = t)
  /\ (forall reply,
        (Groq.callGroq env reply prompt maxTokens).1 = Fulfilled t ->
        trim t = t)
  /\ (forall network fuel w w',
        HuggingFace.callHuggingFace env network fuel prompt maxTokens w
        = Some (Fulfilled t, w') ->
        trim t = t)
  /\ (forall network w,
        (HuggingFaceFast.callHuggingFaceFast env network prompt maxTokens
           w).1 = Fulfilled t ->
        trim t = t).
Proof.
  split; [|split; [|split]].
  - intros reply. unfold Gemini.callGemini.
    destruct (GEMINI_API_KEY env) as [[|c k]|]; try discriminate.
    destruct reply as [e|[|] st [data|e]]; try discriminate.
    destruct (negb (truthy _)); [discriminate|].
    intros [= <-]. apply trim_idem.
  - intros reply. unfold Groq.callGroq.
    destruct (GROQ_API_KEY env) as [[|c k]|]; try discriminate.
    destruct reply as [e|[|] st [data|e]]; try discriminate.
    destruct (negb (truthy _)); [discriminate|].
    intros [= <-]. apply trim_idem.
  - intros network fuel w w' Hrun.
    destruct (HUGGINGFACE_API_KEY env) as [[|c k]|] eqn:Hkey.
    + destruct fuel; [discriminate|]. cbn [HuggingFace.callHuggingFace] in Hrun.
      rewrite Hkey in Hrun. discriminate.
    + destruct (callHuggingFace_settled env network (c :: k) prompt maxTokens
                  Hkey eq_refl fuel w w' (Fulfilled t) Hrun)
        as (n & _ & _ & _ & _ & Hout).
      symmetry in Hout. eapply surfaces_trimmed, Hout.
    + destruct fuel; [discriminate|]. cbn [HuggingFace.callHuggingFace] in Hrun.
      rewrite Hkey in Hrun. discriminate.
  - intros network w. unfold HuggingFaceFast.callHuggingFaceFast.
    destruct (HUGGINGFACE_API_KEY env) as [[|c k]|]; try discriminate.
    destruct (network (length (HuggingFace.sent w))) as [e|ok st [data|e]];
      try discriminate.
    intros [= <-]. apply trim_idem.
Qed.

(** The emptiness test of the Gemini adapter comes before the trim: a
    text of white space only is accepted and handed on as the empty
    string. *)
Example callGemini_blank_text :
  (Gemini.callGemini Samples.env
     (Gemini.Response true (js "OK")
        (Fulfilled (Gemini.mkBody None (Some (js "  
 ")))))
     (js "Say hi") 1500).1
  = Fulfilled [].
Proof. reflexivity. Qed.

(** X9. The Gemini and the Groq adapter send one request when their key
    is set and none otherwise, whatever the reply: they never retry. They
    fulfil exactly when the key is set and a successful response carries
    a non-empty text on the path of the provider, and then with that text
    trimmed. *)
Theorem chat_adapters_one_request (env : Env) (prompt : jsstring)
    (maxTokens : Z) :
  (forall reply,
     let run := Gemini.callGemini env reply prompt maxTokens in
     length run.2 = (if truthy_opt (GEMINI_API_KEY env) then 1 else 0)%nat
     /\ forall t,
          run.1 = Fulfilled t <->
          truthy_opt (GEMINI_API_KEY env) = true
          /\ exists statusText err raw,
               reply = Gemini.Response true statusText
                         (Fulfilled (Gemini.mkBody err (Some raw)))
               /\ truthy raw = true /\ t = trim raw)
  /\ (forall reply,
        let run := Groq.callGroq env reply prompt maxTokens in
        length run.2 = (if truthy_opt (GROQ_API_KEY env) then 1 else 0)%nat
        /\ forall t,
             run.1 = Fulfilled t <->
             truthy_opt (GROQ_API_KEY env) = true
             /\ exists statusText err raw,
                  reply = Groq.Response true statusText
                            (Fulfilled (Groq.mkBody err (Some raw)))
                  /\ truthy raw = true /\ t = trim raw).
Proof.
  split.
  - intros reply run. subst run. unfold Gemini.callGemini.
    destruct (GEMINI_API_KEY env) as [[|c k]|]; cbn [truthy_opt truthy].
    1,3: split; [reflexivity|]; intros t; split;
           [discriminate | intros [H _]; discriminate].
    destruct reply as [e|[|] st [[err [[|r raw]|]]|e]];
      cbn [fst snd length truthy_opt truthy negb Gemini.candidateText default];
      (split; [reflexivity|]); intros t; split;
      try discriminate;
      try (intros [_ (st' & err' & raw' & Hr & Ht & _)]; discriminate);
      try (intros [_ (st' & err' & raw' & [= _ _ Hraw] & Ht & _)];
           subst; discriminate).
    + intros [= <-]. split; [reflexivity|]. eauto 6.
    + intros [_ (st' & err' & raw' & [= _ _ <-] & _ & ->)]. reflexivity.
  - intros reply run. subst run. unfold Groq.callGroq.
    destruct (GROQ_API_KEY env) as [[|c k]|]; cbn [truthy_opt truthy].
    1,3: split; [reflexivity|]; intros t; split;
           [discriminate | intros [H _]; discriminate].
    destruct reply as [e|[|] st [[err [[|r raw]|]]|e]];
      cbn [fst snd length truthy_opt truthy negb Groq.choiceContent default];
      (split; [reflexivity|]); intros t; split;
      try discriminate;
      try (intros [_ (st' & err' & raw' & Hr & Ht & _)]; discriminate);
      try (intros [_ (st' & err' & raw' & [= _ _ Hraw] & Ht & _)];
           subst; discriminate).
    + intros [= <-]. split; [reflexivity|]. eauto 6.
    + intros [_ (st' & err' & raw' & [= _ _ <-] & _ & ->)]. reflexivity.
Qed.

(** ** The feasibility engine, continued *)

Section FeasibilityMore.

Import Feasibility.

(** The number of tasks of a plan on day [d]. *)
Local Abbreviation count d tasks := (length (tasksOn d tasks)).

Lemma heavyDays_counts (tasks : list DailyTask) (ds : list jsstring) :
  map load_day
    (List.filter (fun dl => (load dl >=? 7)%Z)
       (calculateDailyLoads (map (fun d => (d, tasksOn d tasks)) ds)))
  = List.filter (fun d => (4 <=? count d tasks)%nat) ds.
Proof.
  induction ds as [|d ds IH]; [reflexivity|].
  cbn [map calculateDailyLoads List.filter load load_day].
  fold (calculateDailyLoads (map (fun d => (d, tasksOn d tasks)) ds)).
  assert (E : (Z.of_nat (count d tasks) * 2 >=? 7)%Z
              = (4 <=? count d tasks)%nat).
  { destruct (4 <=? count d tasks)%nat eqn:E4.
    - apply Nat.leb_le in E4. apply Z.geb_le. lia.
    - apply Nat.leb_gt in E4. rewrite Z.geb_leb. apply Z.leb_gt. lia. }
  rewrite E. destruct (4 <=? count d tasks)%nat; cbn [map load_day];
    rewrite IH; reflexivity.
Qed.

Lemma heavyDays_of_plan (p : WeeklyPlan) :
  heavyDays (performRuleBasedChecks p)
  = List.filter (fun d => (4 <=? count d (dailyTasks p))%nat) days.
Proof.
  rewrite heavyDays_eq.
  unfold performRuleBasedChecks; cbv zeta; cbn [dailyBreakdown].
  rewrite groupTasksByDay_days. apply heavyDays_counts.
Qed.

Lemma heavy_counts_total (tasks : list DailyTask) (ds : list jsstring) :
  (4 * length (List.filter (fun d => (4 <=? count d tasks)%nat) ds)
   <= fold_right Nat.add 0 (map (fun d => count d tasks) ds))%nat.
Proof.
  induction ds as [|d ds IH]; cbn [List.filter map fold_right length];
    [lia|].
  destruct (4 <=? count d tasks)%nat eqn:E; cbn [length]; [|lia].
  apply Nat.leb_le in E. lia.
Qed.


(** X11. A plan is judged feasible exactly when at most 21 of its tasks
    are on canonical days and at most two days have four tasks or more.
    So every plan with fewer than twelve tasks is judged feasible. *)
Theorem feasible_by_counts (p : WeeklyPlan) :
  (feasible (performRuleBasedChecks p) = true <->
   (length (List.filter canonicalDay (dailyTasks p)) <= 21)%nat
   /\ (length (List.filter (fun d => (4 <=? count d (dailyTasks p))%nat) days)
       <= 2)%nat)
  /\ ((length (dailyTasks p) < 12)%nat ->
      feasible (performRuleBasedChecks p) = true).
Proof.
  assert (Hiff : feasible (performRuleBasedChecks p) = true <->
    (length (List.filter canonicalDay (dailyTasks p)) <= 21)%nat
    /\ (length (List.filter (fun d => (4 <=? count d (dailyTasks p))%nat) days)
        <= 2)%nat).
  { rewrite feasible_eq, andb_true_iff, avgLoad_le_6, totalLoad_canonical.
    unfold heavyDayCount. rewrite heavyDays_of_plan, Nat.leb_le. lia. }
  split; [exact Hiff|]. intros Hfew. apply Hiff.
  pose proof (proj1 (filter_shorter canonicalDay (dailyTasks p))) as Hle.
  pose proof (heavy_counts_total (dailyTasks p) days) as Hheavy.
  rewrite (tasksOn_total days (dailyTasks p) days_NoDup) in Hheavy.
  change (fun t => existsb (JS.eqb (day t)) days) with canonicalDay in Hheavy.
  lia.
Qed.

(** X12. The daily breakdown has one entry per canonical day, in the
    order Monday to Sunday. The load of an entry is twice its task count,
    which is the number of tasks on exactly that day, and its label tells
    the count: Free for no task, Light for one, Balanced for two or
    three, Heavy for four or more. *)
Theorem dailyBreakdown_labels (p : WeeklyPlan) :
  map load_day (dailyBreakdown (performRuleBasedChecks p)) = days
  /\ Forall
       (fun dl =>
          taskCount dl = Z.of_nat (count (load_day dl) (dailyTasks p))
          /\ load dl = (2 * taskCount dl)%Z
          /\ (label dl = js "Free" <-> taskCount dl = 0%Z)
          /\ (label dl = js "Light" <-> taskCount dl = 1%Z)
          /\ (label dl = js "Balanced" <-> (2 <= taskCount dl <= 3)%Z)
          /\ (label dl = js "Heavy" <-> (4 <= taskCount dl)%Z))
       (dailyBreakdown (performRuleBasedChecks p)).
Proof.
  unfold performRuleBasedChecks; cbv zeta; cbn [dailyBreakdown].
  rewrite groupTasksByDay_days. unfold calculateDailyLoads.
  rewrite !map_map. split.
  - cbn [load_day]. apply map_id.
  - apply Forall_map, Forall_forall. intros d _.
    cbn [taskCount load load_day label].
    set (n := Z.of_nat (count d (dailyTasks p))).
    assert (Hn : (0 <= n)%Z) by (subst n; lia). clearbody n.
    split; [reflexivity|]. split; [lia|].
    destruct (n * 2 =? 0)%Z eqn:E0.
    { apply Z.eqb_eq in E0.
      repeat split; intros; try lia; try reflexivity;
        match goal with Hx : js _ = js _ |- _ => discriminate Hx end. }
    apply Z.eqb_neq in E0.
    destruct (n * 2 <=? 3)%Z eqn:E3.
    { apply Z.leb_le in E3.
      repeat split; intros; try lia; try reflexivity;
        match goal with Hx : js _ = js _ |- _ => discriminate Hx end. }
    apply Z.leb_gt in E3.
    destruct (n * 2 >=? 7)%Z eqn:E7.
    { apply Z.geb_le in E7.
      repeat split; intros; try lia; try reflexivity;
        match goal with Hx : js _ = js _ |- _ => discriminate Hx end. }
    rewrite Z.geb_leb in E7. apply Z.leb_gt in E7.
    repeat split; intros; try lia; try reflexivity;
      match goal with Hx : js _ = js _ |- _ => discriminate Hx end.
Qed.

Lemma filter_length_Permutation {A} (f : A -> bool) (l l' : list A) :
  Permutation l l' -> length (List.filter f l) = length (List.filter f l').
Proof.
  induction 1 as [|x l l' _ IH|x y l|l l' l'' _ IH1 _ IH2]; simpl.
  - reflexivity.
  - destruct (f x); simpl; congruence.
  - destruct (f x), (f y); reflexivity.
  - congruence.
Qed.

(** X13. The feasibility check does not depend on the order of the
    tasks: two plans whose task lists are permutations of each other
    (same focus day and mood) get the same analysis, and the same result
    of [checkFeasibility]. *)
Theorem feasibility_order_independent
    (tasks tasks' : list DailyTask) (focus mood : jsstring) :
  Permutation tasks tasks' ->
  performRuleBasedChecks (mkPlan tasks focus mood)
  = performRuleBasedChecks (mkPlan tasks' focus mood)
  /\ forall callAIStructured now,
       checkFeasibility callAIStructured now (mkPlan tasks focus mood)
       = checkFeasibility callAIStructured now (mkPlan tasks' focus mood).
Proof.
  intros Hperm.
  assert (Hloads : calculateDailyLoads (groupTasksByDay tasks)
                   = calculateDailyLoads (groupTasksByDay tasks')).
  { rewrite !groupTasksByDay_days. unfold calculateDailyLoads.
    rewrite !map_map. apply map_ext. intros d.
    unfold tasksOn. rewrite (filter_length_Permutation _ _ _ Hperm).
    reflexivity. }
  assert (Hlen : length tasks = length tasks')
    by (apply Permutation_length, Hperm).
  assert (Hsame : performRuleBasedChecks (mkPlan tasks focus mood)
                  = performRuleBasedChecks (mkPlan tasks' focus mood)).
  { unfold performRuleBasedChecks; cbv zeta. cbn [dailyTasks Feasibility.mood].
    rewrite Hloads, Hlen. reflexivity. }
  split; [exact Hsame|]. intros callAIStructured now.
  unfold checkFeasibility; cbv zeta. rewrite Hsame.
  unfold performAIAnalysis; cbv zeta.
  cbn [dailyTasks Feasibility.mood mainFocusDay].
  rewrite Hloads, Hlen. reflexivity.
Qed.

Lemma feasibility_order_independent_witness :
  Permutation (dailyTasks Samples.heavyMonday)
              (rev (dailyTasks Samples.heavyMonday))
  /\ performRuleBasedChecks
       (mkPlan (dailyTasks Samples.heavyMonday) (js "Monday") (js "tired"))
     = performRuleBasedChecks
         (mkPlan (rev (dailyTasks Samples.heavyMonday)) (js "Monday")
            (js "tired")).
Proof.
  assert (H : Permutation (dailyTasks Samples.heavyMonday)
                          (rev (dailyTasks Samples.heavyMonday)))
    by apply Permutation_rev.
  split; [exact H|].
  exact (proj1 (feasibility_order_independent _ _ (js "Monday") (js "tired") H)).
Defined.

(** X14. When every provider fails, a plan with issues is answered with
    [success] false, the text that all services are unavailable, and the
    rule-based analysis; no verdict and no suggestion is reported. *)
Theorem checkFeasibility_on_outage
    (PRIMARY_PROVIDER : option jsstring) (env : Env)
    (g q h : jsstring -> Z -> Settled jsstring) (now : jsstring)
    (p : WeeklyPlan) :
  (forall provider prompt maxTokens,
     AiAPI.fails env g q h provider prompt maxTokens) ->
  hasIssues (performRuleBasedChecks p) = true ->
  checkFeasibility
    (fun prompt maxTokens =>
       (AiAPI.callAIStructured PRIMARY_PROVIDER env g q h prompt maxTokens).2)
    now p
  = Fulfilled
      (mkResult false None (performRuleBasedChecks p) None
         (Some (js "All AI services are temporarily unavailable. Manual input is still available."))
         None).
Proof.
  intros Hfail Hissues. unfold checkFeasibility; cbv zeta. rewrite Hissues.
  unfold performAIAnalysis; cbv zeta.
  unfold AiAPI.callAIStructured; cbv zeta. unfold AiAPI.callAI.
  match goal with
  | |- context [AiAPI.tryProviders env g q h ?c ?pr ?n] =>
      pose proof (tryProviders_rejected env g q h c pr n) as [Hrej Hagg];
      destruct (AiAPI.tryProviders env g q h c pr n).2 as [text|e] eqn:Hr
  end.
  - exfalso.
    destruct (proj2 Hrej) as [e He]; [|discriminate].
    apply Forall_forall. intros provider _. apply Hfail.
  - destruct (Hagg e eq_refl) as [-> _]. reflexivity.
Qed.

Lemma checkFeasibility_on_outage_witness :
  (forall provider prompt maxTokens,
     AiAPI.fails (mkEnv None None None) Samples.answering Samples.answering
       Samples.answering provider prompt maxTokens)
  /\ hasIssues (performRuleBasedChecks Samples.heavyMonday) = true
  /\ checkFeasibility
       (fun prompt maxTokens =>
          (AiAPI.callAIStructured None (mkEnv None None None)
             Samples.answering Samples.answering Samples.answering
             prompt maxTokens).2)
       Samples.now Samples.heavyMonday
     = Fulfilled
         (mkResult false None (performRuleBasedChecks Samples.heavyMonday)
            None
            (Some (js "All AI services are temporarily unavailable. Manual input is still available."))
            None).
Proof.
  assert (Hfail : forall provider prompt maxTokens,
            AiAPI.fails (mkEnv None None None) Samples.answering
              Samples.answering Samples.answering provider prompt maxTokens).
  { intros provider prompt maxTokens text. unfold AiAPI.attempt.
    destruct (JS.eqb provider (js "gemini")); [discriminate|].
    destruct (JS.eqb provider (js "groq")); [discriminate|].
    destruct (JS.eqb provider (js "huggingface")); discriminate. }
  assert (Hissues : hasIssues (performRuleBasedChecks Samples.heavyMonday)
                    = true) by (vm_compute; reflexivity).
  split; [exact Hfail|]. split; [exact Hissues|].
  exact (checkFeasibility_on_outage None (mkEnv None None None)
           Samples.answering Samples.answering Samples.answering
           Samples.now Samples.heavyMonday Hfail Hissues).
Defined.

End FeasibilityMore.

(** ** The downgrade engine, continued *)

(** X15. [shouldSuggestDowngrade] has one threshold per difficulty: 2
    misses for Hard, 3 for Medium, 4 for Easy, and never suggests for any
    other difficulty. So a suggestion at some miss count stays at every
    higher count, and what is suggested for an easier level is suggested
    for the harder ones. *)
Theorem shouldSuggestDowngrade_thresholds (missedCount : Z) :
  (TaskDowngrade.shouldSuggestDowngrade missedCount (js "Hard") = true
   <-> (2 <= missedCount)%Z)
  /\ (TaskDowngrade.shouldSuggestDowngrade missedCount (js "Medium") = true
      <-> (3 <= missedCount)%Z)
  /\ (TaskDowngrade.shouldSuggestDowngrade missedCount (js "Easy") = true
      <-> (4 <= missedCount)%Z)
  /\ (forall difficulty,
        difficulty <> js "Hard" -> difficulty <> js "Medium" ->
        difficulty <> js "Easy" ->
        TaskDowngrade.shouldSuggestDowngrade missedCount difficulty = false)
  /\ (forall difficulty more,
        (missedCount <= more)%Z ->
        TaskDowngrade.shouldSuggestDowngrade missedCount difficulty = true ->
        TaskDowngrade.shouldSuggestDowngrade more difficulty = true)
  /\ (TaskDowngrade.shouldSuggestDowngrade missedCount (js "Easy") = true ->
      TaskDowngrade.shouldSuggestDowngrade missedCount (js "Medium") = true)
  /\ (TaskDowngrade.shouldSuggestDowngrade missedCount (js "Medium") = true ->
      TaskDowngrade.shouldSuggestDowngrade missedCount (js "Hard") = true).
Proof.
  assert (Hh : TaskDowngrade.shouldSuggestDowngrade missedCount (js "Hard")
               = (missedCount >=? 2)%Z)
    by (unfold TaskDowngrade.shouldSuggestDowngrade;
        destruct (missedCount >=? 2)%Z, (missedCount >=? 3)%Z,
          (missedCount >=? 4)%Z; reflexivity).
  assert (Hm : TaskDowngrade.shouldSuggestDowngrade missedCount (js "Medium")
               = (missedCount >=? 3)%Z)
    by (unfold TaskDowngrade.shouldSuggestDowngrade;
        destruct (missedCount >=? 2)%Z, (missedCount >=? 3)%Z,
          (missedCount >=? 4)%Z; reflexivity).
  assert (He : TaskDowngrade.shouldSuggestDowngrade missedCount (js "Easy")
               = (missedCount >=? 4)%Z)
    by (unfold TaskDowngrade.shouldSuggestDowngrade;
        destruct (missedCount >=? 2)%Z, (missedCount >=? 3)%Z,
          (missedCount >=? 4)%Z; reflexivity).
  rewrite Hh, Hm, He, !Z.geb_le.
  split; [tauto|]. split; [tauto|]. split; [tauto|].
  split; [|split; [|split; lia]].
  - intros difficulty H1 H2 H3. unfold TaskDowngrade.shouldSuggestDowngrade.
    apply eqb_neq in H1, H2, H3. rewrite H1, H2, H3. reflexivity.
  - intros difficulty more Hle. unfold TaskDowngrade.shouldSuggestDowngrade.
    destruct (JS.eqb difficulty (js "Hard")),
             (JS.eqb difficulty (js "Medium")),
             (JS.eqb difficulty (js "Easy")); cbn [andb];
      threshold_cases; intros; try discriminate; try reflexivity; lia.
Qed.

(** X16. [getRuleBasedDowngrade] reads the difficulty only as Hard,
    Medium or anything else: every other value, a misspelt or lower-case
    level included, gets the suggestion of the Easy level. *)
Theorem getRuleBasedDowngrade_default_level
    (toLowerCase : jsstring -> jsstring) (taskName difficulty : jsstring) :
  difficulty <> js "Hard" ->
  difficulty <> js "Medium" ->
  TaskDowngrade.getRuleBasedDowngrade toLowerCase taskName difficulty
  = TaskDowngrade.getRuleBasedDowngrade toLowerCase taskName (js "Easy").
Proof.
  intros H1 H2. apply eqb_neq in H1, H2.
  assert (E1 : JS.eqb (js "Easy") (js "Hard") = false)
    by (vm_compute; reflexivity).
  assert (E2 : JS.eqb (js "Easy") (js "Medium") = false)
    by (vm_compute; reflexivity).
  unfold TaskDowngrade.getRuleBasedDowngrade; cbv zeta.
  rewrite H1, H2, E1, E2. reflexivity.
Qed.

Lemma getRuleBasedDowngrade_default_level_witness :
  js "hard" <> js "Hard" /\ js "hard" <> js "Medium"
  /\ TaskDowngrade.getRuleBasedDowngrade asciiLower (js "Gym") (js "hard")
     = TaskDowngrade.getRuleBasedDowngrade asciiLower (js "Gym") (js "Easy").
Proof.
  assert (H1 : js "hard" <> js "Hard") by discriminate.
  assert (H2 : js "hard" <> js "Medium") by discriminate.
  split; [exact H1|]. split; [exact H2|].
  exact (getRuleBasedDowngrade_default_level asciiLower (js "Gym")
           (js "hard") H1 H2).
Defined.

(** ** The overthinking guard, continued *)

(** X17. Below five edits the guard makes no text generation call: its
    result is the same whatever the call would do. With three or more
    inactive days it is the triggered result with severity inactive and
    the canned inactivity message; otherwise it is the bare
    non-triggered result. *)
Theorem checkOverthinking_without_call
    (callClaude callClaude' : jsstring -> Z -> Settled jsstring)
    (now : jsstring) (editCount daysInactive : Z) :
  (editCount < 5)%Z ->
  OverthinkingGuard.checkOverthinking callClaude now editCount daysInactive
  = OverthinkingGuard.checkOverthinking callClaude' now editCount
      daysInactive
  /\ ((3 <= daysInactive)%Z ->
      OverthinkingGuard.checkOverthinking callClaude now editCount
        daysInactive
      = Fulfilled
          (OverthinkingGuard.mkResult true true (Some (js "inactive"))
             (Some editCount) (Some daysInactive)
             (Some (OverthinkingGuard.getInactivityMessage daysInactive))
             (Some now) None))
  /\ ((daysInactive < 3)%Z ->
      OverthinkingGuard.checkOverthinking callClaude now editCount
        daysInactive
      = Fulfilled
          (OverthinkingGuard.mkResult true false None None None None None
             None)).
Proof.
  intros He. rewrite !checkOverthinking_shapes.
  assert (E5 : (editCount >=? 5)%Z = false)
    by (rewrite Z.geb_leb; apply Z.leb_gt; lia).
  rewrite E5. split; [reflexivity|]. split; intros Hd.
  - assert (E3 : (daysInactive >=? 3)%Z = true) by (apply Z.geb_le; lia).
    rewrite E3. reflexivity.
  - assert (E3 : (daysInactive >=? 3)%Z = false)
      by (rewrite Z.geb_leb; apply Z.leb_gt; lia).
    rewrite E3. reflexivity.
Qed.

Lemma checkOverthinking_without_call_witness :
  (4 < 5)%Z
  /\ OverthinkingGuard.checkOverthinking Samples.outage Samples.now 4 9
     = OverthinkingGuard.checkOverthinking Samples.answering Samples.now 4 9.
Proof.
  split; [lia|].
  exact (proj1 (checkOverthinking_without_call Samples.outage
                  Samples.answering Samples.now 4 9 ltac:(lia))).
Defined.

Lemma removeQuotes_clean (s : jsstring) :
  Forall (fun c => c <> squote /\ c <> dquote) (removeQuotes s).
Proof.
  unfold removeQuotes. apply Forall_forall. intros c Hc.
  apply list_elem_of_In, filter_In in Hc as [_ Hc].
  apply negb_true_iff, orb_false_iff in Hc as [H1 H2].
  apply N.eqb_neq in H1, H2. auto.
Qed.

(** X18. A message the guard takes from the text generation call carries
    no apostrophe and no double quote: on every triggered result outside
    the fallback with five edits or more, the message is the answer of
    the call, trimmed, with all quote characters deleted. *)
Theorem checkOverthinking_message_unquoted
    (callClaude : jsstring -> Z -> Settled jsstring) (now : jsstring)
    (editCount daysInactive : Z) (r : OverthinkingGuard.Result) :
  (5 <= editCount)%Z ->
  OverthinkingGuard.checkOverthinking callClaude now editCount daysInactive
  = Fulfilled r ->
  OverthinkingGuard.fallbackMode r = None ->
  exists prompt answer,
    callClaude prompt 100%Z = Fulfilled answer
    /\ OverthinkingGuard.message r = Some (removeQuotes (trim answer))
    /\ Forall (fun c => c <> squote /\ c <> dquote)
              (removeQuotes (trim answer)).
Proof.
  intros He. rewrite checkOverthinking_shapes.
  assert (E5 : (editCount >=? 5)%Z = true) by (apply Z.geb_le; lia).
  rewrite E5. unfold OverthinkingGuard.generateAIWarning; cbv zeta.
  match goal with
  | |- context [callClaude ?p 100%Z] =>
      destruct (callClaude p 100%Z) as [answer|e] eqn:Hcall
  end.
  - intros [= <-] _. cbn [OverthinkingGuard.message].
    eexists _, answer. split; [exact Hcall|]. split; [reflexivity|].
    apply removeQuotes_clean.
  - intros [= <-]. unfold OverthinkingGuard.fallback.
    cbn [OverthinkingGuard.fallbackMode]. discriminate.
Qed.

Lemma checkOverthinking_message_unquoted_witness :
  (5 <= 6)%Z
  /\ exists r,
       OverthinkingGuard.checkOverthinking Samples.answering Samples.now 6 0
       = Fulfilled r
       /\ OverthinkingGuard.fallbackMode r = None
       /\ exists prompt answer,
            Samples.answering prompt 100%Z = Fulfilled answer
            /\ OverthinkingGuard.message r
               = Some (removeQuotes (trim answer)).
Proof.
  split; [lia|].
  destruct (OverthinkingGuard.checkOverthinking Samples.answering
              Samples.now 6 0) as [r|e] eqn:E.
  - exists r. split; [reflexivity|].
    assert (Hf : OverthinkingGuard.fallbackMode r = None).
    { vm_compute in E. injection E as <-. reflexivity. }
    split; [exact Hf|].
    destruct (checkOverthinking_message_unquoted Samples.answering
                Samples.now 6 0 r ltac:(lia) E Hf)
      as (prompt & answer & H1 & H2 & _).
    exists prompt, answer. split; [exact H1|exact H2].
  - exfalso. vm_compute in E. discriminate E.
Defined.

(** The quotes are deleted after the trim, so white space that stood
    inside quotes stays at the ends of the message. *)
Example generateAIWarning_keeps_inner_space :
  OverthinkingGuard.generateAIWarning
    (fun _ _ => Fulfilled (js "' Stop tweaking. '")) 6 (js "moderate")
  = Fulfilled (js " Stop tweaking. ").
Proof. vm_compute. reflexivity. Qed.

(** ** The execution nudge *)



(** ** Lines and their items *)

Lemma hasLineFeed_skipWhile (p : N -> bool) (s : jsstring) :
  hasLineFeed s = false -> hasLineFeed (skipWhile p s) = false.
Proof.
  unfold hasLineFeed. induction s as [|c s IH]; [reflexivity|].
  cbn [existsb skipWhile]. intros H. apply orb_false_iff in H as [Hc Hs].
  destruct (p c); [apply IH, Hs|]. cbn [existsb]. rewrite Hc, Hs. reflexivity.
Qed.

Lemma hasLineFeed_rev (s : jsstring) : hasLineFeed (rev s) = hasLineFeed s.
Proof.
  unfold hasLineFeed. induction s as [|c s IH]; [reflexivity|].
  cbn [rev existsb]. rewrite existsb_app, IH. cbn [existsb].
  rewrite orb_false_r. apply orb_comm.
Qed.

Lemma hasLineFeed_trim (s : jsstring) :
  hasLineFeed s = false -> hasLineFeed (trim s) = false.
Proof.
  intros H. unfold trim, trimEnd, trimStart.
  rewrite hasLineFeed_rev. apply hasLineFeed_skipWhile.
  rewrite hasLineFeed_rev. apply hasLineFeed_skipWhile, H.
Qed.

Lemma hasLineFeed_stripLeading (markers : list N) (s : jsstring) :
  hasLineFeed s = false -> hasLineFeed (stripLeading markers s) = false.
Proof.
  intros H. destruct s as [|c s]; [reflexivity|]. cbn [stripLeading].
  destruct (existsb (N.eqb c) markers); [|exact H].
  apply hasLineFeed_skipWhile. unfold hasLineFeed in *. cbn [existsb] in H.
  apply orb_false_iff in H. tauto.
Qed.

(** The pieces of a split hold no separator. *)
Lemma split_single_lines (s : jsstring) :
  Forall (fun l => hasLineFeed l = false) (split LF s).
Proof.
  induction s as [|c s IH]; [repeat constructor|].
  cbn [split]. destruct (c =? LF)%N eqn:E.
  - constructor; [reflexivity|exact IH].
  - destruct (split LF s) as [|l ls]; [repeat constructor|].
    + unfold hasLineFeed. cbn [existsb]. rewrite N.eqb_sym, E. reflexivity.
    + inversion IH as [|? ? Hl Hls]; subst. constructor; [|exact Hls].
      unfold hasLineFeed in *. cbn [existsb]. rewrite N.eqb_sym, E, Hl.
      reflexivity.
Qed.

(** X20. Every task the task extraction returns is a non-empty,
    trimmed, single-line text. *)
Theorem parseTasks_items (aiResponse : jsstring) :
  Forall (fun task => truthy task = true /\ trim task = task
                      /\ hasLineFeed task = false)
         (Routes.parseTasks aiResponse).
Proof.
  unfold Routes.parseTasks. apply Forall_forall. intros task Htask.
  apply list_elem_of_In, filter_In in Htask as [Htask Hlen].
  apply in_map_iff in Htask as (line & <- & Hline).
  apply filter_In in Hline as [Hline _].
  pose proof (split_single_lines aiResponse) as Hsingle.
  rewrite Forall_forall in Hsingle.
  apply list_elem_of_In, Hsingle in Hline.
  split; [|split].
  - destruct (trim _); [discriminate Hlen|reflexivity].
  - apply trim_idem.
  - apply hasLineFeed_trim, hasLineFeed_stripLeading, Hline.
Qed.

Section ReflectionMore.

Import WeeklyReflection.

Variable toLowerCase : jsstring -> jsstring.

(** The items of a state are non-empty, trimmed and on one line. *)
Local Abbreviation kept st :=
  (forall k its, sections st !! k = Some its ->
     Forall (fun x => truthy x = true /\ trim x = x /\ hasLineFeed x = false)
            its).

Lemma visit_kept (st st' : State) (line : jsstring) :
  hasLineFeed line = false -> kept st ->
  visit toLowerCase st line = Some st' -> kept st'.
Proof.
  intros Hline Hst. unfold visit.
  destruct (detectHeader toLowerCase (trim line));
    [intros [= <-]; exact Hst|].
  destruct (currentSection st) as [cur|]; [|intros [= <-]; exact Hst].
  destruct (isBulletLine (trim line)); [|intros [= <-]; exact Hst].
  destruct (truthy (contentOf (trim line))) eqn:Ht;
    [|intros [= <-]; exact Hst].
  destruct (sections st !! cur) as [its|] eqn:Hits; [|discriminate].
  intros [= <-] k its'. cbn [sections].
  destruct (decide (cur = k)) as [->|Hne].
  - rewrite lookup_insert_eq. intros [= <-]. apply Forall_app. split.
    + apply (Hst k its Hits).
    + constructor; [|constructor]. split; [exact Ht|]. split.
      * apply trim_idem.
      * apply hasLineFeed_trim, hasLineFeed_stripLeading, hasLineFeed_trim.
        exact Hline.
  - rewrite lookup_insert_ne by exact Hne. apply Hst.
Qed.

Lemma forEach_kept (lines : list jsstring) :
  forall st st',
    Forall (fun l => hasLineFeed l = false) lines -> kept st ->
    forEach toLowerCase lines st = Some st' -> kept st'.
Proof.
  induction lines as [|line lines IH]; intros st st' Hlines Hst.
  - intros [= <-]. exact Hst.
  - inversion Hlines as [|? ? Hl Hls]; subst. cbn [forEach].
    destruct (visit toLowerCase st line) as [st1|] eqn:Hv; [|discriminate].
    apply (IH st1 st' Hls). eapply visit_kept; eauto.
Qed.

(** X21. Every item of every section that [parseReflectionSections]
    returns is a non-empty, trimmed, single-line text. *)
Theorem parseReflectionSections_items (aiResponse : jsstring)
    (m : gmap string (list jsstring)) (k : string) (its : list jsstring) :
  parseReflectionSections toLowerCase aiResponse = Some m ->
  m !! k = Some its ->
  Forall (fun x => truthy x = true /\ trim x = x /\ hasLineFeed x = false)
         its.
Proof.
  unfold parseReflectionSections.
  destruct (forEach toLowerCase (linesOf aiResponse) initial) as [st|] eqn:E;
    [|discriminate].
  intros [= <-]. revert k its.
  apply (forEach_kept (linesOf aiResponse) initial st); [| |exact E].
  - unfold linesOf. pose proof (split_single_lines aiResponse) as H.
    rewrite Forall_forall in H |- *. intros l Hl. apply H.
    apply list_elem_of_In in Hl. apply filter_In in Hl as [Hl _].
    apply list_elem_of_In, Hl.
  - intros k its Hk. unfold initial in Hk. cbn [sections] in Hk.
    destruct (decide (k ∈ sectionKeys)) as [Hin|Hout].
    + rewrite (initial_lookup k Hin) in Hk. injection Hk as <-. constructor.
    + exfalso. apply Hout. pose proof initial_invariant as [Hdom _].
      assert (Hin : k ∈ (list_to_set sectionKeys : gset string)).
      { rewrite <- Hdom. apply elem_of_dom. unfold initial.
        cbn [sections]. eauto. }
      rewrite elem_of_list_to_set in Hin. exact Hin.
Qed.

(** The callback reads a line through its trimmed form only. *)
Lemma visit_trim (st : State) (line line' : jsstring) :
  trim line = trim line' ->
  visit toLowerCase st line = visit toLowerCase st line'.
Proof. intros H. unfold visit. rewrite H. reflexivity. Qed.

Lemma forEach_trim (lines : list jsstring) :
  forall (lines' : list jsstring) (st : State),
    map trim lines = map trim lines' ->
    forEach toLowerCase (List.filter (fun l => truthy (trim l)) lines) st
    = forEach toLowerCase (List.filter (fun l => truthy (trim l)) lines') st.
Proof.
  induction lines as [|l lines IH]; intros [|l' lines'] st Hmap;
    try discriminate Hmap; [reflexivity|].
  cbn [map] in Hmap. injection Hmap as Hl Hmap.
  cbn [List.filter]. rewrite Hl.
  destruct (truthy (trim l')); [|apply IH, Hmap].
  cbn [forEach]. rewrite (visit_trim st l l' Hl).
  destruct (visit toLowerCase st l'); [apply IH, Hmap|reflexivity].
Qed.

(** X22. The section parser reads each line through its trimmed form
    only and skips blank lines: two texts whose lines agree once trimmed
    (indentation, trailing carriage returns) give the same sections, and
    so do a text and the same text with a blank line put in. *)
Theorem parseReflectionSections_layout :
  (forall lines lines' : list jsstring,
     lines <> [] ->
     Forall (fun l => hasLineFeed l = false) lines ->
     Forall (fun l => hasLineFeed l = false) lines' ->
     map trim lines = map trim lines' ->
     parseReflectionSections toLowerCase (join [LF] lines)
     = parseReflectionSections toLowerCase (join [LF] lines'))
  /\ (forall above blank below : jsstring,
        hasLineFeed blank = false ->
        trim blank = [] ->
        parseReflectionSections toLowerCase
          (above ++ [LF] ++ blank ++ [LF] ++ below)
        = parseReflectionSections toLowerCase (above ++ [LF] ++ below)).
Proof.
  split.
  - intros lines lines' Hne Hl Hl' Hmap.
    assert (Hne' : lines' <> []).
    { intros ->. destruct lines; [congruence|discriminate Hmap]. }
    unfold parseReflectionSections, linesOf.
    rewrite !split_join by assumption.
    rewrite (forEach_trim lines lines' initial Hmap). reflexivity.
  - intros above blank below Hlf Hblank.
    unfold parseReflectionSections.
    rewrite (linesOf_app above (blank ++ [LF] ++ below)).
    rewrite (linesOf_app blank below), (linesOf_app above below).
    assert (E : linesOf blank = []).
    { unfold linesOf. rewrite (split_one_line blank Hlf).
      cbn [List.filter]. rewrite Hblank. reflexivity. }
    rewrite E. reflexivity.
Qed.

End ReflectionMore.

Lemma parseReflectionSections_layout_witness :
  hasLineFeed (js "  	") = false /\ trim (js "  	") = []
  /\ WeeklyReflection.parseReflectionSections asciiLower
       (js "What went well" ++ [LF] ++ js "  	" ++ [LF] ++ js "- Slept enough")
     = WeeklyReflection.parseReflectionSections asciiLower
         (js "What went well" ++ [LF] ++ js "- Slept enough").
Proof.
  split; [reflexivity|]. split; [reflexivity|].
  exact (proj2 (parseReflectionSections_layout asciiLower)
           (js "What went well") (js "  	") (js "- Slept enough")
           eq_refl eq_refl).
Defined.

Example reflection_with_carriage_returns :
  WeeklyReflection.entries
    <$> WeeklyReflection.parseReflectionSections asciiLower
          (join [LF] [js "What went well" ++ [13%N];
                      js "   - Slept enough" ++ [13%N]])
  = WeeklyReflection.entries
      <$> WeeklyReflection.parseReflectionSections asciiLower
            (join [LF] [js "What went well"; js "- Slept enough"]).
Proof. vm_compute. reflexivity. Qed.

Lemma parseReflectionSections_total (toLowerCase : jsstring -> jsstring)
    (aiResponse : jsstring) :
  exists m,
    WeeklyReflection.parseReflectionSections toLowerCase aiResponse = Some m
    /\ dom m = list_to_set WeeklyReflection.sectionKeys
    /\ forall k, k ∈ WeeklyReflection.sectionKeys -> is_Some (m !! k).
Proof.
  unfold WeeklyReflection.parseReflectionSections.
  destruct (forEach_invariant toLowerCase
              (WeeklyReflection.linesOf aiResponse) WeeklyReflection.initial
              (initial_invariant)) as (st & Hrun & Hinv).
  rewrite Hrun. exists (WeeklyReflection.sections st).
  split; [reflexivity|]. split; [apply Hinv|].
  intros k Hk. apply invariant_lookup; auto.
Qed.

Lemma parseReflectionSections_items_witness :
  exists m its,
    WeeklyReflection.parseReflectionSections asciiLower Samples.reflection
    = Some m
    /\ m !! "suggestions"%string = Some its
    /\ Forall (fun x => truthy x = true /\ trim x = x
                        /\ hasLineFeed x = false) its.
Proof.
  destruct (parseReflectionSections_total asciiLower Samples.reflection)
    as (m & Hm & _ & Hkeys).
  destruct (Hkeys "suggestions"%string) as [its Hits].
  { unfold WeeklyReflection.sectionKeys. do 3 right. left. }
  exists m, its. split; [exact Hm|]. split; [exact Hits|].
  exact (parseReflectionSections_items asciiLower Samples.reflection m
           "suggestions"%string its Hm Hits).
Defined.

(** ** The weekly reflection engine *)

Section ReflectionEngineFacts.

Import Reflection.

Variable toLowerCase : jsstring -> jsstring.
Variable now : jsstring.
Variable percent : Z -> Z -> Z.
Variable callClaudeStructured : option (jsstring -> Z -> Settled jsstring).

Local Abbreviation generateFallbackReflection :=
  (Reflection.generateFallbackReflection percent).
Local Abbreviation generateAIReflection :=
  (Reflection.generateAIReflection percent callClaudeStructured).
Local Abbreviation generateWeeklyReflection :=
  (Reflection.generateWeeklyReflection toLowerCase now percent
     callClaudeStructured).

Lemma fallback_keys (weekData : WeekData) :
  dom (generateFallbackReflection weekData)
  = list_to_set WeeklyReflection.sectionKeys.
Proof.
  unfold Reflection.generateFallbackReflection; cbv zeta.
  rewrite !dom_insert_L, dom_empty_L.
  unfold WeeklyReflection.sectionKeys. cbn [list_to_set foldr].
  reflexivity.
Qed.

(** X23. Whatever the completion rate, the rule-based reflection has
    exactly the four section keys; it names one or two things that went
    well and two or three suggestions, at most two things that went
    wrong, none of them when no task was missed, and at most two possible
    reasons. *)
Theorem generateFallbackReflection_shape (weekData : WeekData) :
  exists well wrong reasons suggestions,
    generateFallbackReflection weekData !! "whatWentWell"%string = Some well
    /\ generateFallbackReflection weekData !! "whatWentWrong"%string
       = Some wrong
    /\ generateFallbackReflection weekData !! "possibleReasons"%string
       = Some reasons
    /\ generateFallbackReflection weekData !! "suggestions"%string
       = Some suggestions
    /\ dom (generateFallbackReflection weekData)
       = list_to_set WeeklyReflection.sectionKeys
    /\ (1 <= length well <= 2)%nat
    /\ (length wrong <= 2)%nat
    /\ ((missedTasks weekData <= 0)%Z -> wrong = [])
    /\ (length reasons <= 2)%nat
    /\ (2 <= length suggestions <= 3)%nat.
Proof.
  pose proof (fallback_keys weekData) as Hdom.
  unfold Reflection.generateFallbackReflection in *; cbv zeta in *.
  do 4 eexists.
  split; [reflexivity|]. split; [reflexivity|]. split; [reflexivity|].
  split; [reflexivity|]. split; [exact Hdom|].
  split; [|split; [|split; [|split]]].
  - repeat match goal with
           | |- context [if ?b then _ else _] => destruct b
           end; cbn [length]; lia.
  - repeat match goal with
           | |- context [if ?b then _ else _] => destruct b
           end; cbn [length app]; lia.
  - intros Hm.
    assert (E : (missedTasks weekData >? 0)%Z = false)
      by (rewrite Z.gtb_ltb; apply Z.ltb_ge; exact Hm).
    rewrite E. reflexivity.
  - repeat match goal with
           | |- context [if ?b then _ else _] => destruct b
           end; cbn [length app]; lia.
  - repeat match goal with
           | |- context [if ?b then _ else _] => destruct b
           end; cbn [length app]; lia.
Qed.

(** X24. [generateWeeklyReflection] always resolves with [success] true
    and a reflection that has exactly the four section keys. Its
    [fallbackMode] is set exactly when the elaboration failed, and then
    the reflection is the rule-based one; otherwise the raw answer is
    reported and the reflection is parsed from it. The elaboration fails
    whenever the week data has no task breakdown or the identifier the
    module calls is not bound. *)
Theorem generateWeeklyReflection_degrades (weekData : WeekData) :
  exists r,
    generateWeeklyReflection weekData = Fulfilled r
    /\ success r = true
    /\ dom (reflection r) = list_to_set WeeklyReflection.sectionKeys
    /\ (fallbackMode r = Some true <->
        exists e, generateAIReflection weekData = Rejected e)
    /\ (fallbackMode r = Some true ->
        reflection r = generateFallbackReflection weekData
        /\ rawAIResponse r = None)
    /\ (forall answer,
          generateAIReflection weekData = Fulfilled answer ->
          fallbackMode r = None /\ rawAIResponse r = Some answer
          /\ WeeklyReflection.parseReflectionSections toLowerCase answer
             = Some (reflection r))
    /\ (taskBreakdown weekData = None \/ callClaudeStructured = None ->
        fallbackMode r = Some true).
Proof.
  assert (Hmissing : taskBreakdown weekData = None
                     \/ callClaudeStructured = None ->
                     exists e, generateAIReflection weekData = Rejected e).
  { unfold Reflection.generateAIReflection; cbv zeta.
    intros [H|H]; rewrite H; [eauto|].
    destruct (taskBreakdown weekData); eauto. }
  unfold Reflection.generateWeeklyReflection; cbv zeta.
  destruct (generateAIReflection weekData) as [answer|e] eqn:Hai.
  - destruct (parseReflectionSections_total toLowerCase answer)
      as (m & Hm & Hdom & _).
    rewrite Hm. eexists. split; [reflexivity|].
    cbn [success reflection fallbackMode rawAIResponse].
    split; [reflexivity|]. split; [exact Hdom|].
    split; [split; [discriminate|intros [e He]; discriminate]|].
    split; [discriminate|].
    split; [intros a [= <-]; auto|].
    intros H. destruct (Hmissing H) as [e He]. discriminate.
  - eexists. split; [reflexivity|]. unfold fallback.
    cbn [success reflection fallbackMode rawAIResponse].
    split; [reflexivity|]. split; [apply fallback_keys|].
    split; [split; eauto|]. split; [auto|]. split; [discriminate|]. auto.
Qed.

End ReflectionEngineFacts.

(** ** The handlers *)

Section HandlerFacts.

Variable toLowerCase : jsstring -> jsstring.
Variable now : jsstring.
Variable percent : Z -> Z -> Z.
Variable callAIStructured : jsstring -> Z -> Settled jsstring.
Variable guardCallClaude : jsstring -> Z -> Settled jsstring.
Variable downgradeCallClaude : option (jsstring -> Z -> Settled jsstring).
Variable callClaudeStructured : option (jsstring -> Z -> Settled jsstring).

Local Abbreviation checkFeasibilityRoute :=
  (Api.checkFeasibilityRoute now callAIStructured).
Local Abbreviation suggestDowngradeRoute :=
  (Api.suggestDowngradeRoute toLowerCase now downgradeCallClaude).
Local Abbreviation checkOverthinkingRoute :=
  (Api.checkOverthinkingRoute now guardCallClaude).
Local Abbreviation weeklyReflectionRoute :=
  (Api.weeklyReflectionRoute toLowerCase now percent callClaudeStructured).



(** X27. POST /check-overthinking answers 400 exactly when the body has
    no edit count (an edit count of 0 is accepted), and 200 otherwise,
    never 500. A missing inactivity counts as 0 days, and the result is
    triggered exactly when the edit count is at least 5 or the inactivity
    at least 3. *)
Theorem checkOverthinkingRoute_answers (body : Api.OverthinkingBody) :
  (Api.status (checkOverthinkingRoute body) = 400%Z <->
   Api.ob_editCount body = None)
  /\ Api.status (checkOverthinkingRoute body) <> 500%Z
  /\ (forall editCount,
        Api.ob_editCount body = Some editCount ->
        exists r,
          checkOverthinkingRoute body = Api.Ok r
          /\ OverthinkingGuard.checkOverthinking guardCallClaude now
               editCount (default 0%Z (Api.ob_daysInactive body))
             = Fulfilled r
          /\ OverthinkingGuard.triggered r
             = ((editCount >=? 5)%Z
                || (default 0%Z (Api.ob_daysInactive body) >=? 3)%Z)).
Proof.
  unfold Api.checkOverthinkingRoute.
  destruct (Api.ob_editCount body) as [editCount|]; cbn [Api.status].
  2: { split; [tauto|]. split; [discriminate|]. intros count Hc. discriminate. }
  assert (Hd : Api.orElse (Api.ob_daysInactive body) 0
               = default 0%Z (Api.ob_daysInactive body)).
  { unfold Api.orElse. destruct (Api.ob_daysInactive body) as [[|d|d]|];
      reflexivity. }
  rewrite Hd. set (days := default 0%Z (Api.ob_daysInactive body)).
  pose proof (checkOverthinking_shapes guardCallClaude now editCount days)
    as Hs.
  destruct (OverthinkingGuard.checkOverthinking guardCallClaude now
              editCount days) as [r|err] eqn:Hr.
  2: { exfalso. destruct (editCount >=? 5)%Z;
         [destruct (OverthinkingGuard.generateAIWarning _ _ _)
         |destruct (days >=? 3)%Z]; discriminate Hs. }
  cbn [Api.status]. split; [split; discriminate|]. split; [discriminate|].
  intros count [= <-]. exists r. split; [reflexivity|]. split; [exact Hr|].
  destruct (editCount >=? 5)%Z eqn:E5;
    [destruct (OverthinkingGuard.generateAIWarning _ _ _)
    |destruct (days >=? 3)%Z];
    injection Hs as ->; unfold OverthinkingGuard.fallback;
    cbn [OverthinkingGuard.triggered]; rewrite ?E5; reflexivity.
Qed.

(** X28. POST /weekly-reflection answers 400 exactly when the total or
    the completed count is missing or 0, so a week in which no task was
    completed gets no reflection; it answers 200 otherwise, never 500,
    with a result whose reflection has exactly the four section keys. *)
Theorem weeklyReflectionRoute_answers (body : Api.ReflectionBody) :
  (Api.status (weeklyReflectionRoute body) = 400%Z <->
   Api.rb_totalTasks body = None \/ Api.rb_totalTasks body = Some 0%Z
   \/ Api.rb_completedTasks body = None
   \/ Api.rb_completedTasks body = Some 0%Z)
  /\ Api.status (weeklyReflectionRoute body) <> 500%Z
  /\ (forall r,
        weeklyReflectionRoute body = Api.Ok r ->
        Reflection.success r = true
        /\ dom (Reflection.reflection r)
           = list_to_set WeeklyReflection.sectionKeys).
Proof.
  assert (Hnum : forall n, Api.truthyNumber n = false <->
                           n = None \/ n = Some 0%Z).
  { intros [[|v|v]|]; cbn [Api.truthyNumber Z.eqb negb]; split;
      try discriminate; auto; intros [H|H]; discriminate. }
  unfold Api.weeklyReflectionRoute.
  destruct (negb (Api.truthyNumber (Api.rb_totalTasks body))
            || negb (Api.truthyNumber (Api.rb_completedTasks body))) eqn:E.
  - cbn [Api.status]. split; [|split; [discriminate|intros r Hr; discriminate]].
    split; [intros _|reflexivity].
    apply orb_true_iff in E as [E|E]; apply negb_true_iff, Hnum in E; tauto.
  - apply orb_false_iff in E as [E1 E2]. apply negb_false_iff in E1, E2.
    assert (Hnot : ~ (Api.rb_totalTasks body = None
                      \/ Api.rb_totalTasks body = Some 0%Z
                      \/ Api.rb_completedTasks body = None
                      \/ Api.rb_completedTasks body = Some 0%Z)).
    { intros [H|[H|[H|H]]].
      - assert (Api.truthyNumber (Api.rb_totalTasks body) = false)
          by (apply Hnum; auto). congruence.
      - assert (Api.truthyNumber (Api.rb_totalTasks body) = false)
          by (apply Hnum; auto). congruence.
      - assert (Api.truthyNumber (Api.rb_completedTasks body) = false)
          by (apply Hnum; auto). congruence.
      - assert (Api.truthyNumber (Api.rb_completedTasks body) = false)
          by (apply Hnum; auto). congruence. }
    unfold Reflection.generateWeeklyReflection; cbv zeta.
    destruct (Reflection.generateAIReflection percent callClaudeStructured _)
      as [answer|e].
    + destruct (parseReflectionSections_total toLowerCase answer)
        as (m & Hm & Hdom & _).
      rewrite Hm. cbn [Api.status].
      split; [split; [discriminate|tauto]|]. split; [discriminate|].
      intros r [= <-]. cbn [Reflection.success Reflection.reflection].
      split; [reflexivity|exact Hdom].
    + cbn [Api.status].
      split; [split; [discriminate|tauto]|]. split; [discriminate|].
      intros r [= <-]. unfold Reflection.fallback.
      cbn [Reflection.success Reflection.reflection].
      split; [reflexivity|]. apply fallback_keys.
Qed.

End HandlerFacts.

Example weekly_reflection_without_completed_tasks :
  Api.weeklyReflectionRoute asciiLower Samples.now (fun _ _ => 0%Z) None
    (Api.mkReflectionBody (Some 5%Z) (Some 0%Z) 5 (Some []) (js "tired")
       (js "Monday"))
  = Api.BadRequest (js "Week summary data is required").
Proof. reflexivity. Qed.
